(** * The decision loop of the market agent (agent/internal/runtime/runtime.go)

    A shallow embedding of the Go functions that turn model output into a
    validated, risk-checked action, and the properties of them that the
    specification states.

    Conventions.
    - Go [string] is [Stdlib.Strings.String.string], a sequence of bytes; a
      text is its UTF-8 encoding.
    - [strings.TrimSpace] removes the white space of Unicode: the encodings of
      the runes of [unicode.IsSpace] are listed in [spaceRunes].
    - [strings.ToLower], [strings.ToUpper] and [strings.EqualFold] are Go's on
      ASCII text.  On other text they read the case tables of Go's [unicode]
      package, which are not part of this program: there they are the members
      of the class [Unicode], and every theorem holds for whatever tables the
      class is given.
    - Go [float64] is the kernel's binary64 [float] with its own operations, so
      every comparison and subtraction rounds exactly as the program's does.
    - Go [uint64] and [int] are [Z]; every operation that can wrap is written
      with its reduction modulo 2^64.
    - Go maps are stdpp [gmap]s; a missing key reads as the zero value. *)

From Stdlib Require Import ZArith Lia List String Ascii Bool Floats.
From Stdlib Require Import Sorting.Sorted Sorting.Permutation.
From Stdlib Require Import Numbers.DecimalString.
From stdpp Require Import gmap strings.

Set Warnings "-inexact-float".
Open Scope string_scope.
Open Scope Z_scope.

(* ===================================================================== *)
(** * Part I: definitions                                                  *)
(* ===================================================================== *)

(** ** Go's [strings] package *)

(** What [strings.ToLower], [strings.ToUpper] and [strings.EqualFold] do with a
    text that is not all ASCII: [strings.Map(unicode.ToLower, s)],
    [strings.Map(unicode.ToUpper, s)], and the rune-by-rune comparison under
    [unicode.SimpleFold] that [EqualFold] enters at the first byte outside
    ASCII, given the rest of both texts. *)
Class Unicode := {
  MapToLower : string -> string;
  MapToUpper : string -> string;
  foldRunes : string -> string -> bool
}.

Module gostrings.

(** The ASCII blanks: tab, line feed, vertical tab, form feed, carriage return
    and space. *)
Definition isSpace (c : ascii) : bool :=
  let n := N_of_ascii c in
  (N.leb 9 n && N.leb n 13) || N.eqb n 32.

Definition lowerByte (c : ascii) : ascii :=
  let n := N_of_ascii c in
  if N.leb 65 n && N.leb n 90 then ascii_of_N (n + 32) else c.

Definition upperByte (c : ascii) : ascii :=
  let n := N_of_ascii c in
  if N.leb 97 n && N.leb n 122 then ascii_of_N (n - 32) else c.

Fixpoint mapBytes (f : ascii -> ascii) (s : string) : string :=
  match s with
  | EmptyString => EmptyString
  | String c s' => String (f c) (mapBytes f s')
  end.

(** [c < utf8.RuneSelf] for every byte of the text. *)
Definition isASCII (s : string) : bool :=
  forallb (fun c => N.ltb (N_of_ascii c) 128) (list_ascii_of_string s).

(** [strings.ToLower] and [strings.ToUpper]: byte by byte on ASCII text, by
    the tables of [unicode] otherwise. *)
Definition ToLower `{Unicode} (s : string) : string :=
  if isASCII s then mapBytes lowerByte s else MapToLower s.

Definition ToUpper `{Unicode} (s : string) : string :=
  if isASCII s then mapBytes upperByte s else MapToUpper s.

(** [strings.EqualFold]: bytes are compared up to ASCII case as long as both
    are ASCII; the rest of the texts goes to the rune-by-rune comparison at the
    first byte that is not. *)
Definition foldBytes (a b : ascii) : bool :=
  Ascii.eqb a b || Ascii.eqb (lowerByte a) (lowerByte b).

Fixpoint EqualFold `{Unicode} (s t : string) : bool :=
  match s, t with
  | String a s', String b t' =>
      if N.leb 128 (N_of_ascii a) || N.leb 128 (N_of_ascii b)
      then foldRunes s t
      else if foldBytes a b then EqualFold s' t' else false
  | EmptyString, EmptyString => true
  | _, _ => false
  end.

Definition reverse (s : string) : string :=
  string_of_list_ascii (List.rev (list_ascii_of_string s)).

Fixpoint TrimLeftFunc (f : ascii -> bool) (s : string) : string :=
  match s with
  | EmptyString => EmptyString
  | String c s' => if f c then TrimLeftFunc f s' else s
  end.

Definition TrimRightFunc (f : ascii -> bool) (s : string) : string :=
  reverse (TrimLeftFunc f (reverse s)).

(** The UTF-8 encodings of the runes for which [unicode.IsSpace] holds: the six
    ASCII blanks, U+0085, U+00A0, U+1680, U+2000 to U+200A, U+2028, U+2029,
    U+202F, U+205F and U+3000.  Go decodes a rune at the head of a text, or at
    its end, exactly when the text starts, or ends, with the encoding of the
    rune; a byte that starts no encoding reads as U+FFFD, which is no white
    space. *)
Definition spaceRunes : list (list ascii) :=
  [ ["009"]; ["010"]; ["011"]; ["012"]; ["013"]; ["032"];
    ["194"; "133"]; ["194"; "160"];
    ["225"; "154"; "128"];
    ["226"; "128"; "128"]; ["226"; "128"; "129"]; ["226"; "128"; "130"];
    ["226"; "128"; "131"]; ["226"; "128"; "132"]; ["226"; "128"; "133"];
    ["226"; "128"; "134"]; ["226"; "128"; "135"]; ["226"; "128"; "136"];
    ["226"; "128"; "137"]; ["226"; "128"; "138"];
    ["226"; "128"; "168"]; ["226"; "128"; "169"]; ["226"; "128"; "175"];
    ["226"; "129"; "159"];
    ["227"; "128"; "128"] ]%char.

(** [l] without the prefix [p], when it starts with it. *)
Fixpoint stripPrefix (p l : list ascii) : option (list ascii) :=
  match p, l with
  | [], _ => Some l
  | c :: p', d :: l' => if Ascii.eqb c d then stripPrefix p' l' else None
  | _ :: _, [] => None
  end.

(** [l] without the first of the [runes] that it starts with. *)
Fixpoint dropRune (runes : list (list ascii)) (l : list ascii)
  : option (list ascii) :=
  match runes with
  | [] => None
  | p :: rest =>
      match stripPrefix p l with
      | Some l' => Some l'
      | None => dropRune rest l
      end
  end.

(** The loop of [TrimLeftFunc]: runes are dropped from the head as long as
    there is one of [runes]; every round drops a byte at least, so the length
    of the text is fuel enough. *)
Fixpoint dropRunes (fuel : nat) (runes : list (list ascii)) (l : list ascii)
  : list ascii :=
  match fuel with
  | O => l
  | S fuel' =>
      match dropRune runes l with
      | Some l' => dropRunes fuel' runes l'
      | None => l
      end
  end.

Definition trimLeftSpace (l : list ascii) : list ascii :=
  dropRunes (List.length l) spaceRunes l.

(** The loop of [TrimRightFunc] reads the runes from the end: on the reversed
    text, the reversed encodings from the head. *)
Definition trimRightSpace (l : list ascii) : list ascii :=
  List.rev (dropRunes (List.length l) (List.map (@List.rev ascii) spaceRunes)
                      (List.rev l)).

(** [strings.TrimSpace]: [TrimRightFunc(TrimLeftFunc(s, unicode.IsSpace),
    unicode.IsSpace)]. *)
Definition TrimSpace (s : string) : string :=
  string_of_list_ascii (trimRightSpace (trimLeftSpace (list_ascii_of_string s))).

Fixpoint inCutset (cutset : string) (c : ascii) : bool :=
  match cutset with
  | EmptyString => false
  | String d rest => Ascii.eqb c d || inCutset rest c
  end.

Definition Trim (s cutset : string) : string :=
  TrimRightFunc (inCutset cutset) (TrimLeftFunc (inCutset cutset) s).

Definition HasPrefix (s p : string) : bool := String.prefix p s.

Definition HasSuffix (s p : string) : bool :=
  String.prefix (reverse p) (reverse s).

Definition TrimPrefix (s p : string) : string :=
  if HasPrefix s p
  then String.substring (String.length p) (String.length s - String.length p) s
  else s.

Definition TrimSuffix (s p : string) : string :=
  if HasSuffix s p
  then String.substring 0 (String.length s - String.length p) s
  else s.

Fixpoint Contains (s sub : string) : bool :=
  String.prefix sub s ||
  match s with
  | EmptyString => false
  | String _ s' => Contains s' sub
  end.

(** [indexFrom i s sub]: the first position, counted from [i], at which [sub]
    starts in [s]; [-1] when there is none. *)
Fixpoint indexFrom (i : Z) (s sub : string) : Z :=
  if String.prefix sub s then i
  else match s with
       | EmptyString => -1
       | String _ s' => indexFrom (i + 1) s' sub
       end.

Definition Index (s sub : string) : Z := indexFrom 0 s sub.

Fixpoint lastIndexFrom (i : Z) (s sub : string) : Z :=
  let later := match s with
               | EmptyString => -1
               | String _ s' => lastIndexFrom (i + 1) s' sub
               end in
  if later =? -1 then (if String.prefix sub s then i else -1) else later.

Definition LastIndex (s sub : string) : Z := lastIndexFrom 0 s sub.

(** [s[lo:hi]] for [0 <= lo <= hi <= len(s)]. *)
Definition slice (s : string) (lo hi : Z) : string :=
  String.substring (Z.to_nat lo) (Z.to_nat (hi - lo)) s.

(** [ReplaceAll s old new] for a non-empty [old] (every call site passes a
    literal): occurrences are replaced from the left and do not overlap.
    [skip] counts the bytes of a matched occurrence still to be dropped. *)
Fixpoint replaceFrom (old new : string) (skip : nat) (s : string) : string :=
  match s with
  | EmptyString => EmptyString
  | String c rest =>
      match skip with
      | S k => replaceFrom old new k rest
      | O =>
          if String.prefix old s
          then new +:+ replaceFrom old new (String.length old - 1) rest
          else String c (replaceFrom old new 0 rest)
      end
  end.

Definition ReplaceAll (s old new : string) : string := replaceFrom old new 0 s.

End gostrings.

Arguments gostrings.TrimSpace : simpl never.
Arguments gostrings.ToLower : simpl never.
Arguments gostrings.ToUpper : simpl never.

(** Tables that know the letters of ASCII only: they serve to run the
    definitions on ASCII text, which Go maps and folds without its tables. *)
Definition asciiTables : Unicode := {|
  MapToLower := gostrings.mapBytes gostrings.lowerByte;
  MapToUpper := gostrings.mapBytes gostrings.upperByte;
  foldRunes := fun s t =>
    String.eqb (gostrings.mapBytes gostrings.lowerByte s)
               (gostrings.mapBytes gostrings.lowerByte t)
|}.

(** [fmt.Sprintf("%d", n)] *)
Definition fmt_d (n : Z) : string := NilEmpty.string_of_int (Z.to_int n).

(** ** Machine integers *)

Definition wrap64 (z : Z) : Z := z mod 2 ^ 64.

Definition u64_add (a b : Z) : Z := wrap64 (a + b).
Definition u64_sub (a b : Z) : Z := wrap64 (a - b).
Definition u64_mul (a b : Z) : Z := wrap64 (a * b).

(** Signed 64-bit wrap-around ([int], [int64], [time.Duration]). *)
Definition wrap_int64 (z : Z) : Z := (z + 2 ^ 63) mod 2 ^ 64 - 2 ^ 63.

(** ** float64 helpers *)

Module float64.

(** [float64(n)] for an unsigned integer: round to nearest, ties to even. *)
Definition of_uint64 (n : Z) : float :=
  SF2Prim (binary_normalize prec emax n 0 false).

(** [math.Round]: nearest integer, halves away from zero; zeros, infinities and
    NaN are returned as they are. *)
Definition Round (x : float) : float :=
  match Prim2SF x with
  | S754_finite s m e =>
      if 0 <=? e then x
      else
        let q := (Zpos m + 2 ^ (- e - 1)) / 2 ^ (- e) in
        if q =? 0 then (if s then neg_zero else zero)
        else if s then (- of_uint64 q)%float else of_uint64 q
  | _ => x
  end.

(** The integer part of a finite float (truncation toward zero). *)
Definition truncate (x : float) : option Z :=
  match Prim2SF x with
  | S754_zero _ => Some 0
  | S754_finite s m e =>
      let a := if 0 <=? e then Zpos m * 2 ^ e else Zpos m / 2 ^ (- e) in
      Some (if s then - a else a)
  | _ => None
  end.

(** [uint64(x)].  When the truncated value is not representable the Go
    specification leaves the result to the implementation; [oor] is that
    choice, reduced to 64 bits. *)
Definition to_uint64 (oor : float -> Z) (x : float) : Z :=
  match truncate x with
  | Some z => if (0 <=? z) && (z <? 2 ^ 64) then z else wrap64 (oor x)
  | None => wrap64 (oor x)
  end.

End float64.

(** ** Constants (runtime.go:28-45) *)

Definition maxOpenOffersPerAgent : Z := 5.
Definition maxOpenOffersPerAsset : Z := 3.
Definition maxOpenRFQsPerAgent : Z := 3.
Definition decisionMaxAttempts : Z := 3.
Definition decisionMemoryLimit : nat := 12.
Definition decisionSeedLimit : nat := 8.
Definition defaultWaitSec : Z := 6.
Definition minWaitSec : Z := 1.
Definition maxWaitSec : Z := 60.

(** The package-level fee variables. *)
Record FeeConfig := {
  offerFeeAGC : Z;
  rfqFeeAGC : Z;
  tradeFeeBps : Z;
  syntheticMintFeePerUnitAGC : Z
}.

(** Their values as the package initialises them; nothing assigns them later. *)
Definition initialFees : FeeConfig :=
  {| offerFeeAGC := 0; rfqFeeAGC := 0; tradeFeeBps := 10;
     syntheticMintFeePerUnitAGC := 0 |}.

(** [time.Second], in nanoseconds. *)
Definition Second : Z := 1000000000.

(** ** Data model *)

(** [runtime.Action] (runtime.go:17-26). *)
Module Action.
Record t := mk {
  Action : string;
  AssetSymbol : string;
  Category : string;
  PriceAGC : float;
  Qty : float;
  Side : string;
  Reason : string;
  NextCheckSec : Z
}.
(** The zero value [Action{}]. *)
Definition zero : t := mk "" "" "" 0%float 0%float "" "" 0.
End Action.

(** [llm.Prompt] (llm/llm.go:12-15). *)
Module Prompt.
Record t := mk { System : string; User : string }.
End Prompt.

(** [indexer.Offer], [indexer.RFQ] and [indexer.Decision] (indexer/client.go). *)
Module Offer.
Record t := mk {
  OfferID : string;
  AgentID : string;
  Category : string;
  PriceAGC : float;
  Qty : float;
  Status : string;
  Asset : string;
  CreatedAt : string
}.
End Offer.

Module RFQ.
Record t := mk {
  RFQID : string;
  AgentID : string;
  Category : string;
  MaxPriceAGC : float;
  Qty : float;
  Status : string;
  Asset : string;
  CreatedAt : string
}.
End RFQ.

Module Decision.
Record t := mk {
  DecisionID : string;
  AgentID : string;
  Action : string;
  AssetSymbol : string;
  PriceAGC : float;
  Qty : float;
  Side : string;
  Reason : string;
  Status : string;
  Error : string;
  CreatedAt : string
}.
End Decision.

(** [runtime.memoryDecision] (runtime.go:69-80). *)
Module memoryDecision.
Record t := mk {
  Action : string;
  AssetSymbol : string;
  Side : string;
  PriceAGC : float;
  Qty : float;
  Status : string;
  Error : string;
  Reason : string;
  CreatedAt : string;
  Reward : float
}.
End memoryDecision.

(** The fields of [runtime.Runner] (runtime.go:47-67) that the decision loop
    reads or writes.  [hasIndexer] stands for [r.Indexer != nil]. *)
Module Runner.
Record t := mk {
  AgentID : string;
  hasIndexer : bool;
  lastBalances : gmap string Z;
  lastTokenPrice : gmap string float;
  lastOffers : list Offer.t;
  lastRFQs : list RFQ.t;
  lastOpenOffers : Z;
  lastOpenRFQs : Z;
  lastOffersByAS : gmap string Z;
  allowedTokens : list string;
  decisionMemory : list memoryDecision.t;
  memorySeeded : bool
}.
End Runner.

(** Reading a Go map: the zero value when the key is absent. *)
(** ** Go's [math.Min] and [math.Max], with their special cases *)

Module gomath.

Definition IsInf (x : float) (negative : bool) : bool :=
  PrimFloat.is_infinity x && Bool.eqb (PrimFloat.get_sign x) negative.

Definition Min (x y : float) : float :=
  if IsInf x true || IsInf y true then neg_infinity
  else if PrimFloat.is_nan x || PrimFloat.is_nan y then nan
  else if (x =? 0)%float && (x =? y)%float
       then (if PrimFloat.get_sign x then x else y)
  else if (x <? y)%float then x else y.

Definition Max (x y : float) : float :=
  if IsInf x false || IsInf y false then infinity
  else if PrimFloat.is_nan x || PrimFloat.is_nan y then nan
  else if (x =? 0)%float && (x =? y)%float
       then (if PrimFloat.get_sign x then y else x)
  else if (y <? x)%float then x else y.

End gomath.


(** [indexer.DevActionRequest] and [indexer.DevDecisionRequest]. *)
Module DevActionRequest.
Record t := mk {
  Action : string;
  AgentID : string;
  AssetSymbol : string;
  Category : string;
  PriceAGC : float;
  Qty : float;
  Side : string;
  Reason : string
}.
End DevActionRequest.

Module DevDecisionRequest.
Record t := mk {
  AgentID : string;
  Action : string;
  AssetSymbol : string;
  PriceAGC : float;
  Qty : float;
  Side : string;
  Reason : string;
  Raw : string;
  Status : string;
  Error : string
}.
End DevDecisionRequest.

(** [indexer.Token] (indexer/client.go:33-42). *)
Module Token.
Record t := mk {
  Symbol : string;
  Name : string;
  PriceAGC : float;
  Change24H : float;
  Volume24H : float;
  Supply : Z;
  Holders : Z;
  LastTradeAt : string
}.
End Token.

(** [indexer.BalanceItem] (indexer/client.go). *)
Module BalanceItem.
Record t := mk { Addr : string; Denom : string; Amount : Z }.
End BalanceItem.


(** ** The completion client (llm/llm.go:22-91) *)

(** [strings.TrimRight] *)
Definition TrimRight (s cutset : string) : string :=
  gostrings.TrimRightFunc (gostrings.inCutset cutset) s.

Module llm.

(** [llm.Config] *)
Record Config := mkConfig {
  Provider : string;
  Model : string;
  BaseURL : string;
  APIKey : string;
  Temperature : float;
  MaxOutputTokens : Z;
  TimeoutSeconds : Z
}.

(** The two implementations of [llm.Client] with the fields that [New] sets;
    [timeout] is a [time.Duration], in nanoseconds. *)
Inductive client :=
| openAIClient (baseURL apiKey model : string) (temperature : float)
    (maxOutputTokens timeout : Z)
| ollamaClient (baseURL model : string) (temperature : float)
    (maxOutputTokens timeout : Z).

Definition provider (c : client) : string :=
  match c with
  | openAIClient _ _ _ _ _ _ => "openai"
  | ollamaClient _ _ _ _ _ => "ollama"
  end.

Definition baseURL (c : client) : string :=
  match c with
  | openAIClient url _ _ _ _ _ => url
  | ollamaClient url _ _ _ _ => url
  end.

Definition model (c : client) : string :=
  match c with
  | openAIClient _ _ m _ _ _ => m
  | ollamaClient _ m _ _ _ => m
  end.

Definition timeout (c : client) : Z :=
  match c with
  | openAIClient _ _ _ _ _ t => t
  | ollamaClient _ _ _ _ t => t
  end.

(** [New]: [inl None] is the pair [(nil, nil)], [inr] an error; [getenv] is
    [os.Getenv]. *)
Definition New `{Unicode} (getenv : string -> string) (cfg : Config)
  : option client + string :=
  let provider := gostrings.ToLower (gostrings.TrimSpace (Provider cfg)) in
  if String.eqb provider "" then inl None
  else if String.eqb provider "openai" then
    let apiKey := gostrings.TrimSpace (APIKey cfg) in
    let apiKey :=
      if String.eqb apiKey "" then gostrings.TrimSpace (getenv "OPENAI_API_KEY")
      else apiKey in
    if String.eqb apiKey ""
    then inr "openai selected but no API key provided (OPENAI_API_KEY)"
    else
      let model := gostrings.TrimSpace (Model cfg) in
      if String.eqb model "" then inr "openai selected but no model configured"
      else
        let baseURL := TrimRight (gostrings.TrimSpace (BaseURL cfg)) "/" in
        let baseURL :=
          if String.eqb baseURL "" then "https://api.openai.com/v1"
          else baseURL in
        let timeout :=
          if TimeoutSeconds cfg <=? 0 then 15 else TimeoutSeconds cfg in
        inl (Some (openAIClient baseURL apiKey model (Temperature cfg)
                     (MaxOutputTokens cfg) (wrap_int64 (timeout * Second))))
  else if String.eqb provider "ollama" then
    let model := gostrings.TrimSpace (Model cfg) in
    let model := if String.eqb model "" then "llama3.2" else model in
    let baseURL := TrimRight (gostrings.TrimSpace (BaseURL cfg)) "/" in
    let baseURL :=
      if String.eqb baseURL "" then "http://localhost:11434" else baseURL in
    let timeout :=
      if TimeoutSeconds cfg <=? 0 then 15 else TimeoutSeconds cfg in
    inl (Some (ollamaClient baseURL model (Temperature cfg)
                 (MaxOutputTokens cfg) (wrap_int64 (timeout * Second))))
  else inr ("unknown llm provider: " +:+ provider).

End llm.

(** The configuration that [config.Default] writes for the model
    (config/config.go:51-57), and one for a local model. *)
Definition defaultLLM : llm.Config :=
  llm.mkConfig "" "" "" "" 0.2%float 256 15.

Definition localLLM : llm.Config :=
  llm.mkConfig " Ollama " "" "http://127.0.0.1:11434//" "" 0.2%float 256 0.


(** Everything below is stated for whatever case tables Go is given. *)
Section Runtime.

Context {caseTables : Unicode}.

Definition balanceOf (m : gmap string Z) (k : string) : Z := default 0 (m !! k).
Definition priceOf (m : gmap string float) (k : string) : float :=
  default 0%float (m !! k).

(** ** Strict grammar (runtime.go:188-230) *)

Definition validateStrictAction (action : Action.t) : string :=
  let act := gostrings.ToLower (gostrings.TrimSpace (Action.Action action)) in
  if negb (String.eqb act "post_offer" || String.eqb act "create_rfq"
           || String.eqb act "trade" || String.eqb act "wait")
  then
    if String.eqb act "" then "missing action"
    else if String.eqb act "noop" then "noop is not allowed"
    else "invalid action: " +:+ Action.Action action
  else if String.eqb act "wait" then
    if Action.NextCheckSec action <? 0 then "next_check_sec must be >= 0" else ""
  else
    let asset := gostrings.ToUpper (gostrings.TrimSpace (Action.AssetSymbol action)) in
    if String.eqb asset "" then "asset_symbol is required"
    else if String.eqb asset "AGC" then "asset_symbol must not be AGC"
    else if (Action.Qty action <=? 0)%float then "qty must be > 0"
    else
      let side := gostrings.ToLower (gostrings.TrimSpace (Action.Side action)) in
      if String.eqb act "trade"
         && (negb (String.eqb side "buy") && negb (String.eqb side "sell"))
      then "trade side must be buy or sell"
      else if (String.eqb act "post_offer" || String.eqb act "create_rfq")
              && (Action.PriceAGC action <=? 0)%float
      then "price_agc must be > 0"
      else "".

(** ** Retry prompt (runtime.go:232-245) *)

Definition strictRetryPrompt (base : Prompt.t) (reason : string) (attempt : Z)
  : Prompt.t :=
  let addendum :=
    String (ascii_of_nat 10) "Previous output was rejected ("
    +:+ gostrings.TrimSpace reason
    +:+ "). Attempt " +:+ fmt_d (attempt + 1) +:+ "/" +:+ fmt_d decisionMaxAttempts
    +:+ ". "
    +:+ "Return exactly one JSON object with action in ['post_offer','create_rfq','trade','wait']. "
    +:+ "For wait, provide next_check_sec (1-60). For trade, include side. No noop, no markdown." in
  Prompt.mk (Prompt.System base) (Prompt.User base +:+ addendum).

(** ** Wait scheduling (runtime.go:247-258) *)

(** The result is a [time.Duration]: signed 64-bit nanoseconds. *)
Definition normalizeWaitDuration (sec : Z) : Z :=
  let sec := if sec <=? 0 then defaultWaitSec else sec in
  let sec := if sec <? minWaitSec then minWaitSec else sec in
  let sec := if sec >? maxWaitSec then maxWaitSec else sec in
  wrap_int64 (sec * Second).

(** ** Normalisation (runtime.go:1090-1127) *)

(** [for strings.Contains(clean, "__") { clean = ReplaceAll(clean, "__", "_") }].
    Every round shortens the string, so [String.length clean] rounds suffice
    ([collapseUnderscores_done] below). *)
Fixpoint collapseLoop (fuel : nat) (clean : string) : string :=
  match fuel with
  | O => clean
  | S fuel' =>
      if gostrings.Contains clean "__"
      then collapseLoop fuel' (gostrings.ReplaceAll clean "__" "_")
      else clean
  end.

Definition collapseUnderscores (clean : string) : string :=
  collapseLoop (String.length clean) clean.

Definition cleanKind (raw : string) : string :=
  let clean := gostrings.ToLower (gostrings.TrimSpace raw) in
  let clean := gostrings.ReplaceAll clean " " "_" in
  let clean := gostrings.ReplaceAll clean "-" "_" in
  let clean := collapseUnderscores clean in
  gostrings.Trim clean "_".

Definition memberOf (s : string) (l : list string) : bool :=
  existsb (String.eqb s) l.

Definition normalizeAction (action : Action.t) : Action.t :=
  let clean := cleanKind (Action.Action action) in
  let side0 :=
    if String.eqb clean "buy" || String.eqb clean "sell" then clean
    else Action.Side action in
  let kind :=
    if memberOf clean ["offer"; "list"; "postoffer"; "post_offer"; "make_offer"]
    then "post_offer"
    else if memberOf clean ["rfq"; "create_rfq"; "request_quote"; "request_rfq"; "create_r_fq"]
    then "create_rfq"
    else if memberOf clean ["trade"; "buy"; "sell"] then "trade"
    else if memberOf clean ["wait"; "hold"; "observe"; "pause"] then "wait"
    else if memberOf clean ["noop"; "no_op"] then "noop"
    else clean in
  Action.mk
    kind
    (gostrings.ToUpper (gostrings.TrimSpace (Action.AssetSymbol action)))
    (gostrings.TrimSpace (Action.Category action))
    (Action.PriceAGC action)
    (Action.Qty action)
    (gostrings.ToLower (gostrings.TrimSpace side0))
    (gostrings.TrimSpace (Action.Reason action))
    (if Action.NextCheckSec action <? 0 then 0 else Action.NextCheckSec action).

(** ** The completion provider (llm/llm.go:17-21)

    [Generate] answers a prompt with a text ([inl]) or fails with an error whose
    text is given ([inr]); the client is threaded through, since the provider
    keeps state of its own. *)
Class Client (C : Type) := {
  Generate : C -> Prompt.t -> C * (string + string);
  Provider : C -> string;
  Model : C -> string
}.

(** What [decideStrict] returns: the action, the last raw text and the error. *)
Definition Decided : Type := Action.t * string * option string.

Definition cleanSymbol (symbol : string) : string :=
  gostrings.ToUpper (gostrings.TrimSpace symbol).

Definition isBuyOrSell (side : string) : bool :=
  String.eqb side "buy" || String.eqb side "sell".

Section Engine.

Context {C : Type} `{Client C}.

(** [encoding/json]'s decoder into a fresh [Action]: the decoded value, or the
    text of the error. *)
Variable json_Unmarshal : string -> Action.t + string.

(** The order in which a [range] loop visits a Go map; the language leaves it
    unspecified. *)
Variable rangeMap : forall A : Type, gmap string A -> list (string * A).
Variable rangeSet : gset string -> list string.

(** *** Repair (runtime.go:260-364) *)

Definition allowedSet (tokens : list string) : gset string :=
  fold_left
    (fun allowed symbol =>
       let clean := cleanSymbol symbol in
       if String.eqb clean "" || String.eqb clean "AGC" then allowed
       else allowed ∪ {[ clean ]})
    tokens ∅.

Definition accept (allowed : gset string) (symbol : string) : bool :=
  let clean := cleanSymbol symbol in
  if String.eqb clean "" || String.eqb clean "AGC" then false
  else if Nat.eqb (size allowed) 0 then true
  else bool_decide (clean ∈ allowed).

Definition bestHeld (allowed : gset string) (balances : list (string * Z))
  : string * Z :=
  fold_left
    (fun acc entry =>
       let clean := cleanSymbol (fst entry) in
       if negb (accept allowed clean) || (snd entry =? 0) then acc
       else if snd acc <? snd entry then (clean, snd entry) else acc)
    balances ("", 0).

Definition pickActionAsset (r : Runner.t) (action : string) : string :=
  let allowed := allowedSet (Runner.allowedTokens r) in
  let best :=
    if String.eqb action "post_offer" || String.eqb action "trade"
    then fst (bestHeld allowed (rangeMap Z (Runner.lastBalances r)))
    else "" in
  if negb (String.eqb best "") then best
  else
    match List.find (fun entry => accept allowed (cleanSymbol (fst entry)))
                    (rangeMap float (Runner.lastTokenPrice r)) with
    | Some entry => cleanSymbol (fst entry)
    | None =>
        match List.find (fun symbol => negb (String.eqb symbol "AGC"))
                        (rangeSet allowed) with
        | Some symbol => symbol
        | None => ""
        end
    end.

Definition repairAction (r : Runner.t) (action : Action.t) : Action.t :=
  let act := gostrings.ToLower (gostrings.TrimSpace (Action.Action action)) in
  if String.eqb act "" || String.eqb act "wait" || String.eqb act "noop"
  then action
  else
    let symbol :=
      if String.eqb (gostrings.TrimSpace (Action.AssetSymbol action)) ""
      then pickActionAsset r act else Action.AssetSymbol action in
    if String.eqb (gostrings.TrimSpace symbol) ""
    then Action.mk (Action.Action action) symbol (Action.Category action)
           (Action.PriceAGC action) (Action.Qty action) (Action.Side action)
           (Action.Reason action) (Action.NextCheckSec action)
    else
      let assetBal := balanceOf (Runner.lastBalances r) (cleanSymbol symbol) in
      let qty :=
        if (Action.Qty action <=? 0)%float
        then (if 0 <? assetBal
              then gomath.Max 1 (gomath.Min 5 (float64.of_uint64 assetBal))
              else 1%float)
        else Action.Qty action in
      let price :=
        if (String.eqb act "post_offer" || String.eqb act "create_rfq"
            || String.eqb act "trade")
           && (Action.PriceAGC action <=? 0)%float
        then
          let last := priceOf (Runner.lastTokenPrice r) (cleanSymbol symbol) in
          if (0 <? last)%float then last else 1%float
        else Action.PriceAGC action in
      let side :=
        if String.eqb act "trade"
           && negb (isBuyOrSell
                      (gostrings.ToLower (gostrings.TrimSpace (Action.Side action))))
        then (if 0 <? assetBal then "sell" else "buy")
        else Action.Side action in
      Action.mk (Action.Action action) symbol (Action.Category action)
        price qty side (Action.Reason action) (Action.NextCheckSec action).

(** *** Extraction of the JSON object (runtime.go:481-500) *)

Definition extractObject (raw : string) : string :=
  let clean := gostrings.TrimSpace raw in
  let clean :=
    if gostrings.HasPrefix clean "```"
    then gostrings.TrimSpace
           (gostrings.TrimSuffix (gostrings.TrimPrefix clean "```") "```")
    else clean in
  if negb (gostrings.HasPrefix clean "{")
  then
    let start := gostrings.Index clean "{" in
    let stop := gostrings.LastIndex clean "}" in
    if (0 <=? start) && (start <? stop)
    then gostrings.slice clean start (stop + 1) else clean
  else clean.

Definition parseAction (raw : string) : Action.t + string :=
  json_Unmarshal (extractObject raw).

(** *** The strict decision engine (runtime.go:153-186) *)

(** The outcome of one attempt. *)
Inductive Attempt :=
| Accepted (action : Action.t) (raw : string)
| Failed (lastRaw lastErr : string).

(** The body of the loop for one completion result; [lastRaw] is the raw text
    kept from earlier attempts. *)
Definition judge (r : Runner.t) (lastRaw : string) (result : string + string)
  : Attempt :=
  match result with
  | inr err => Failed lastRaw ("llm error: " +:+ err)
  | inl response =>
      let raw := gostrings.TrimSpace response in
      match parseAction raw with
      | inr parseErr => Failed raw ("parse error: " +:+ parseErr)
      | inl action =>
          let action := repairAction r (normalizeAction action) in
          let validationErr := validateStrictAction action in
          if String.eqb validationErr "" then Accepted action raw
          else Failed raw validationErr
      end
  end.

Definition exhausted (lastRaw lastErr : string) : Decided :=
  (Action.zero, lastRaw,
   Some ("failed to produce strict action after " +:+ fmt_d decisionMaxAttempts
         +:+ " attempts: " +:+ lastErr)).

(** [for attempt := 1; attempt <= decisionMaxAttempts; attempt++]: [remaining]
    is the number of iterations left, [attempt] the loop counter. *)
Fixpoint decideLoop (r : Runner.t) (basePrompt : Prompt.t) (remaining : nat)
    (attempt : Z) (client : C) (prompt : Prompt.t) (lastRaw lastErr : string)
  : C * Decided :=
  match remaining with
  | O => (client, exhausted lastRaw lastErr)
  | S remaining' =>
      let (client', result) := Generate client prompt in
      match judge r lastRaw result with
      | Accepted action raw => (client', (action, raw, None))
      | Failed lastRaw' lastErr' =>
          let prompt' :=
            if attempt <? decisionMaxAttempts
            then strictRetryPrompt basePrompt lastErr' attempt
            else prompt in
          decideLoop r basePrompt remaining' (attempt + 1) client' prompt'
                     lastRaw' lastErr'
      end
  end.

Definition decideStrict (r : Runner.t) (client : C) (basePrompt : Prompt.t)
  : C * Decided :=
  decideLoop r basePrompt (Z.to_nat decisionMaxAttempts) 1 client basePrompt
             "" "no decision produced".

End Engine.

(** ** Liquidity matching (runtime.go:1129-1185) *)

Definition isOpenStatus (status : string) : bool :=
  let status := gostrings.ToLower (gostrings.TrimSpace status) in
  String.eqb status "" || String.eqb status "open".

(** [const eps = 1e-9] *)
Definition eps : float := 1e-9%float.

(** The [continue] guards of the two loops: an order that passes all four is
    subtracted from [remaining]. *)
Definition offerCounts (self asset : string) (price : float) (offer : Offer.t)
  : bool :=
  negb (String.eqb (Offer.AgentID offer) self)
  && isOpenStatus (Offer.Status offer)
  && String.eqb (cleanSymbol (Offer.Asset offer)) asset
  && negb (price + eps <? Offer.PriceAGC offer)%float.

Definition rfqCounts (self asset : string) (price : float) (rfq : RFQ.t)
  : bool :=
  negb (String.eqb (RFQ.AgentID rfq) self)
  && isOpenStatus (RFQ.Status rfq)
  && String.eqb (cleanSymbol (RFQ.Asset rfq)) asset
  && negb (RFQ.MaxPriceAGC rfq + eps <? price)%float.

Fixpoint fillFromOffers (self asset : string) (price remaining : float)
    (offers : list Offer.t) : bool :=
  match offers with
  | [] => false
  | offer :: rest =>
      if offerCounts self asset price offer
      then
        let remaining := (remaining - Offer.Qty offer)%float in
        if (remaining <=? eps)%float then true
        else fillFromOffers self asset price remaining rest
      else fillFromOffers self asset price remaining rest
  end.

Fixpoint fillFromRFQs (self asset : string) (price remaining : float)
    (rfqs : list RFQ.t) : bool :=
  match rfqs with
  | [] => false
  | rfq :: rest =>
      if rfqCounts self asset price rfq
      then
        let remaining := (remaining - RFQ.Qty rfq)%float in
        if (remaining <=? eps)%float then true
        else fillFromRFQs self asset price remaining rest
      else fillFromRFQs self asset price remaining rest
  end.

Definition hasTradeLiquidity (r : Runner.t) (side asset : string)
    (price : float) (qty : Z) : bool :=
  if qty =? 0 then false
  else
    let asset := cleanSymbol asset in
    let side := gostrings.ToLower (gostrings.TrimSpace side) in
    if String.eqb asset "" || negb (isBuyOrSell side) then false
    else
      let remaining := float64.of_uint64 qty in
      if String.eqb side "buy"
      then fillFromOffers (Runner.AgentID r) asset price remaining
                          (Runner.lastOffers r)
      else fillFromRFQs (Runner.AgentID r) asset price remaining
                        (Runner.lastRFQs r).

(** ** Risk preflight (runtime.go:993-1088) *)

Section Preflight.

(** The implementation's result of [uint64(x)] for an [x] out of range. *)
Variable oor : float -> Z.

(** The fee variables at the time of the call. *)
Variable fees : FeeConfig.

Definition calcTradeFee (notional : Z) : Z :=
  if (tradeFeeBps fees =? 0) || (notional =? 0) then 0
  else u64_mul notional (tradeFeeBps fees) / 10000.

(** [uint64(math.Round(x))] *)
Definition roundToUint64 (x : float) : Z := float64.to_uint64 oor (float64.Round x).

(** [price := action.PriceAGC; if price <= 0 { price = r.lastTokenPrice[asset] }] *)
Definition resolvePrice (r : Runner.t) (action : Action.t) (asset : string)
  : float :=
  if (Action.PriceAGC action <=? 0)%float
  then priceOf (Runner.lastTokenPrice r) asset
  else Action.PriceAGC action.

(** [uint64(math.Round(price * float64(qty)))] *)
Definition notionalOf (price : float) (qty : Z) : Z :=
  roundToUint64 (price * float64.of_uint64 qty)%float.

Definition blocked (msg : string) : string * string := ("blocked", msg).
Definition proceed : string * string := ("", "").

Definition preflight (r : Runner.t) (action : Action.t) : string * string :=
  if Nat.eqb (size (Runner.lastBalances r)) 0
  then blocked "balances unavailable"
  else
    let asset := cleanSymbol (Action.AssetSymbol action) in
    let qty := roundToUint64 (Action.Qty action) in
    let balances := Runner.lastBalances r in
    if qty =? 0 then blocked "qty must be positive"
    else if String.eqb asset "" then blocked "asset symbol missing"
    else if String.eqb asset "AGC" then blocked "AGC is settlement asset"
    else
      let kind := gostrings.ToLower (gostrings.TrimSpace (Action.Action action)) in
      if String.eqb kind "post_offer" then
        if Runner.lastOpenOffers r >=? maxOpenOffersPerAgent
        then blocked "open offer limit reached"
        else if balanceOf (Runner.lastOffersByAS r) asset >=? maxOpenOffersPerAsset
        then blocked "asset offer limit reached"
        else if (Action.PriceAGC action <=? 0)%float
        then blocked "price must be positive"
        else
          let assetBal := balanceOf balances asset in
          let mintQty := if assetBal <? qty then u64_sub qty assetBal else 0 in
          let needAGC :=
            u64_add (offerFeeAGC fees)
                    (u64_mul mintQty (syntheticMintFeePerUnitAGC fees)) in
          if balanceOf balances "AGC" <? needAGC
          then blocked "insufficient AGC for offer fee/mint"
          else proceed
      else if String.eqb kind "create_rfq" then
        if Runner.lastOpenRFQs r >=? maxOpenRFQsPerAgent
        then blocked "open rfq limit reached"
        else
          let price := resolvePrice r action asset in
          if (price <=? 0)%float then blocked "price unavailable"
          else
            let cost := notionalOf price qty in
            if balanceOf balances "AGC" <? u64_add cost (rfqFeeAGC fees)
            then blocked "insufficient AGC balance"
            else proceed
      else if String.eqb kind "trade" then
        let side := gostrings.ToLower (gostrings.TrimSpace (Action.Side action)) in
        if negb (isBuyOrSell side) then blocked "side must be buy or sell"
        else
          let price := resolvePrice r action asset in
          if (price <=? 0)%float then blocked "price unavailable"
          else
            let cost := notionalOf price qty in
            let fee := calcTradeFee cost in
            if String.eqb side "sell" then
              if balanceOf balances asset <? qty
              then blocked "insufficient asset balance"
              else if balanceOf balances "AGC" <? fee
              then blocked "insufficient AGC for fee"
              else if negb (hasTradeLiquidity r side asset price qty)
              then blocked "no matching rfq liquidity"
              else proceed
            else
              if balanceOf balances "AGC" <? u64_add cost fee
              then blocked "insufficient AGC balance"
              else if negb (hasTradeLiquidity r side asset price qty)
              then blocked "no matching offer liquidity"
              else proceed
      else blocked "invalid action".

End Preflight.

(** ** Reward scoring (runtime.go:772-801) *)

Definition statusBase (status : string) : float :=
  let status := gostrings.ToLower (gostrings.TrimSpace status) in
  if String.eqb status "executed" then 0.8%float
  else if String.eqb status "wait" then 0.2%float
  else if String.eqb status "blocked" then (-0.3)%float
  else if String.eqb status "rejected" then (-0.7)%float
  else (-0.1)%float.

Definition scoreDecisionOutcome (status errMsg : string) : float :=
  let score := statusBase status in
  let errLower := gostrings.ToLower (gostrings.TrimSpace errMsg) in
  if String.eqb errLower "" then score
  else
    let score :=
      if gostrings.Contains errLower "decision_error"
         || gostrings.Contains errLower "parse error"
      then (score - 0.5)%float else score in
    let score :=
      if gostrings.Contains errLower "asset_symbol is required"
         || gostrings.Contains errLower "invalid action"
      then (score - 0.4)%float else score in
    let score :=
      if gostrings.Contains errLower "insufficient"
      then (score - 0.2)%float else score in
    let score :=
      if gostrings.Contains errLower "no matching"
         || gostrings.Contains errLower "liquidity"
      then (score - 0.1)%float else score in
    score.

(** ** Decision memory (runtime.go:597-672) *)

(** [now] stands for [time.Now().UTC().Format(time.RFC3339)] at the call. *)
Definition stampEntry (now : string) (entry : memoryDecision.t)
  : memoryDecision.t :=
  memoryDecision.mk
    (memoryDecision.Action entry)
    (memoryDecision.AssetSymbol entry)
    (memoryDecision.Side entry)
    (memoryDecision.PriceAGC entry)
    (memoryDecision.Qty entry)
    (if String.eqb (gostrings.TrimSpace (memoryDecision.Status entry)) ""
     then "logged" else memoryDecision.Status entry)
    (memoryDecision.Error entry)
    (memoryDecision.Reason entry)
    (if String.eqb (gostrings.TrimSpace (memoryDecision.CreatedAt entry)) ""
     then now else memoryDecision.CreatedAt entry)
    (memoryDecision.Reward entry).

(** [s[len(s)-n:]] when [len(s) > n], else [s]. *)
Definition keepLast {A : Type} (n : nat) (s : list A) : list A :=
  if Nat.ltb n (List.length s) then skipn (List.length s - n) s else s.

(** The effect of [pushDecisionMemory] on [r.decisionMemory]. *)
Definition pushDecisionMemory (now : string) (memory : list memoryDecision.t)
    (entry : memoryDecision.t) : list memoryDecision.t :=
  if String.eqb (gostrings.TrimSpace (memoryDecision.Action entry)) ""
  then memory
  else keepLast decisionMemoryLimit (memory ++ [stampEntry now entry]).

Definition setMemory (r : Runner.t) (seeded : bool)
    (memory : list memoryDecision.t) : Runner.t :=
  Runner.mk (Runner.AgentID r) (Runner.hasIndexer r) (Runner.lastBalances r)
    (Runner.lastTokenPrice r) (Runner.lastOffers r) (Runner.lastRFQs r)
    (Runner.lastOpenOffers r) (Runner.lastOpenRFQs r) (Runner.lastOffersByAS r)
    (Runner.allowedTokens r) memory seeded.

Definition appendDecisionMemory (now : string) (r : Runner.t)
    (action : Action.t) (status errMsg : string) : Runner.t :=
  setMemory r (Runner.memorySeeded r)
    (pushDecisionMemory now (Runner.decisionMemory r)
       (memoryDecision.mk
          (gostrings.ToLower (gostrings.TrimSpace (Action.Action action)))
          (gostrings.ToUpper (gostrings.TrimSpace (Action.AssetSymbol action)))
          (gostrings.ToLower (gostrings.TrimSpace (Action.Side action)))
          (Action.PriceAGC action)
          (Action.Qty action)
          (gostrings.ToLower (gostrings.TrimSpace status))
          (gostrings.TrimSpace errMsg)
          (gostrings.TrimSpace (Action.Reason action))
          now
          (scoreDecisionOutcome status errMsg))).

(** *** Seeding from the gateway's history (runtime.go:597-641) *)

(** The filter of the first loop: decisions with an empty or "noop" kind are
    skipped. *)
Definition seedable (item : Decision.t) : bool :=
  let action := gostrings.ToLower (gostrings.TrimSpace (Decision.Action item)) in
  negb (String.eqb action "" || String.eqb action "noop").

(** The [less] function handed to [sort.SliceStable]. *)
Definition seedLess (x y : Decision.t) : bool :=
  let a := gostrings.TrimSpace (Decision.CreatedAt x) in
  let b := gostrings.TrimSpace (Decision.CreatedAt y) in
  if String.eqb a b
  then String.ltb (Decision.DecisionID x) (Decision.DecisionID y)
  else String.ltb a b.

(** [sort.SliceStable]: a stable sort, written as insertion from the right; an
    element goes in front of the first one that is not smaller than it, so equal
    elements keep their order. *)
Fixpoint insertStable {A : Type} (less : A -> A -> bool) (x : A) (l : list A)
  : list A :=
  match l with
  | [] => [x]
  | y :: rest => if less y x then y :: insertStable less x rest else x :: l
  end.

Definition SliceStable {A : Type} (less : A -> A -> bool) (l : list A) : list A :=
  fold_right (insertStable less) [] l.

Definition seedEntry (item : Decision.t) : memoryDecision.t :=
  memoryDecision.mk
    (gostrings.ToLower (gostrings.TrimSpace (Decision.Action item)))
    (gostrings.ToUpper (gostrings.TrimSpace (Decision.AssetSymbol item)))
    (gostrings.ToLower (gostrings.TrimSpace (Decision.Side item)))
    (Decision.PriceAGC item)
    (Decision.Qty item)
    (gostrings.ToLower (gostrings.TrimSpace (Decision.Status item)))
    (gostrings.TrimSpace (Decision.Error item))
    (gostrings.TrimSpace (Decision.Reason item))
    (gostrings.TrimSpace (Decision.CreatedAt item))
    (scoreDecisionOutcome (gostrings.TrimSpace (Decision.Status item))
                          (gostrings.TrimSpace (Decision.Error item))).

(** The decisions that reach the final loop, in the order they are pushed. *)
Definition seedSelection (history : list Decision.t) : list Decision.t :=
  keepLast decisionSeedLimit (SliceStable seedLess (List.filter seedable history)).

(** The final loop.  Each push reads the clock when its entry has no
    timestamp; [clock i] is the time at the [i]-th iteration. *)
Fixpoint pushSeeds (clock : nat -> string) (i : nat)
    (memory : list memoryDecision.t) (items : list Decision.t)
  : list memoryDecision.t :=
  match items with
  | [] => memory
  | item :: rest =>
      pushSeeds clock (S i)
                (pushDecisionMemory (clock i) memory (seedEntry item)) rest
  end.

(** [history] is what [GetAgentHistory] returned: [None] for an error. *)
Definition seedDecisionMemory (clock : nat -> string) (r : Runner.t)
    (history : option (list Decision.t)) : Runner.t :=
  if Runner.memorySeeded r || negb (Runner.hasIndexer r)
     || String.eqb (gostrings.TrimSpace (Runner.AgentID r)) ""
  then r
  else
    match history with
    | None => setMemory r true (Runner.decisionMemory r)
    | Some decisions =>
        setMemory r true
          (pushSeeds clock 0 (Runner.decisionMemory r) (seedSelection decisions))
    end.


(* ===================================================================== *)
(** * Part I-b: the vocabulary of the specification                        *)
(* ===================================================================== *)

(** [clamp(x, lo, hi)] *)
Definition clamp (lo hi x : Z) : Z := Z.max lo (Z.min x hi).

(** The kind, asset and side of an action as every check reads them. *)
Definition kindOf (a : Action.t) : string :=
  gostrings.ToLower (gostrings.TrimSpace (Action.Action a)).
Definition assetOf (a : Action.t) : string := cleanSymbol (Action.AssetSymbol a).
Definition sideOf (a : Action.t) : string :=
  gostrings.ToLower (gostrings.TrimSpace (Action.Side a)).

Definition canonicalKinds : list string :=
  ["post_offer"; "create_rfq"; "trade"; "wait"].

(** Numbers decoded from JSON are never NaN. *)
Definition jsonNumbers (a : Action.t) : Prop :=
  PrimFloat.is_nan (Action.Qty a) = false
  /\ PrimFloat.is_nan (Action.PriceAGC a) = false.

(** The strict grammar in the specification's words. *)
Record StrictGrammar (a : Action.t) : Prop := {
  sg_kind : In (kindOf a) canonicalKinds;
  sg_wait : kindOf a = "wait" -> 0 <= Action.NextCheckSec a;
  sg_asset : kindOf a <> "wait" -> assetOf a <> "" /\ assetOf a <> "AGC";
  sg_qty : kindOf a <> "wait" -> (0 <? Action.Qty a)%float = true;
  sg_side : kindOf a = "trade" -> sideOf a = "buy" \/ sideOf a = "sell";
  sg_price :
    kindOf a = "post_offer" \/ kindOf a = "create_rfq" ->
    (0 <? Action.PriceAGC a)%float = true
}.


(** Sample actions. *)
Definition acceptedTrade : Action.t :=
  Action.mk " Trade " "xyz" "" 3%float 2%float "BUY" "probe" 0.

(** The order the seeding sort establishes: ascending created-at timestamp, the
    decision ID breaking ties. *)
Definition stampOf (d : Decision.t) : string :=
  gostrings.TrimSpace (Decision.CreatedAt d).

Definition seedOrdered (x y : Decision.t) : Prop :=
  String.ltb (stampOf x) (stampOf y) = true
  \/ (stampOf x = stampOf y
      /\ String.leb (Decision.DecisionID x) (Decision.DecisionID y) = true).

(** The kind of a history decision, as the seeding filter reads it. *)
Definition decisionKind (d : Decision.t) : string :=
  gostrings.ToLower (gostrings.TrimSpace (Decision.Action d)).

(** The entries that the final loop of the seeding appends, with the time each
    push would read. *)
Fixpoint stampedSeeds (clock : nat -> string) (i : nat) (items : list Decision.t)
  : list memoryDecision.t :=
  match items with
  | [] => []
  | item :: rest =>
      stampEntry (clock i) (seedEntry item) :: stampedSeeds clock (S i) rest
  end.

(** U+00A0, the no-break space, in UTF-8. *)
Definition nbsp : string :=
  String (ascii_of_nat 194) (String (ascii_of_nat 160) "").

(** A history of three decisions: one whose kind is a no-break space only, a
    trade, and a "noop" followed by a no-break space. *)
Definition tradeDecision : Decision.t :=
  Decision.mk "d2" "agent-1" " Trade " "x" 2%float 10%float "buy" ""
    "executed" "" "2026-01-02T00:00:00Z".

Definition seedHistory : list Decision.t :=
  [Decision.mk "d1" "agent-1" nbsp "x" 2%float 10%float "buy" ""
     "executed" "" "2026-01-01T00:00:00Z";
   tradeDecision;
   Decision.mk "d3" "agent-1" ("noop" +:+ nbsp) "" 0%float 0%float "" ""
     "rejected" "" "2026-01-03T00:00:00Z"].

(** The guard at the head of [seedDecisionMemory]. *)
Definition seedSkipped (r : Runner.t) : bool :=
  Runner.memorySeeded r || negb (Runner.hasIndexer r)
  || String.eqb (gostrings.TrimSpace (Runner.AgentID r)) "".

(** The error categories of the reward score, read in the lower-cased,
    trimmed message. *)
Definition errorText (errMsg : string) : string :=
  gostrings.ToLower (gostrings.TrimSpace errMsg).

Definition parseCategory (errMsg : string) : bool :=
  gostrings.Contains (errorText errMsg) "decision_error"
  || gostrings.Contains (errorText errMsg) "parse error".
Definition schemaCategory (errMsg : string) : bool :=
  gostrings.Contains (errorText errMsg) "asset_symbol is required"
  || gostrings.Contains (errorText errMsg) "invalid action".
Definition balanceCategory (errMsg : string) : bool :=
  gostrings.Contains (errorText errMsg) "insufficient".
Definition liquidityCategory (errMsg : string) : bool :=
  gostrings.Contains (errorText errMsg) "no matching"
  || gostrings.Contains (errorText errMsg) "liquidity".

(** The penalties of the categories present in a message. *)
Definition penalties (errMsg : string) : list float :=
  ((if parseCategory errMsg then [(-0.5)%float] else [])
   ++ (if schemaCategory errMsg then [(-0.4)%float] else [])
   ++ (if balanceCategory errMsg then [(-0.2)%float] else [])
   ++ (if liquidityCategory errMsg then [(-0.1)%float] else []))%list.

(** The same table in tenths, as exact integers. *)
Definition baseTenths (status : string) : Z :=
  let status := gostrings.ToLower (gostrings.TrimSpace status) in
  if String.eqb status "executed" then 8
  else if String.eqb status "wait" then 2
  else if String.eqb status "blocked" then -3
  else if String.eqb status "rejected" then -7
  else -1.

Definition penaltyTenths (errMsg : string) : Z :=
  (if parseCategory errMsg then -5 else 0)
  + (if schemaCategory errMsg then -4 else 0)
  + (if balanceCategory errMsg then -2 else 0)
  + (if liquidityCategory errMsg then -1 else 0).

(** A score read to the nearest tenth. *)
Definition tenths (score : float) : option Z :=
  float64.truncate (float64.Round (score * 10)%float).

(** The four conditional subtractions of [scoreDecisionOutcome], with the
    category tests as parameters. *)
Definition penalise (base : float) (parse schema balance liquidity : bool)
  : float :=
  let score := base in
  let score := if parse then (score - 0.5)%float else score in
  let score := if schema then (score - 0.4)%float else score in
  let score := if balance then (score - 0.2)%float else score in
  let score := if liquidity then (score - 0.1)%float else score in
  score.

(** The status bases, as floats and in tenths. *)
Definition scoreTable : list (float * Z) :=
  [(0.8%float, 8); (0.2%float, 2); ((-0.3)%float, -3); ((-0.7)%float, -7);
   ((-0.1)%float, -1)].

(** ** Liquidity, in the specification's words *)

(** An order is open when its status, trimmed and in lower case, is empty or
    "open". *)
Definition openOrder (status : string) : Prop :=
  gostrings.ToLower (gostrings.TrimSpace status) = ""
  \/ gostrings.ToLower (gostrings.TrimSpace status) = "open".

(** An offer qualifies for a buy of [asset] at [price] by the agent [self] when
    another agent posted it, it is open, its asset reads as [asset] once
    trimmed and in upper case, and it is not priced above [price + 1e-9]. *)
Definition qualifyingOffer (self asset : string) (price : float) (o : Offer.t)
  : Prop :=
  Offer.AgentID o <> self
  /\ openOrder (Offer.Status o)
  /\ gostrings.ToUpper (gostrings.TrimSpace (Offer.Asset o)) = asset
  /\ (price + 1e-9 <? Offer.PriceAGC o)%float = false.

(** An RFQ qualifies for a sell when another agent posted it, it is open, its
    asset reads as [asset] once trimmed and in upper case, and its highest
    price with [1e-9] added is not below [price]. *)
Definition qualifyingRFQ (self asset : string) (price : float) (q : RFQ.t)
  : Prop :=
  RFQ.AgentID q <> self
  /\ openOrder (RFQ.Status q)
  /\ gostrings.ToUpper (gostrings.TrimSpace (RFQ.Asset q)) = asset
  /\ (RFQ.MaxPriceAGC q + 1e-9 <? price)%float = false.

#[local] Instance qualifyingOffer_dec (self asset : string) (price : float)
    (o : Offer.t) : Decision (qualifyingOffer self asset price o).
Proof. unfold qualifyingOffer, openOrder. apply _. Defined.

#[local] Instance qualifyingRFQ_dec (self asset : string) (price : float)
    (q : RFQ.t) : Decision (qualifyingRFQ self asset price q).
Proof. unfold qualifyingRFQ, openOrder. apply _. Defined.

(** The quantities of the qualifying orders, in book order. *)
Definition countedOffers (r : Runner.t) (asset : string) (price : float)
  : list float :=
  List.map Offer.Qty
    (List.filter
       (fun o => bool_decide (qualifyingOffer (Runner.AgentID r) asset price o))
       (Runner.lastOffers r)).

Definition countedRFQs (r : Runner.t) (asset : string) (price : float)
  : list float :=
  List.map RFQ.Qty
    (List.filter
       (fun q => bool_decide (qualifyingRFQ (Runner.AgentID r) asset price q))
       (Runner.lastRFQs r)).

(** What is still missing of [remaining] once the quantities [taken] have been
    accumulated. *)
Definition shortfall (remaining : float) (taken : list float) : float :=
  fold_left PrimFloat.sub taken remaining.

(** The accumulated quantity reaches [remaining], within [eps], after one of
    the orders. *)
Definition reaches (remaining : float) (quantities : list float) : Prop :=
  exists k : nat,
    (1 <= k <= List.length quantities)%nat
    /\ (shortfall remaining (firstn k quantities) <=? eps)%float = true.

(** Sample books. *)
Definition offerOf (agent asset : string) (price qty : float) : Offer.t :=
  Offer.mk "" agent "" price qty "open" asset "".
Definition rfqOf (agent asset : string) (price qty : float) : RFQ.t :=
  RFQ.mk "" agent "" price qty "open" asset "".

Definition bookRunner (offers : list Offer.t) (rfqs : list RFQ.t)
    (balances : list (string * Z)) : Runner.t :=
  Runner.mk "agent-1" true (list_to_map balances) ∅ offers rfqs 0 0 ∅ [] [] false.

(** Two units resting at qualifying prices; one more priced too high and one of
    the agent's own. *)
Definition thinBook : list Offer.t :=
  [offerOf "agent-2" "X" 4 1; offerOf "agent-3" "x " 5 1;
   offerOf "agent-2" "X" 6 5; offerOf "agent-1" "X" 4 5]%float.

(** Three units resting at qualifying prices. *)
Definition deepBook : list Offer.t :=
  [offerOf "agent-2" "X" 4 1; offerOf "agent-3" "X" 5 2]%float.

(** ** Preflight, in the specification's words *)

Definition heldOf (r : Runner.t) (asset : string) : Z :=
  balanceOf (Runner.lastBalances r) asset.
Definition settlementOf (r : Runner.t) : Z :=
  balanceOf (Runner.lastBalances r) "AGC".
Definition balancesKnown (r : Runner.t) : Prop :=
  size (Runner.lastBalances r) <> 0%nat.

(** [fee = floor(notional * feeBps / 10000)] *)
Definition feeOf (feeBps notional : Z) : Z := notional * feeBps / 10000.

(** The settlement an offer needs: the offer fee plus the mint fee of every
    unit the agent does not hold. *)
Definition offerNeed (fees : FeeConfig) (qty held : Z) : Z :=
  offerFeeAGC fees + Z.max 0 (qty - held) * syntheticMintFeePerUnitAGC fees.

(** The four reasons for which the post_offer rules block. *)
Definition offerBlocked (fees : FeeConfig) (r : Runner.t) (a : Action.t)
    (qty : Z) : Prop :=
  maxOpenOffersPerAgent <= Runner.lastOpenOffers r
  \/ maxOpenOffersPerAsset <= balanceOf (Runner.lastOffersByAS r) (assetOf a)
  \/ (Action.PriceAGC a <=? 0)%float = true
  \/ settlementOf r < offerNeed fees qty (heldOf r (assetOf a)).

(** An implementation whose [uint64(x)] is 0 for every [x] out of range, and
    sample actions. *)
Definition saturate (x : float) : Z := 0.

Definition offerAction : Action.t :=
  Action.mk "post_offer" "X" "" 5%float 2%float "" "" 0.
Definition buyAction : Action.t :=
  Action.mk "trade" "X" "" 2%float 10%float "buy" "" 0.
Definition tenAtTwo : list Offer.t := [offerOf "agent-2" "X" 2 10]%float.

Definition hugeBuy : Action.t :=
  Action.mk "trade" "X" "" 1e18%float 2%float "buy" "" 0.
Definition hugeBook : list Offer.t := [offerOf "agent-2" "X" 1e18 2]%float.
Definition hugeRunner : Runner.t :=
  bookRunner hugeBook [] [("AGC", 2001000000000000000)].

(** A fee schedule with a mint fee of 51 per unit. *)
Definition mintFees : FeeConfig :=
  {| offerFeeAGC := 0; rfqFeeAGC := 0; tradeFeeBps := 10;
     syntheticMintFeePerUnitAGC := 51 |}.

(** ** The decision engine as a state machine

    After [n] failed attempts the engine holds the client, the last raw text
    and the last reason; attempt [n + 1] sends the base prompt when [n = 0] and
    otherwise the base prompt augmented with the last reason and the attempt
    count. *)

Definition promptFor (base : Prompt.t) (failed : nat) (lastErr : string)
  : Prompt.t :=
  match failed with
  | O => base
  | S _ => strictRetryPrompt base lastErr (Z.of_nat failed)
  end.

Section EngineRuns.

Context {C : Type} `{Client C}.
Variable json_Unmarshal : string -> Action.t + string.
Variable rangeMap : forall A : Type, gmap string A -> list (string * A).
Variable rangeSet : gset string -> list string.

(** The action that a reply stands for: the object decoded from the trimmed
    reply, normalised and repaired. *)
Definition proposed (r : Runner.t) (response : string) : Action.t + string :=
  match parseAction json_Unmarshal (gostrings.TrimSpace response) with
  | inl decoded =>
      inl (repairAction rangeMap rangeSet r (normalizeAction decoded))
  | inr parseErr => inr parseErr
  end.

(** [Accepts r result action raw]: the attempt whose completion returned
    [result] produces the validated [action], read from the raw text [raw]. *)
Inductive Accepts (r : Runner.t)
  : string + string -> Action.t -> string -> Prop :=
| Accepts_valid (response : string) (action : Action.t) :
    proposed r response = inl action ->
    validateStrictAction action = "" ->
    Accepts r (inl response) action (gostrings.TrimSpace response).

(** [Fails r lastRaw result raw err]: the attempt whose completion returned
    [result] fails, and records the reason [err] and the raw text [raw]: the
    provider's error, with the raw text of the attempts before; the decoder's
    error; or the message of the validation, which is not empty. *)
Inductive Fails (r : Runner.t) (lastRaw : string)
  : string + string -> string -> string -> Prop :=
| Fails_provider (e : string) :
    Fails r lastRaw (inr e) lastRaw ("llm error: " +:+ e)
| Fails_decoder (response e : string) :
    proposed r response = inr e ->
    Fails r lastRaw (inl response) (gostrings.TrimSpace response)
          ("parse error: " +:+ e)
| Fails_validation (response : string) (action : Action.t) :
    proposed r response = inl action ->
    validateStrictAction action <> "" ->
    Fails r lastRaw (inl response) (gostrings.TrimSpace response)
          (validateStrictAction action).

(** [Tried r base c0 n raw err c]: started with client [c0], the first [n]
    attempts have all failed, leaving the client [c], the last raw text [raw]
    and the last reason [err]. *)
Inductive Tried (r : Runner.t) (base : Prompt.t) (c0 : C)
  : nat -> string -> string -> C -> Prop :=
| Tried_none : Tried r base c0 0 "" "no decision produced" c0
| Tried_more (n : nat) (raw err : string) (c c' : C) (result : string + string)
             (raw' err' : string) :
    Tried r base c0 n raw err c ->
    Generate c (promptFor base n err) = (c', result) ->
    Fails r raw result raw' err' ->
    Tried r base c0 (S n) raw' err' c'.

End EngineRuns.

(** A client that replays a script of completions and errors. *)
Definition Scripted : Type := list (string + string).

#[local] Instance scriptedClient : Client Scripted := {|
  Generate script _ :=
    match script with
    | [] => ([], inr "script exhausted")
    | reply :: rest => (rest, reply)
    end;
  Provider _ := "script";
  Model _ := "script"
|}.

(** A decoder that knows one object. *)
Definition toyDecoder (text : string) : Action.t + string :=
  if String.eqb text "{wait}"
  then inl (Action.mk "hold" "" "" 0%float 0%float "" "" 5)
  else inr "invalid character".

Definition idleRunner : Runner.t :=
  Runner.mk "agent-1" true ∅ ∅ [] [] 0 0 ∅ [] [] false.

(** A full memory buffer, oldest entry first. *)
Definition entryOf (kind : string) : memoryDecision.t :=
  memoryDecision.mk kind "X" "buy" 1%float 1%float "executed" "" ""
    "2026-01-01T00:00:00Z" 0.8%float.

Definition fullMemory : list memoryDecision.t :=
  List.map entryOf
    ["k01"; "k02"; "k03"; "k04"; "k05"; "k06";
     "k07"; "k08"; "k09"; "k10"; "k11"; "k12"].

(* ===================================================================== *)
(** * Part I-c: the rest of the runtime                                    *)
(* ===================================================================== *)

(** The three kinds that preflight has rules for. *)
Definition actionableKinds : list string := ["post_offer"; "create_rfq"; "trade"].

(** The gates that an action has passed when preflight lets it proceed. *)
Definition gatesPassed (oor : float -> Z) (r : Runner.t) (a : Action.t) : Prop :=
  balancesKnown r
  /\ roundToUint64 oor (Action.Qty a) <> 0
  /\ assetOf a <> "" /\ assetOf a <> "AGC"
  /\ In (kindOf a) actionableKinds
  /\ (kindOf a = "post_offer" ->
      Runner.lastOpenOffers r < maxOpenOffersPerAgent
      /\ balanceOf (Runner.lastOffersByAS r) (assetOf a) < maxOpenOffersPerAsset
      /\ (Action.PriceAGC a <=? 0)%float = false)
  /\ (kindOf a = "create_rfq" ->
      Runner.lastOpenRFQs r < maxOpenRFQsPerAgent
      /\ (resolvePrice r a (assetOf a) <=? 0)%float = false)
  /\ (kindOf a = "trade" ->
      isBuyOrSell (sideOf a) = true
      /\ (resolvePrice r a (assetOf a) <=? 0)%float = false
      /\ hasTradeLiquidity r (sideOf a) (assetOf a)
           (resolvePrice r a (assetOf a))
           (roundToUint64 oor (Action.Qty a)) = true).

(** Sample RFQ. *)
Definition rfqAction : Action.t :=
  Action.mk "create_rfq" "X" "" 2%float 3%float "" "" 0.

(** ** Execution (runtime.go:366-398, 535-555) *)

(** What is sent to the gateway, in order. *)
Inductive GatewayCall :=
| Submitted (req : DevActionRequest.t)
| Recorded (req : DevDecisionRequest.t).

(** [postDecision]: the outcome goes to the memory, and to the gateway when
    there is one (the gateway's answer is dropped). *)
Definition postDecision (now : string) (r : Runner.t) (action : Action.t)
    (status errMsg raw : string) : Runner.t * list GatewayCall :=
  let r' := appendDecisionMemory now r action status errMsg in
  if negb (Runner.hasIndexer r) then (r', [])
  else
    (r',
     [Recorded
        (DevDecisionRequest.mk
           (Runner.AgentID r)
           (gostrings.ToLower (gostrings.TrimSpace (Action.Action action)))
           (gostrings.ToUpper (gostrings.TrimSpace (Action.AssetSymbol action)))
           (Action.PriceAGC action)
           (Action.Qty action)
           (gostrings.ToLower (gostrings.TrimSpace (Action.Side action)))
           (gostrings.TrimSpace (Action.Reason action))
           (gostrings.TrimSpace raw)
           status
           (gostrings.TrimSpace errMsg))]).

(** The request that [executeAction] builds. *)
Definition actionRequest (r : Runner.t) (action : Action.t) : DevActionRequest.t :=
  DevActionRequest.mk
    (gostrings.ToLower (gostrings.TrimSpace (Action.Action action)))
    (Runner.AgentID r)
    (gostrings.ToUpper (gostrings.TrimSpace (Action.AssetSymbol action)))
    (gostrings.TrimSpace (Action.Category action))
    (Action.PriceAGC action)
    (Action.Qty action)
    (gostrings.ToLower (gostrings.TrimSpace (Action.Side action)))
    (gostrings.TrimSpace (Action.Reason action)).

Section Execution.

Variable oor : float -> Z.
Variable fees : FeeConfig.

(** The gateway's answer to [PostDevAction]: [None] for success, else the text
    of the error. *)
Variable PostDevAction : DevActionRequest.t -> option string.

(** [executeAction].  Every call of [postDecision] happens at the same instant
    [now] of the model; the timeouts of the contexts are left to the gateway,
    and the lines printed on standard output are left out. *)
Definition executeAction (now : string) (r : Runner.t) (action : Action.t)
    (raw : string) : Runner.t * list GatewayCall :=
  let verdict := preflight oor fees r action in
  if negb (String.eqb (fst verdict) "")
  then postDecision now r action (fst verdict) (snd verdict) raw
  else if negb (Runner.hasIndexer r)
  then postDecision now r action "rejected" "no indexer configured" raw
  else
    let req := actionRequest r action in
    match PostDevAction req with
    | Some err =>
        let (r', calls) := postDecision now r action "rejected" err raw in
        (r', Submitted req :: calls)
    | None =>
        let (r', calls) := postDecision now r action "executed" "" raw in
        (r', Submitted req :: calls)
    end.

End Execution.

(** The memory entry of an outcome. *)
Definition outcomeEntry (now : string) (a : Action.t) (status errMsg : string)
  : memoryDecision.t :=
  memoryDecision.mk (kindOf a) (assetOf a) (sideOf a)
    (Action.PriceAGC a) (Action.Qty a) status (gostrings.TrimSpace errMsg)
    (gostrings.TrimSpace (Action.Reason a)) now
    (scoreDecisionOutcome status errMsg).

Definition submissions (calls : list GatewayCall) : list DevActionRequest.t :=
  List.flat_map (fun c => match c with Submitted q => [q] | Recorded _ => [] end)
                calls.

Definition records (calls : list GatewayCall) : list DevDecisionRequest.t :=
  List.flat_map (fun c => match c with Recorded q => [q] | Submitted _ => [] end)
                calls.

(** A gateway that accepts every action. *)
Definition accepting (req : DevActionRequest.t) : option string := None.


(** ** Sample runners *)

(** A runner that holds four tokens and is allowed two of them. *)
Definition heldRunner : Runner.t :=
  Runner.mk "agent-1" true
    (<["AGC" := 100]> (<[" y " := 9]> (<["x" := 5]> (<["Z" := 50]> ∅))))
    ∅ [] [] 0 0 ∅ ["x"; " y "; "agc"] [] false.

(** ** Market snapshot (runtime.go:419-454, 816-823) *)

(** [updateTokenPrices]: one write per token, under the symbol as listed. *)
Definition updateTokenPrices (r : Runner.t) (tokens : list Token.t) : Runner.t :=
  Runner.mk (Runner.AgentID r) (Runner.hasIndexer r) (Runner.lastBalances r)
    (fold_left
       (fun prices token => <[Token.Symbol token := Token.PriceAGC token]> prices)
       tokens (Runner.lastTokenPrice r))
    (Runner.lastOffers r) (Runner.lastRFQs r) (Runner.lastOpenOffers r)
    (Runner.lastOpenRFQs r) (Runner.lastOffersByAS r) (Runner.allowedTokens r)
    (Runner.decisionMemory r) (Runner.memorySeeded r).

(** [x.AgentID == r.AgentID && (x.Status == "" || x.Status == "open")] *)
Definition ownOpen (agentID owner status : string) : bool :=
  String.eqb owner agentID && (String.eqb status "" || String.eqb status "open").

(** The body of the loop over the offers (runtime.go:438-446), on
    [openOffers] and [openByAsset]; [++] is on Go's [int]. *)
Definition countOffer (agentID : string) (acc : Z * gmap string Z)
    (offer : Offer.t) : Z * gmap string Z :=
  if ownOpen agentID (Offer.AgentID offer) (Offer.Status offer) then
    let symbol := cleanSymbol (Offer.Asset offer) in
    (wrap_int64 (fst acc + 1),
     if negb (String.eqb symbol "")
     then <[symbol := wrap_int64 (balanceOf (snd acc) symbol + 1)]> (snd acc)
     else snd acc)
  else acc.

Definition countOwnOffers (agentID : string) (offers : list Offer.t)
  : Z * gmap string Z :=
  fold_left (countOffer agentID) offers (0, ∅).

(** The loop over the RFQs (runtime.go:447-451). *)
Definition countOwnRFQs (agentID : string) (rfqs : list RFQ.t) : Z :=
  fold_left
    (fun openRFQs rfq =>
       if ownOpen agentID (RFQ.AgentID rfq) (RFQ.Status rfq)
       then wrap_int64 (openRFQs + 1) else openRFQs)
    rfqs 0.

(** What [buildPrompt] writes to the runner once the token list was fetched
    (runtime.go:423-425, 435-454); a failed fetch of the offers or of the RFQs
    leaves an empty list.  The text of the prompt is not part of this model. *)
Definition buildPrompt_runner (r : Runner.t) (tokens : list Token.t)
    (offers : list Offer.t) (rfqs : list RFQ.t) : Runner.t :=
  let r := updateTokenPrices r tokens in
  let counts := countOwnOffers (Runner.AgentID r) offers in
  Runner.mk (Runner.AgentID r) (Runner.hasIndexer r) (Runner.lastBalances r)
    (Runner.lastTokenPrice r) offers rfqs
    (fst counts) (countOwnRFQs (Runner.AgentID r) rfqs) (snd counts)
    (Runner.allowedTokens r) (Runner.decisionMemory r) (Runner.memorySeeded r).

(** The agent's own open offers and RFQs in a snapshot: those that the agent
    posted and whose status, as the gateway wrote it, is empty or "open". *)
Definition ownedOpen (agentID owner status : string) : Prop :=
  owner = agentID /\ (status = "" \/ status = "open").

#[local] Instance ownedOpen_dec (agentID owner status : string)
  : Decision (ownedOpen agentID owner status).
Proof. unfold ownedOpen. apply _. Defined.

Definition ownOffers (agentID : string) (offers : list Offer.t) : list Offer.t :=
  List.filter
    (fun o => bool_decide (ownedOpen agentID (Offer.AgentID o) (Offer.Status o)))
    offers.

Definition ownRFQs (agentID : string) (rfqs : list RFQ.t) : list RFQ.t :=
  List.filter
    (fun q => bool_decide (ownedOpen agentID (RFQ.AgentID q) (RFQ.Status q)))
    rfqs.

(** The offers whose asset, trimmed and in upper case, is [symbol]. *)
Definition offersOf (symbol : string) (offers : list Offer.t) : list Offer.t :=
  List.filter
    (fun o =>
       String.eqb (gostrings.ToUpper (gostrings.TrimSpace (Offer.Asset o))) symbol)
    offers.

(** The last token listed under a symbol. *)
Definition lastListed (symbol : string) (tokens : list Token.t) : option Token.t :=
  List.find (fun t => String.eqb (Token.Symbol t) symbol) (List.rev tokens).

(** Five open offers of the agent, on five assets. *)
Definition ownOffer (asset : string) : Offer.t :=
  Offer.mk "" "agent-1" "" 2%float 10%float "open" asset "".

Definition fiveOffers : list Offer.t :=
  List.map ownOffer ["A"; "B"; "C"; "D"; "E"].

(** ** The allowed tokens (runtime.go:585-594) *)

(** The filter that [refreshAgentConfig] applies to the policy's tokens before
    it stores them in [r.allowedTokens]. *)
Definition nextAllowed (tokens : list string) : list string :=
  fold_left
    (fun next token =>
       let symbol := cleanSymbol token in
       if String.eqb symbol "" || String.eqb symbol "AGC" then next
       else (next ++ [symbol])%list)
    tokens [].

(** A symbol that is neither blank nor the settlement denomination. *)
Definition tradable (symbol : string) : bool :=
  negb (String.eqb symbol "" || String.eqb symbol "AGC").

(** ** Balances (indexer/client.go:175-188, runtime.go:803-814) *)

(** [GetBalances], given what [fetchJSON] decoded or the error it returned. *)
Definition GetBalances (fetched : list BalanceItem.t + string)
  : gmap string Z + string :=
  match fetched with
  | inr err => inr err
  | inl items =>
      inl (fold_left
             (fun out item =>
                if String.eqb (BalanceItem.Denom item) "" then out
                else <[BalanceItem.Denom item := BalanceItem.Amount item]> out)
             items ∅)
  end.

(** [refreshBalances]; [fetchJSON] is the gateway's answer for a path. *)
Definition refreshBalances
    (fetchJSON : string -> list BalanceItem.t + string) (r : Runner.t)
  : Runner.t :=
  if negb (Runner.hasIndexer r) || String.eqb (Runner.AgentID r) "" then r
  else
    match GetBalances (fetchJSON ("/v1/balances/" +:+ Runner.AgentID r)) with
    | inr _ => r
    | inl balances =>
        Runner.mk (Runner.AgentID r) (Runner.hasIndexer r) balances
          (Runner.lastTokenPrice r) (Runner.lastOffers r) (Runner.lastRFQs r)
          (Runner.lastOpenOffers r) (Runner.lastOpenRFQs r)
          (Runner.lastOffersByAS r) (Runner.allowedTokens r)
          (Runner.decisionMemory r) (Runner.memorySeeded r)
    end.

(** The last item listed under a denomination. *)
Definition lastItem (denom : string) (items : list BalanceItem.t)
  : option BalanceItem.t :=
  List.find (fun i => String.eqb (BalanceItem.Denom i) denom) (List.rev items).

(** ** Holdings (runtime.go:825-835) *)

(** [strings.Join] *)
Fixpoint Join (elems : list string) (sep : string) : string :=
  match elems with
  | [] => ""
  | [x] => x
  | x :: rest => x +:+ sep +:+ Join rest sep
  end.

(** [sort.Strings]: increasing order of bytes.  Strings that compare equal are
    equal, so every sorting algorithm returns the same slice. *)
Definition sortStrings (l : list string) : list string :=
  SliceStable String.ltb l.

Definition holdingEntry (entry : string * Z) : string :=
  fst entry +:+ " " +:+ fmt_d (snd entry).

Section Holdings.

(** The order in which [range] visits the balances. *)
Variable rangeMap : forall A : Type, gmap string A -> list (string * A).

Definition formatHoldings (r : Runner.t) : string :=
  if Nat.eqb (size (Runner.lastBalances r)) 0 then "unknown"
  else Join (sortStrings
               (List.map holdingEntry (rangeMap Z (Runner.lastBalances r))))
            ", ".

End Holdings.

(** ** Prompt helpers (runtime.go:982-991, 502-533) *)

(** [trimForPrompt]; [None] is the run-time panic of the slice expression
    [trimmed[:max-3]] when [max - 3] is negative. *)
Definition trimForPrompt (text : string) (max : Z) : option string :=
  let trimmed := gostrings.TrimSpace text in
  if String.eqb trimmed "" || (max <=? 0) then Some ""
  else if Z.of_nat (String.length trimmed) <=? max then Some trimmed
  else if max - 3 <? 0 then None
  else Some (gostrings.slice trimmed 0 (max - 3) +:+ "...").

(** [hash/fnv]'s 32-bit FNV-1a: for every byte, xor then multiply by the
    prime, modulo 2^32. *)
Definition fnv32a (s : string) : Z :=
  fold_left
    (fun hash c => (Z.lxor hash (Z.of_N (N_of_ascii c)) * 16777619) mod 2 ^ 32)
    (list_ascii_of_string s) 2166136261.

Definition resolveProfile (agentID requested : string) : string :=
  let requested := gostrings.ToLower (gostrings.TrimSpace requested) in
  if negb (String.eqb requested "") then requested
  else if String.eqb agentID "" then "market_maker"
  else
    let h := fnv32a agentID mod 3 in
    if h =? 0 then "market_maker"
    else if h =? 1 then "taker"
    else "momentum".

Definition profilePrompt (profile : string) : string :=
  if String.eqb profile "market_maker" then
    "You are a market maker. Post tight offers near current price with small qty to earn spread."
  else if String.eqb profile "taker" then
    "You are a taker. Prefer trades or RFQs over posting many offers."
  else if String.eqb profile "momentum" then
    "You are momentum-biased. If change_24h is positive, prefer buy; if negative, prefer sell."
  else "Be cautious and prefer small actions.".

Definition knownProfiles : list string := ["market_maker"; "taker"; "momentum"].

(** ** One decision of the loop (runtime.go:131-148) *)

Definition invalidAction (reason : string) : Action.t :=
  Action.mk "invalid" "" "" 0%float 0%float "" reason 0.

Section Decision.

Context {C : Type} `{Client C}.
Variable json_Unmarshal : string -> Action.t + string.
Variable rangeMap : forall A : Type, gmap string A -> list (string * A).
Variable rangeSet : gset string -> list string.
Variable oor : float -> Z.
Variable fees : FeeConfig.
Variable PostDevAction : DevActionRequest.t -> option string.

(** [r.Tick], in nanoseconds. *)
Variable Tick : Z.

(** The part of an iteration of [Run] from the call of [decideStrict] on: the
    runner and the client after it, what was sent to the gateway, and the time
    to wait before the next decision.  The line printed on standard output
    after a failed decision is left out. *)
Definition decideAndAct (now : string) (r : Runner.t) (client : C)
    (prompt : Prompt.t) : Runner.t * C * list GatewayCall * Z :=
  let (client', decided) :=
    decideStrict json_Unmarshal rangeMap rangeSet r client prompt in
  let '(action, raw, err) := decided in
  match err with
  | Some e =>
      let (r', calls) :=
        postDecision now r (invalidAction "decision_error") "rejected" e raw in
      (r', client', calls, 3 * Second)
  | None =>
      if gostrings.EqualFold (Action.Action action) "wait" then
        let action :=
          if String.eqb (gostrings.TrimSpace (Action.Reason action)) ""
          then Action.mk (Action.Action action) (Action.AssetSymbol action)
                 (Action.Category action) (Action.PriceAGC action)
                 (Action.Qty action) (Action.Side action) "model_wait"
                 (Action.NextCheckSec action)
          else action in
        let waitFor := normalizeWaitDuration (Action.NextCheckSec action) in
        let (r', calls) := postDecision now r action "wait" "" raw in
        (r', client', calls, waitFor)
      else
        let (r', calls) := executeAction oor fees PostDevAction now r action raw in
        (r', client', calls, Tick)
  end.

End Decision.

(** A decoder that knows a wait and a purchase. *)
Definition deskDecoder (text : string) : Action.t + string :=
  if String.eqb text "{wait}"
  then inl (Action.mk "hold" "" "" 0%float 0%float "" "" 200)
  else if String.eqb text "{buy}"
  then inl (Action.mk "buy" "x" "" 2%float 10%float "" "" 0)
  else inr "invalid character".

(** ** What the decoder is handed (runtime.go:481-487) *)

(** The text of a reply once [parseAction] has trimmed it and removed a code
    fence. *)
Definition unfenced (raw : string) : string :=
  let clean := gostrings.TrimSpace raw in
  if gostrings.HasPrefix clean "```"
  then gostrings.TrimSpace
         (gostrings.TrimSuffix (gostrings.TrimPrefix clean "```") "```")
  else clean.

(** ** Preflight after validation *)

(** The reasons for which preflight can still block an action that strict
    validation has accepted. *)
Definition reachableReasons : list string :=
  ["balances unavailable"; "qty must be positive";
   "open offer limit reached"; "asset offer limit reached";
   "insufficient AGC for offer fee/mint";
   "open rfq limit reached"; "insufficient AGC balance";
   "price unavailable"; "insufficient asset balance";
   "insufficient AGC for fee"; "no matching rfq liquidity";
   "no matching offer liquidity"].

(** ** White space at the ends of a text *)

(** No rune is encoded by the empty sequence. *)
Definition encoded (runes : list (list ascii)) : Prop :=
  Forall (fun p => p <> []) runes.

(** A text with no white space at its head, and none at its end. *)
Definition headed (l : list ascii) : Prop :=
  gostrings.dropRune gostrings.spaceRunes l = None.

Definition ended (l : list ascii) : Prop :=
  gostrings.dropRune (List.map (@List.rev ascii) gostrings.spaceRunes)
    (List.rev l) = None.

Definition tidy (s : string) : Prop :=
  headed (list_ascii_of_string s) /\ ended (list_ascii_of_string s).

(** The bytes that occur in the encoding of a white space: the six ASCII
    blanks, and bytes outside ASCII. *)
Definition spaceByte (c : ascii) : bool :=
  gostrings.isSpace c || N.leb 128 (N_of_ascii c).

(** [g] changes plain bytes only, into plain bytes. *)
Definition plainMap (g : ascii -> ascii) : Prop :=
  forall c, g c = c \/ (spaceByte c = false /\ spaceByte (g c) = false).


(** ** What some theorems ask of the case tables

    Go's tables map a rune that is no white space to a rune that is none, and
    a rune that they have mapped to itself.  A theorem that needs one of the
    following consequences takes it as a hypothesis. *)

(** Lower-casing a trimmed text that is not empty does not give a blank one. *)
Definition lowerKeepsText : Prop :=
  forall s : string,
    gostrings.TrimSpace (gostrings.ToLower (gostrings.TrimSpace s)) = "" ->
    gostrings.ToLower (gostrings.TrimSpace s) = "".

(** A cleaned symbol is clean: trimming and upper-casing it again changes
    nothing. *)
Definition upperSettles : Prop :=
  forall s : string, cleanSymbol (cleanSymbol s) = cleanSymbol s.

(** The same for trimming and lower-casing. *)
Definition lowerSettles : Prop :=
  forall s : string,
    gostrings.ToLower (gostrings.TrimSpace
      (gostrings.ToLower (gostrings.TrimSpace s)))
    = gostrings.ToLower (gostrings.TrimSpace s).
(* ===================================================================== *)
(** * Part II: properties                                                  *)
(* ===================================================================== *)

(** ** Strings and their bytes *)

Lemma chars_inj (s t : string) :
  list_ascii_of_string s = list_ascii_of_string t -> s = t.
Proof.
  intros E. rewrite <- (string_of_list_ascii_of_string s).
  rewrite <- (string_of_list_ascii_of_string t). rewrite E. reflexivity.
Qed.

Lemma chars_reverse (s : string) :
  list_ascii_of_string (gostrings.reverse s) = List.rev (list_ascii_of_string s).
Proof.
  unfold gostrings.reverse. apply list_ascii_of_string_of_list_ascii.
Qed.

Lemma chars_mapBytes (g : ascii -> ascii) (s : string) :
  list_ascii_of_string (gostrings.mapBytes g s)
  = List.map g (list_ascii_of_string s).
Proof.
  induction s as [|c s IH]; [reflexivity|]. simpl. rewrite IH. reflexivity.
Qed.

Lemma chars_TrimSpace (s : string) :
  list_ascii_of_string (gostrings.TrimSpace s)
  = gostrings.trimRightSpace (gostrings.trimLeftSpace (list_ascii_of_string s)).
Proof.
  unfold gostrings.TrimSpace. apply list_ascii_of_string_of_list_ascii.
Qed.

(** ** White space at the ends of a text *)

Lemma stripPrefix_app (p l l' : list ascii) :
  gostrings.stripPrefix p l = Some l' -> l = (p ++ l')%list.
Proof.
  revert l. induction p as [|c p IH]; intros l E; simpl in E.
  - injection E as ->. reflexivity.
  - destruct l as [|d l]; [discriminate|].
    destruct (Ascii.eqb c d) eqn:C; [|discriminate].
    apply Ascii.eqb_eq in C. subst d. simpl. f_equal. apply IH. exact E.
Qed.

Lemma stripPrefix_more (p l l' y : list ascii) :
  gostrings.stripPrefix p l = Some l' ->
  gostrings.stripPrefix p (l ++ y) = Some (l' ++ y)%list.
Proof.
  revert l. induction p as [|c p IH]; intros l E; simpl in E.
  - injection E as ->. reflexivity.
  - destruct l as [|d l]; [discriminate|]. simpl.
    destruct (Ascii.eqb c d); [|discriminate]. apply IH. exact E.
Qed.

Lemma dropRune_split (runes : list (list ascii)) (l l' : list ascii) :
  gostrings.dropRune runes l = Some l' ->
  exists p, In p runes /\ l = (p ++ l')%list.
Proof.
  induction runes as [|p runes IH]; simpl; [discriminate|].
  destruct (gostrings.stripPrefix p l) as [x|] eqn:P.
  - intros E. injection E as ->. exists p. split; [left; reflexivity|].
    apply stripPrefix_app. exact P.
  - intros E. destruct (IH E) as (q & I & Q). exists q. split; [right|]; assumption.
Qed.

Lemma dropRune_more (runes : list (list ascii)) (l y : list ascii) :
  gostrings.dropRune runes (l ++ y) = None -> gostrings.dropRune runes l = None.
Proof.
  induction runes as [|p runes IH]; simpl; [reflexivity|].
  destruct (gostrings.stripPrefix p l) as [x|] eqn:P.
  - rewrite (stripPrefix_more _ _ _ y P). discriminate.
  - destruct (gostrings.stripPrefix p (l ++ y)); [discriminate|]. exact IH.
Qed.

Lemma encoded_spaceRunes : encoded gostrings.spaceRunes.
Proof.
  unfold encoded, gostrings.spaceRunes. repeat constructor; discriminate.
Qed.

Lemma encoded_rev (runes : list (list ascii)) :
  encoded runes -> encoded (List.map (@List.rev ascii) runes).
Proof.
  unfold encoded. intros E. induction E as [|p runes P _ IH]; simpl; constructor.
  - intros R. apply P. apply (f_equal (@List.rev ascii)) in R.
    rewrite List.rev_involutive in R. exact R.
  - exact IH.
Qed.

Lemma dropRune_shorter (runes : list (list ascii)) (l l' : list ascii) :
  encoded runes -> gostrings.dropRune runes l = Some l' ->
  (List.length l' < List.length l)%nat.
Proof.
  intros E D. destruct (dropRune_split _ _ _ D) as (p & I & ->).
  unfold encoded in E. rewrite List.Forall_forall in E. specialize (E p I).
  rewrite List.length_app. destruct p; [congruence|]. simpl. lia.
Qed.

Lemma dropRunes_fixed (n : nat) (runes : list (list ascii)) (l : list ascii) :
  gostrings.dropRune runes l = None -> gostrings.dropRunes n runes l = l.
Proof.
  intros D. destruct n; simpl; [reflexivity|]. rewrite D. reflexivity.
Qed.

(** With the length of the text as fuel, the loop ends at a text that starts
    with none of the runes. *)
Lemma dropRunes_stops (n : nat) (runes : list (list ascii)) (l : list ascii) :
  encoded runes -> (List.length l <= n)%nat ->
  gostrings.dropRune runes (gostrings.dropRunes n runes l) = None.
Proof.
  intros E. revert l. induction n as [|n IH]; intros l L; simpl.
  - destruct l; [|simpl in L; lia].
    destruct (gostrings.dropRune runes []) as [x|] eqn:D; [|reflexivity].
    apply (dropRune_shorter _ _ _ E) in D. simpl in D. lia.
  - destruct (gostrings.dropRune runes l) as [x|] eqn:D; [|exact D].
    apply IH. apply (dropRune_shorter _ _ _ E) in D. lia.
Qed.

Lemma dropRunes_suffix (n : nat) (runes : list (list ascii)) (l : list ascii) :
  exists pre, l = (pre ++ gostrings.dropRunes n runes l)%list.
Proof.
  revert l. induction n as [|n IH]; intros l; simpl.
  - exists []. reflexivity.
  - destruct (gostrings.dropRune runes l) as [x|] eqn:D.
    + destruct (dropRune_split _ _ _ D) as (p & _ & ->).
      destruct (IH x) as (pre & P). exists (p ++ pre)%list.
      rewrite <- List.app_assoc. f_equal. exact P.
    + exists []. reflexivity.
Qed.

Lemma trimLeftSpace_headed (l : list ascii) : headed (gostrings.trimLeftSpace l).
Proof.
  apply dropRunes_stops; [apply encoded_spaceRunes|]. apply Nat.le_refl.
Qed.

Lemma trimLeftSpace_suffix (l : list ascii) :
  exists pre, l = (pre ++ gostrings.trimLeftSpace l)%list.
Proof. apply dropRunes_suffix. Qed.

Lemma trimRightSpace_ended (l : list ascii) : ended (gostrings.trimRightSpace l).
Proof.
  unfold ended, gostrings.trimRightSpace. rewrite List.rev_involutive.
  apply dropRunes_stops; [apply encoded_rev, encoded_spaceRunes|].
  rewrite List.length_rev. apply Nat.le_refl.
Qed.

Lemma trimRightSpace_prefix (l : list ascii) :
  exists suf, l = (gostrings.trimRightSpace l ++ suf)%list.
Proof.
  unfold gostrings.trimRightSpace.
  destruct (dropRunes_suffix (List.length l)
              (List.map (@List.rev ascii) gostrings.spaceRunes) (List.rev l))
    as (pre & P).
  exists (List.rev pre). rewrite <- List.rev_app_distr, <- P.
  symmetry. apply List.rev_involutive.
Qed.

Lemma trimRightSpace_headed (l : list ascii) :
  headed l -> headed (gostrings.trimRightSpace l).
Proof.
  intros H. destruct (trimRightSpace_prefix l) as (suf & P).
  unfold headed in *. rewrite P in H. exact (dropRune_more _ _ _ H).
Qed.

Lemma trimLeftSpace_fixed (l : list ascii) :
  headed l -> gostrings.trimLeftSpace l = l.
Proof. intros H. apply dropRunes_fixed. exact H. Qed.

Lemma trimRightSpace_fixed (l : list ascii) :
  ended l -> gostrings.trimRightSpace l = l.
Proof.
  intros H. unfold gostrings.trimRightSpace.
  rewrite (dropRunes_fixed _ _ _ H). apply List.rev_involutive.
Qed.

(** [TrimSpace] leaves no white space at either end... *)
Lemma TrimSpace_tidy (s : string) : tidy (gostrings.TrimSpace s).
Proof.
  unfold tidy. rewrite chars_TrimSpace. split.
  - apply trimRightSpace_headed, trimLeftSpace_headed.
  - apply trimRightSpace_ended.
Qed.

(** ... and does nothing to a text that has none. *)
Lemma TrimSpace_fixed (s : string) : tidy s -> gostrings.TrimSpace s = s.
Proof.
  intros [H E]. apply chars_inj. rewrite chars_TrimSpace.
  rewrite (trimLeftSpace_fixed _ H). apply trimRightSpace_fixed. exact E.
Qed.

Lemma TrimSpace_idem (s : string) :
  gostrings.TrimSpace (gostrings.TrimSpace s) = gostrings.TrimSpace s.
Proof. apply TrimSpace_fixed, TrimSpace_tidy. Qed.

(** *** Bytes that white space is not made of *)

Lemma spaceRunes_bytes :
  forallb (forallb spaceByte) gostrings.spaceRunes = true.
Proof. reflexivity. Qed.

Lemma spaceRunes_rev_bytes :
  forallb (forallb spaceByte) (List.map (@List.rev ascii) gostrings.spaceRunes)
  = true.
Proof. reflexivity. Qed.

Lemma stripPrefix_plain (p : list ascii) (c : ascii) (l : list ascii) :
  p <> [] -> forallb spaceByte p = true -> spaceByte c = false ->
  gostrings.stripPrefix p (c :: l) = None.
Proof.
  destruct p as [|d p]; [congruence|]. intros _ B C. simpl in *.
  apply andb_true_iff in B. destruct B as [B _].
  destruct (Ascii.eqb d c) eqn:E; [|reflexivity].
  apply Ascii.eqb_eq in E. subst d. congruence.
Qed.

Lemma dropRune_plain (runes : list (list ascii)) (c : ascii) (l : list ascii) :
  encoded runes -> forallb (forallb spaceByte) runes = true ->
  spaceByte c = false -> gostrings.dropRune runes (c :: l) = None.
Proof.
  intros E B C. induction E as [|p runes P _ IH]; [reflexivity|].
  simpl in B. apply andb_true_iff in B. destruct B as [B1 B2].
  cbn [gostrings.dropRune]. rewrite (stripPrefix_plain p c l P B1 C).
  apply IH. exact B2.
Qed.

(** A text that starts with a plain byte has no white space at its head; one
    that ends with a plain byte has none at its end. *)
Lemma headed_plain (c : ascii) (l : list ascii) :
  spaceByte c = false -> headed (c :: l).
Proof.
  apply dropRune_plain; [apply encoded_spaceRunes|apply spaceRunes_bytes].
Qed.

Lemma ended_plain (c : ascii) (l : list ascii) :
  spaceByte c = false -> ended (l ++ [c]).
Proof.
  intros C. unfold ended. rewrite List.rev_app_distr.
  change (List.rev [c] ++ List.rev l)%list with (c :: List.rev l).
  apply dropRune_plain;
    [apply encoded_rev, encoded_spaceRunes|apply spaceRunes_rev_bytes|exact C].
Qed.

(** *** Maps of bytes that leave white space alone *)

Lemma plainMap_eqb (g : ascii -> ascii) (d c : ascii) :
  plainMap g -> spaceByte d = true -> Ascii.eqb d (g c) = Ascii.eqb d c.
Proof.
  intros G D. destruct (G c) as [->|[C1 C2]]; [reflexivity|].
  destruct (Ascii.eqb d (g c)) eqn:E1.
  - apply Ascii.eqb_eq in E1. congruence.
  - destruct (Ascii.eqb d c) eqn:E2; [|reflexivity].
    apply Ascii.eqb_eq in E2. congruence.
Qed.

Lemma stripPrefix_map (g : ascii -> ascii) (p l : list ascii) :
  plainMap g -> forallb spaceByte p = true ->
  gostrings.stripPrefix p (List.map g l)
  = option_map (List.map g) (gostrings.stripPrefix p l).
Proof.
  intros G. revert l. induction p as [|d p IH]; intros l B; [reflexivity|].
  simpl in B. apply andb_true_iff in B. destruct B as [B1 B2].
  destruct l as [|c l]; [reflexivity|]. simpl.
  rewrite (plainMap_eqb g d c G B1).
  destruct (Ascii.eqb d c); [apply IH; exact B2|reflexivity].
Qed.

Lemma dropRune_map (g : ascii -> ascii) (runes : list (list ascii))
    (l : list ascii) :
  plainMap g -> forallb (forallb spaceByte) runes = true ->
  gostrings.dropRune runes (List.map g l)
  = option_map (List.map g) (gostrings.dropRune runes l).
Proof.
  intros G. induction runes as [|p runes IH]; intros B; [reflexivity|].
  simpl in B. apply andb_true_iff in B. destruct B as [B1 B2]. simpl.
  rewrite (stripPrefix_map g p l G B1).
  destruct (gostrings.stripPrefix p l); [reflexivity|]. apply IH. exact B2.
Qed.

Lemma dropRunes_map (g : ascii -> ascii) (n : nat)
    (runes : list (list ascii)) (l : list ascii) :
  plainMap g -> forallb (forallb spaceByte) runes = true ->
  gostrings.dropRunes n runes (List.map g l)
  = List.map g (gostrings.dropRunes n runes l).
Proof.
  intros G B. revert l. induction n as [|n IH]; intros l; [reflexivity|].
  simpl. rewrite (dropRune_map g runes l G B).
  destruct (gostrings.dropRune runes l); simpl; [apply IH|reflexivity].
Qed.

(** [TrimSpace] goes through such a map. *)
Lemma TrimSpace_mapBytes (g : ascii -> ascii) (s : string) :
  plainMap g ->
  gostrings.TrimSpace (gostrings.mapBytes g s)
  = gostrings.mapBytes g (gostrings.TrimSpace s).
Proof.
  intros G. apply chars_inj.
  rewrite chars_TrimSpace, !chars_mapBytes, chars_TrimSpace.
  unfold gostrings.trimRightSpace, gostrings.trimLeftSpace.
  rewrite !List.length_map.
  rewrite (dropRunes_map g _ _ _ G spaceRunes_bytes).
  rewrite List.length_map, <- List.map_rev.
  rewrite (dropRunes_map g _ _ _ G spaceRunes_rev_bytes).
  rewrite List.map_rev. reflexivity.
Qed.

Lemma plainMap_lowerByte : plainMap gostrings.lowerByte.
Proof.
  intros c.
  destruct c as [[] [] [] [] [] [] [] []];
    first [left; reflexivity | right; split; reflexivity].
Qed.

Lemma plainMap_upperByte : plainMap gostrings.upperByte.
Proof.
  intros c.
  destruct c as [[] [] [] [] [] [] [] []];
    first [left; reflexivity | right; split; reflexivity].
Qed.

Lemma upperByte_idem (c : ascii) :
  gostrings.upperByte (gostrings.upperByte c) = gostrings.upperByte c.
Proof.
  destruct c as [[] [] [] [] [] [] [] []]; reflexivity.
Qed.

Lemma lowerByte_idem (c : ascii) :
  gostrings.lowerByte (gostrings.lowerByte c) = gostrings.lowerByte c.
Proof.
  destruct c as [[] [] [] [] [] [] [] []]; reflexivity.
Qed.

Lemma mapBytes_idem (g : ascii -> ascii) (s : string) :
  (forall c, g (g c) = g c) ->
  gostrings.mapBytes g (gostrings.mapBytes g s) = gostrings.mapBytes g s.
Proof.
  intros G. induction s as [|c s IH]; [reflexivity|].
  simpl. rewrite G, IH. reflexivity.
Qed.

(** ** Facts about binary64 comparisons *)

Lemma SFcompare_antisym (x y : spec_float) (c : comparison) :
  SFcompare x y = Some c -> SFcompare y x = Some (CompOpp c).
Proof.
  destruct x as [sx|sx| |sx mx ex], y as [sy|sy| |sy my ey]; simpl;
    try discriminate; intros E; injection E as <-;
    try (destruct sx; reflexivity); try (destruct sy; reflexivity);
    try (destruct sx, sy; reflexivity).
  pose proof (Pos.compare_cont_antisym mx my Eq) as A; simpl in A.
  destruct sx, sy; try reflexivity;
    rewrite (Z.compare_antisym ex ey);
    destruct (ex ?= ey)%Z; simpl; try reflexivity;
    rewrite <- A; destruct (Pos.compare_cont Eq mx my); reflexivity.
Qed.

Lemma SFcompare_None (x y : spec_float) :
  SFcompare x y = None -> x = S754_nan \/ y = S754_nan.
Proof.
  destruct x as [sx|sx| |sx mx ex], y as [sy|sy| |sy my ey]; simpl;
    intros E; try discriminate; auto.
Qed.

Lemma is_nan_Prim2SF (x : float) :
  PrimFloat.is_nan x = false -> Prim2SF x <> S754_nan.
Proof.
  unfold PrimFloat.is_nan. rewrite FloatAxioms.eqb_spec. intros E N. rewrite N in E.
  discriminate.
Qed.

(** Away from NaN, [a > b] fails exactly when [a <= b]. *)
Lemma float_not_lt_le (a b : float) :
  PrimFloat.is_nan a = false -> PrimFloat.is_nan b = false ->
  negb (b <? a)%float = (a <=? b)%float.
Proof.
  intros Na Nb. apply is_nan_Prim2SF in Na, Nb.
  rewrite FloatAxioms.ltb_spec, FloatAxioms.leb_spec. unfold SFltb, SFleb.
  destruct (SFcompare (Prim2SF a) (Prim2SF b)) as [c|] eqn:E.
  - rewrite (SFcompare_antisym _ _ _ E). destruct c; reflexivity.
  - apply SFcompare_None in E. tauto.
Qed.

Lemma float_gt_not_le (a b : float) :
  PrimFloat.is_nan a = false -> PrimFloat.is_nan b = false ->
  (a <=? b)%float = false <-> (b <? a)%float = true.
Proof.
  intros Na Nb. rewrite <- (float_not_lt_le a b Na Nb).
  destruct (b <? a)%float; simpl; split; congruence.
Qed.

Lemma zero_not_nan : PrimFloat.is_nan 0%float = false.
Proof. reflexivity. Qed.

(** ** String tests *)

(** Turns every [String.eqb] test of the context into an equation or a
    disequation. *)
Ltac string_tests :=
  repeat match goal with
  | H : String.eqb _ _ = true |- _ => apply String.eqb_eq in H
  | H : String.eqb _ _ = false |- _ => apply String.eqb_neq in H
  end.

(** Case analysis on the first [String.eqb] test of the goal. *)
Ltac case_string :=
  match goal with
  | |- context [String.eqb ?a ?b] =>
      let E := fresh "E" in destruct (String.eqb a b) eqn:E
  end.

(** ** Wait scheduling *)

Lemma wrap_int64_small (z : Z) : - 2 ^ 63 <= z < 2 ^ 63 -> wrap_int64 z = z.
Proof.
  intros Hz. unfold wrap_int64. rewrite Z.mod_small; lia.
Qed.

Lemma normalizeWaitDuration_cases (hint : Z) :
  normalizeWaitDuration hint =
  (if hint <=? 0 then defaultWaitSec else Z.min hint maxWaitSec) * Second.
Proof.
  unfold normalizeWaitDuration, defaultWaitSec, minWaitSec, maxWaitSec, Second.
  destruct (Z.leb_spec hint 0) as [Hle|Hgt].
  - simpl. apply wrap_int64_small. lia.
  - destruct (Z.ltb_spec hint 1) as [H1|H1]; [lia|].
    destruct (hint >? 60) eqn:H60.
    + apply Z.gtb_lt in H60. rewrite Z.min_r by lia.
      apply wrap_int64_small. lia.
    + assert (hint <= 60) by (rewrite Z.gtb_ltb in H60; apply Z.ltb_ge in H60; lia).
      rewrite Z.min_l by lia. apply wrap_int64_small. lia.
Qed.

(** C1, as the code has it: the scheduled wait is 6 seconds for every hint
    [<= 0] and [clamp(hint, 1, 60)] seconds for every positive hint; so hint 0
    gives 6 s, hint 200 gives 60 s and hint -5 gives 6 s, with or without the
    normaliser's raising of a negative hint to 0. *)
Theorem normalizeWaitDuration_spec :
  (forall hint : Z,
      normalizeWaitDuration hint =
      (if hint <=? 0 then 6 else clamp 1 60 hint) * Second)
  /\ normalizeWaitDuration 0 = 6 * Second
  /\ normalizeWaitDuration 200 = 60 * Second
  /\ normalizeWaitDuration (-5) = 6 * Second
  /\ (forall a : Action.t,
        normalizeWaitDuration (Action.NextCheckSec (normalizeAction a)) =
        normalizeWaitDuration (Action.NextCheckSec a)).
Proof.
  split; [|repeat split; try reflexivity].
  - intros hint. rewrite normalizeWaitDuration_cases.
    unfold clamp, defaultWaitSec, maxWaitSec.
    destruct (Z.leb_spec hint 0); [reflexivity|].
    f_equal. lia.
  - intros a. rewrite !normalizeWaitDuration_cases. simpl.
    destruct (Z.ltb_spec (Action.NextCheckSec a) 0) as [Hneg|Hpos].
    + destruct (Z.leb_spec (Action.NextCheckSec a) 0); [reflexivity|lia].
    + reflexivity.
Qed.


(** ** The strict grammar *)

Lemma positive_float (x : float) :
  PrimFloat.is_nan x = false ->
  (x <=? 0)%float = false <-> (0 <? x)%float = true.
Proof.
  intros Nx. apply float_gt_not_le; [exact Nx|exact zero_not_nan].
Qed.

Lemma validateStrictAction_complete (a : Action.t) :
  StrictGrammar a -> validateStrictAction a = "".
Proof.
  intros [Hkind Hwait Hasset Hqty Hside Hprice].
  unfold validateStrictAction.
  fold (kindOf a). fold (sideOf a). fold (cleanSymbol (Action.AssetSymbol a)).
  fold (assetOf a).
  assert (Hle : forall x, (0 <? x)%float = true -> (x <=? 0)%float = false).
  { intros x Hx. destruct (x <=? 0)%float eqn:E; [|reflexivity].
    rewrite FloatAxioms.ltb_spec in Hx. rewrite FloatAxioms.leb_spec in E.
    unfold SFltb in Hx. unfold SFleb in E.
    destruct (SFcompare (Prim2SF 0) (Prim2SF x)) as [c|] eqn:C; [|discriminate].
    rewrite (SFcompare_antisym _ _ _ C) in E. destruct c; discriminate. }
  unfold canonicalKinds in Hkind. simpl in Hkind.
  destruct Hkind as [K|[K|[K|[K|[]]]]]; rewrite <- K in *; simpl.
  - destruct Hasset as [A1 A2]; [discriminate|].
    apply String.eqb_neq in A1, A2. rewrite A1, A2.
    rewrite (Hle _ (Hqty ltac:(discriminate))).
    rewrite (Hle _ (Hprice (or_introl eq_refl))). reflexivity.
  - destruct Hasset as [A1 A2]; [discriminate|].
    apply String.eqb_neq in A1, A2. rewrite A1, A2.
    rewrite (Hle _ (Hqty ltac:(discriminate))).
    rewrite (Hle _ (Hprice (or_intror eq_refl))). reflexivity.
  - destruct Hasset as [A1 A2]; [discriminate|].
    apply String.eqb_neq in A1, A2. rewrite A1, A2.
    rewrite (Hle _ (Hqty ltac:(discriminate))).
    destruct (Hside eq_refl) as [S|S]; rewrite S; reflexivity.
  - specialize (Hwait eq_refl).
    destruct (Z.ltb_spec (Action.NextCheckSec a) 0); [lia|reflexivity].
Qed.

Lemma validateStrictAction_sound (a : Action.t) :
  jsonNumbers a -> validateStrictAction a = "" -> StrictGrammar a.
Proof.
  intros [Nq Np]. unfold validateStrictAction.
  fold (kindOf a). fold (sideOf a). fold (cleanSymbol (Action.AssetSymbol a)).
  fold (assetOf a).
  destruct (String.eqb (kindOf a) "post_offer") eqn:K1;
  destruct (String.eqb (kindOf a) "create_rfq") eqn:K2;
  destruct (String.eqb (kindOf a) "trade") eqn:K3;
  destruct (String.eqb (kindOf a) "wait") eqn:K4; simpl;
  string_tests; try congruence;
  try (repeat case_string; discriminate).
  all: try (destruct (String.eqb (assetOf a) "") eqn:A1; [discriminate|];
            destruct (String.eqb (assetOf a) "AGC") eqn:A2; [discriminate|];
            destruct (Action.Qty a <=? 0)%float eqn:Q; [discriminate|];
            apply (positive_float _ Nq) in Q; string_tests).
  - (* post_offer *)
    destruct (Action.PriceAGC a <=? 0)%float eqn:P; intros V; [discriminate|].
    apply (positive_float _ Np) in P.
    constructor; unfold canonicalKinds; simpl; auto; congruence.
  - (* create_rfq *)
    destruct (Action.PriceAGC a <=? 0)%float eqn:P; intros V; [discriminate|].
    apply (positive_float _ Np) in P.
    constructor; unfold canonicalKinds; simpl; auto; congruence.
  - (* trade *)
    destruct (String.eqb (sideOf a) "buy") eqn:S1;
    destruct (String.eqb (sideOf a) "sell") eqn:S2; simpl; intros V;
    try discriminate; string_tests;
    constructor; unfold canonicalKinds; simpl; auto; try congruence;
    intros [X|X]; congruence.
  - (* wait *)
    destruct (Z.ltb_spec (Action.NextCheckSec a) 0); intros V; [discriminate|].
    constructor; unfold canonicalKinds; simpl; auto; try congruence.
    intros [X|X]; congruence.
Qed.

(** C5: an action that strict validation accepts satisfies the strict grammar:
    its kind is one of the four canonical kinds; a wait has a hint [>= 0] and
    nothing else is asked of it; a non-wait has a non-empty asset other than
    the settlement symbol and a quantity [> 0]; a trade has side buy or sell;
    an offer or RFQ has a price [> 0].  The grammar is also all that validation
    asks. *)
Theorem validateStrictAction_grammar (a : Action.t) :
  jsonNumbers a ->
  (validateStrictAction a = "" <-> StrictGrammar a).
Proof.
  intros Hn. split.
  - apply validateStrictAction_sound; exact Hn.
  - apply validateStrictAction_complete.
Qed.

(** A wait with a non-negative hint passes whatever its other fields hold. *)
Lemma validateStrictAction_wait (a : Action.t) :
  kindOf a = "wait" ->
  (validateStrictAction a = "" <-> 0 <= Action.NextCheckSec a).
Proof.
  intros K. unfold validateStrictAction. fold (kindOf a). rewrite K. simpl.
  destruct (Z.ltb_spec (Action.NextCheckSec a) 0); split; intros; try lia;
    try discriminate; reflexivity.
Qed.


(** ** The "noop" rejection *)


Section NoopPipeline.

Variable rangeMap : forall A : Type, gmap string A -> list (string * A).
Variable rangeSet : gset string -> list string.


End NoopPipeline.


(** ** The memory buffer *)

Lemma keepLast_length {A : Type} (n : nat) (l : list A) :
  List.length (keepLast n l) = Nat.min n (List.length l).
Proof.
  unfold keepLast. destruct (Nat.ltb_spec n (List.length l)).
  - rewrite List.length_skipn. lia.
  - lia.
Qed.

Lemma keepLast_short {A : Type} (n : nat) (l : list A) :
  (List.length l <= n)%nat -> keepLast n l = l.
Proof.
  intros Hl. unfold keepLast.
  destruct (Nat.ltb_spec n (List.length l)); [lia|reflexivity].
Qed.

Lemma keepLast_suffix {A : Type} (n : nat) (l : list A) :
  exists older, l = (older ++ keepLast n l)%list.
Proof.
  unfold keepLast. destruct (Nat.ltb n (List.length l)).
  - exists (firstn (List.length l - n) l). symmetry. apply List.firstn_skipn.
  - exists []. reflexivity.
Qed.

Lemma keepLast_app {A : Type} (n : nat) (l l' : list A) :
  keepLast n (keepLast n l ++ l')%list = keepLast n (l ++ l')%list.
Proof.
  unfold keepLast at 2. destruct (Nat.ltb_spec n (List.length l)) as [Hlt|Hge];
    [|reflexivity].
  unfold keepLast.
  rewrite !List.length_app, List.length_skipn.
  destruct (Nat.ltb_spec n (List.length l - (List.length l - n) + List.length l'));
  destruct (Nat.ltb_spec n (List.length l + List.length l')); try lia.
  - rewrite !List.skipn_app, List.skipn_skipn, List.length_skipn.
    replace (List.length l - (List.length l - n) + List.length l' - n
             + (List.length l - n))%nat
      with (List.length l + List.length l' - n)%nat by lia.
    replace (List.length l - (List.length l - n) + List.length l' - n
             - (List.length l - (List.length l - n)))%nat
      with (List.length l + List.length l' - n - List.length l)%nat by lia.
    reflexivity.
  - assert (List.length l' = 0%nat) by lia.
    destruct l'; [|discriminate]. rewrite !List.app_nil_r.
    replace (List.length l + List.length (@nil A) - n)%nat
      with (List.length l - n)%nat by (simpl; lia).
    reflexivity.
Qed.

Lemma keepLast_full {A : Type} (n : nat) (l : list A) (x : A) :
  List.length l = S n -> keepLast (S n) (l ++ [x])%list = (List.tl l ++ [x])%list.
Proof.
  intros Hl. unfold keepLast. rewrite List.length_app, Hl. simpl List.length.
  destruct (Nat.ltb_spec (S n) (S n + 1)); [|lia].
  replace (S n + 1 - S n)%nat with 1%nat by lia.
  destruct l; [discriminate|reflexivity].
Qed.

(** C7: from a buffer of at most 12 entries, a push leaves at most 12; an
    entry pushed onto a full buffer takes the place of the oldest one, the
    others keeping their order, and onto a buffer with room it is appended. *)
Theorem pushDecisionMemory_fifo (now : string) (memory : list memoryDecision.t)
    (entry : memoryDecision.t) :
  (List.length memory <= decisionMemoryLimit)%nat ->
  (List.length (pushDecisionMemory now memory entry) <= decisionMemoryLimit)%nat
  /\ (gostrings.TrimSpace (memoryDecision.Action entry) <> "" ->
      (List.length memory = decisionMemoryLimit ->
       pushDecisionMemory now memory entry
       = (List.tl memory ++ [stampEntry now entry])%list)
      /\ ((List.length memory < decisionMemoryLimit)%nat ->
          pushDecisionMemory now memory entry
          = (memory ++ [stampEntry now entry])%list))
  /\ (gostrings.TrimSpace (memoryDecision.Action entry) = "" ->
      pushDecisionMemory now memory entry = memory).
Proof.
  intros Hlen. unfold pushDecisionMemory.
  destruct (String.eqb (gostrings.TrimSpace (memoryDecision.Action entry)) "")
    eqn:E; string_tests.
  - split; [exact Hlen|]. split; [congruence|reflexivity].
  - split; [rewrite keepLast_length; lia|]. split; [|congruence].
    intros _. split.
    + intros Hfull. unfold decisionMemoryLimit in *.
      apply keepLast_full. exact Hfull.
    + intros Hroom. apply keepLast_short.
      rewrite List.length_app. simpl. lia.
Qed.

(** ** Stable sorting *)

Section StableSort.

Context {A : Type}.
Variable less : A -> A -> bool.
Hypothesis less_asym : forall x y, less x y = true -> less y x = false.

Lemma insertStable_perm (x : A) (l : list A) :
  Permutation (insertStable less x l) (x :: l).
Proof.
  induction l as [|y l IH]; simpl; [reflexivity|].
  destruct (less y x).
  - rewrite IH. apply perm_swap.
  - reflexivity.
Qed.

Lemma SliceStable_perm (l : list A) : Permutation (SliceStable less l) l.
Proof.
  induction l as [|x l IH]; simpl; [reflexivity|].
  rewrite insertStable_perm. constructor. exact IH.
Qed.

Lemma insertStable_sorted (x : A) (l : list A) :
  Sorted (fun a b => less b a = false) l ->
  Sorted (fun a b => less b a = false) (insertStable less x l).
Proof.
  induction l as [|y l IH]; simpl; intros Hs.
  - repeat constructor.
  - destruct (less y x) eqn:L.
    + inversion Hs as [|? ? Hs' Hd]; subst. constructor; [apply IH; exact Hs'|].
      destruct l as [|z l]; simpl.
      * constructor. apply less_asym. exact L.
      * destruct (less z x); constructor.
        -- inversion Hd; subst. assumption.
        -- apply less_asym. exact L.
    + constructor; [exact Hs|]. constructor. exact L.
Qed.

Lemma SliceStable_sorted (l : list A) :
  Sorted (fun a b => less b a = false) (SliceStable less l).
Proof.
  induction l as [|x l IH]; simpl; [constructor|].
  apply insertStable_sorted. exact IH.
Qed.

End StableSort.

Lemma Sorted_weaken {A : Type} (R S : A -> A -> Prop) (l : list A) :
  (forall x y, R x y -> S x y) -> Sorted R l -> Sorted S l.
Proof.
  intros HRS. induction 1 as [|x l Hs IH Hd]; constructor; [exact IH|].
  destruct Hd; constructor. apply HRS. assumption.
Qed.

Lemma ltb_asym (a b : string) : String.ltb a b = true -> String.ltb b a = false.
Proof.
  unfold String.ltb. rewrite (String.compare_antisym a b).
  destruct (String.compare b a); simpl; congruence.
Qed.

Lemma seedLess_asym (x y : Decision.t) :
  seedLess x y = true -> seedLess y x = false.
Proof.
  unfold seedLess.
  rewrite (String.eqb_sym (gostrings.TrimSpace (Decision.CreatedAt y))).
  destruct (String.eqb _ _); apply ltb_asym.
Qed.

Lemma seedLess_ordered (x y : Decision.t) :
  seedLess y x = false -> seedOrdered x y.
Proof.
  unfold seedLess, seedOrdered, stampOf.
  destruct (String.eqb (gostrings.TrimSpace (Decision.CreatedAt y))
                       (gostrings.TrimSpace (Decision.CreatedAt x))) eqn:E;
    string_tests.
  - intros L. right. split; [congruence|].
    unfold String.ltb in L. unfold String.leb.
    rewrite (String.compare_antisym (Decision.DecisionID x)).
    destruct (String.compare (Decision.DecisionID y) (Decision.DecisionID x));
      simpl; congruence.
  - intros L. left.
    unfold String.ltb in *.
    rewrite (String.compare_antisym (gostrings.TrimSpace (Decision.CreatedAt x))).
    destruct (String.compare (gostrings.TrimSpace (Decision.CreatedAt y))
                (gostrings.TrimSpace (Decision.CreatedAt x))) eqn:C;
      simpl; try congruence.
    apply String.compare_eq_iff in C. congruence.
Qed.

(** ** Seeding the memory *)

Lemma seedable_kind (d : Decision.t) :
  seedable d = true <-> decisionKind d <> "" /\ decisionKind d <> "noop".
Proof.
  unfold seedable. fold (decisionKind d).
  destruct (String.eqb (decisionKind d) "") eqn:E1;
  destruct (String.eqb (decisionKind d) "noop") eqn:E2; simpl; string_tests;
    split; try discriminate; try tauto; intros [? ?]; congruence.
Qed.

Lemma stampedSeeds_length (clock : nat -> string) (i : nat)
    (items : list Decision.t) :
  List.length (stampedSeeds clock i items) = List.length items.
Proof.
  revert i. induction items as [|x items IH]; intros i; simpl; [reflexivity|].
  rewrite IH. reflexivity.
Qed.

Lemma pushSeeds_appends (clock : nat -> string) (items : list Decision.t) :
  lowerKeepsText ->
  Forall (fun d => seedable d = true) items ->
  forall (i : nat) (memory : list memoryDecision.t),
    pushSeeds clock i memory items =
    match items with
    | [] => memory
    | _ => keepLast decisionMemoryLimit (memory ++ stampedSeeds clock i items)
    end.
Proof.
  intros Law.
  induction 1 as [|x rest Hx Hrest IH]; intros i memory; [reflexivity|].
  simpl pushSeeds. rewrite IH.
  assert (P : pushDecisionMemory (clock i) memory (seedEntry x)
              = keepLast decisionMemoryLimit
                  (memory ++ [stampEntry (clock i) (seedEntry x)])).
  { unfold pushDecisionMemory. simpl memoryDecision.Action.
    apply seedable_kind in Hx. destruct Hx as [Hne _].
    assert (Hkept : gostrings.TrimSpace (decisionKind x) <> "").
    { intros B. apply Hne. apply Law. exact B. }
    apply String.eqb_neq in Hkept. unfold decisionKind in Hkept.
    rewrite Hkept. reflexivity. }
  rewrite P. destruct rest as [|y rest]; [reflexivity|].
  rewrite keepLast_app, <- List.app_assoc. reflexivity.
Qed.

Lemma seedSelection_seedable (history : list Decision.t) :
  Forall (fun d => seedable d = true) (seedSelection history).
Proof.
  unfold seedSelection.
  destruct (keepLast_suffix decisionSeedLimit
              (SliceStable seedLess (List.filter seedable history))) as [older E].
  assert (F : Forall (fun d => seedable d = true)
                (SliceStable seedLess (List.filter seedable history))).
  { apply List.Forall_forall. intros d Hd.
    apply (Permutation_in _ (SliceStable_perm seedLess _)) in Hd.
    apply List.filter_In in Hd. tauto. }
  rewrite E in F. apply List.Forall_app in F. tauto.
Qed.

(** C10: seeding drops the history decisions whose kind is empty or "noop",
    sorts the rest ascending by created-at timestamp with the decision ID
    breaking ties, and appends to the memory only the last
    [decisionSeedLimit = 8] of them, in that order: at most 8 entries.  The
    kind is read trimmed of Unicode white space and in lower case; that each
    selected entry passes the blank test of the push is what [lowerKeepsText]
    says of the case tables. *)
Theorem seedDecisionMemory_selection (clock : nat -> string) (r : Runner.t)
    (history : list Decision.t) :
  lowerKeepsText ->
  let kept := List.filter seedable history in
  let sorted := SliceStable seedLess kept in
  let selected := seedSelection history in
  (forall d, In d kept <->
             In d history /\ decisionKind d <> "" /\ decisionKind d <> "noop")
  /\ Permutation sorted kept
  /\ Sorted seedOrdered sorted
  /\ (exists older, sorted = (older ++ selected)%list)
  /\ List.length selected = Nat.min decisionSeedLimit (List.length kept)
  /\ (List.length (stampedSeeds clock 0 selected) <= 8)%nat
  /\ Runner.decisionMemory (seedDecisionMemory clock r (Some history)) =
     if seedSkipped r then Runner.decisionMemory r
     else match selected with
          | [] => Runner.decisionMemory r
          | _ => keepLast decisionMemoryLimit
                   (Runner.decisionMemory r ++ stampedSeeds clock 0 selected)
          end.
Proof.
  intros Law kept sorted selected.
  assert (P : Permutation sorted kept) by apply SliceStable_perm.
  assert (L : List.length selected = Nat.min decisionSeedLimit (List.length kept)).
  { unfold selected, seedSelection. rewrite keepLast_length.
    fold kept. fold sorted. rewrite (Permutation_length P). reflexivity. }
  split.
  { intros d. unfold kept. rewrite List.filter_In, seedable_kind. reflexivity. }
  split; [exact P|]. split.
  { apply (Sorted_weaken (fun a b => seedLess b a = false)).
    - intros x y. apply seedLess_ordered.
    - apply SliceStable_sorted. exact seedLess_asym. }
  split; [apply keepLast_suffix|]. split; [exact L|]. split.
  { rewrite stampedSeeds_length, L. unfold decisionSeedLimit. lia. }
  unfold seedDecisionMemory. fold (seedSkipped r).
  destruct (seedSkipped r); [reflexivity|].
  simpl. apply (pushSeeds_appends _ _ Law). apply seedSelection_seedable.
Qed.

(** ** Reward scoring *)

Lemma statusBase_table (status : string) :
  In (statusBase status, baseTenths status) scoreTable.
Proof.
  unfold statusBase, baseTenths, scoreTable.
  destruct (String.eqb _ "executed"); [simpl; auto|].
  destruct (String.eqb _ "wait"); [simpl; auto|].
  destruct (String.eqb _ "blocked"); [simpl; auto|].
  destruct (String.eqb _ "rejected"); simpl; auto 6.
Qed.

Lemma scoreDecisionOutcome_penalise (status errMsg : string) :
  scoreDecisionOutcome status errMsg
  = penalise (statusBase status) (parseCategory errMsg) (schemaCategory errMsg)
             (balanceCategory errMsg) (liquidityCategory errMsg).
Proof.
  unfold scoreDecisionOutcome, parseCategory, schemaCategory, balanceCategory,
    liquidityCategory.
  fold (errorText errMsg).
  destruct (String.eqb (errorText errMsg) "") eqn:E; [|reflexivity].
  apply String.eqb_eq in E. rewrite E. reflexivity.
Qed.

Lemma penalise_sum (base : float) (t : Z) (p q u v : bool) :
  In (base, t) scoreTable ->
  penalise base p q u v
  = fold_left PrimFloat.add
      ((if p then [(-0.5)%float] else [])
       ++ (if q then [(-0.4)%float] else [])
       ++ (if u then [(-0.2)%float] else [])
       ++ (if v then [(-0.1)%float] else []))%list base
  /\ tenths (penalise base p q u v)
     = Some (t + ((if p then -5 else 0) + (if q then -4 else 0)
                  + (if u then -2 else 0) + (if v then -1 else 0))).
Proof.
  unfold scoreTable. simpl.
  intros [E|[E|[E|[E|[E|[]]]]]]; injection E as <- <-;
    destruct p, q, u, v; split; vm_compute; reflexivity.
Qed.

(** C8: the reward score is the base of the status (executed 0.8, wait 0.2,
    blocked -0.3, rejected -0.7, anything else -0.1) plus the penalty of every
    error category present in the message (parse or decision error -0.5, schema
    error -0.4, insufficient balance -0.2, no matching liquidity -0.1), the
    penalties adding up; read to the nearest tenth, the score is the exact
    decimal sum. *)
Theorem scoreDecisionOutcome_additive (status errMsg : string) :
  scoreDecisionOutcome status errMsg
  = fold_left PrimFloat.add (penalties errMsg) (statusBase status)
  /\ tenths (scoreDecisionOutcome status errMsg)
     = Some (baseTenths status + penaltyTenths errMsg).
Proof.
  rewrite scoreDecisionOutcome_penalise.
  exact (penalise_sum _ _ (parseCategory errMsg) (schemaCategory errMsg)
           (balanceCategory errMsg) (liquidityCategory errMsg)
           (statusBase_table status)).
Qed.

(** ** Liquidity matching *)

Lemma reaches_nil (remaining : float) : ~ reaches remaining [].
Proof.
  intros [k [[H1 H2] _]]. simpl in H2. lia.
Qed.

Lemma reaches_cons (remaining q : float) (rest : list float) :
  reaches remaining (q :: rest)
  <-> ((remaining - q)%float <=? eps)%float = true
      \/ reaches (remaining - q)%float rest.
Proof.
  unfold reaches, shortfall. split.
  - intros [k [[H1 H2] Hk]]. destruct k as [|[|k]]; [lia| |].
    + left. exact Hk.
    + right. exists (S k). simpl in *. split; [lia|exact Hk].
  - intros [H|[k [[H1 H2] Hk]]].
    + exists 1%nat. simpl. split; [lia|exact H].
    + exists (S k). simpl. split; [lia|].
      destruct k; [lia|exact Hk].
Qed.

Lemma fillFromOffers_reaches (self asset : string) (price : float)
    (offers : list Offer.t) :
  forall remaining : float,
    fillFromOffers self asset price remaining offers = true
    <-> reaches remaining
          (List.map Offer.Qty (List.filter (offerCounts self asset price) offers)).
Proof.
  induction offers as [|offer rest IH]; intros remaining; simpl.
  - split; [discriminate|]. intros H. exfalso. exact (reaches_nil _ H).
  - destruct (offerCounts self asset price offer); simpl.
    + rewrite reaches_cons.
      destruct (remaining - Offer.Qty offer <=? eps)%float eqn:E.
      * tauto.
      * rewrite IH. split; [tauto|]. intros [H|H]; [discriminate|exact H].
    + apply IH.
Qed.

Lemma fillFromRFQs_reaches (self asset : string) (price : float)
    (rfqs : list RFQ.t) :
  forall remaining : float,
    fillFromRFQs self asset price remaining rfqs = true
    <-> reaches remaining
          (List.map RFQ.Qty (List.filter (rfqCounts self asset price) rfqs)).
Proof.
  induction rfqs as [|rfq rest IH]; intros remaining; simpl.
  - split; [discriminate|]. intros H. exfalso. exact (reaches_nil _ H).
  - destruct (rfqCounts self asset price rfq); simpl.
    + rewrite reaches_cons.
      destruct (remaining - RFQ.Qty rfq <=? eps)%float eqn:E.
      * tauto.
      * rewrite IH. split; [tauto|]. intros [H|H]; [discriminate|exact H].
    + apply IH.
Qed.

(** The guards of the two loops are the qualifications of the
    specification. *)
Lemma offerCounts_qualifying (self asset : string) (price : float)
    (o : Offer.t) :
  offerCounts self asset price o
  = bool_decide (qualifyingOffer self asset price o).
Proof.
  unfold offerCounts, isOpenStatus, cleanSymbol, eps.
  destruct (bool_decide (qualifyingOffer self asset price o)) eqn:D.
  - apply bool_decide_eq_true_1 in D. destruct D as (A & S & X & P).
    apply String.eqb_neq in A. apply String.eqb_eq in X.
    rewrite A, X, P. simpl. rewrite andb_true_r.
    destruct S as [S|S]; rewrite S; reflexivity.
  - apply bool_decide_eq_false_1 in D.
    destruct (negb (String.eqb (Offer.AgentID o) self)
              && (String.eqb (gostrings.ToLower (gostrings.TrimSpace (Offer.Status o))) ""
                  || String.eqb (gostrings.ToLower (gostrings.TrimSpace (Offer.Status o))) "open")
              && String.eqb (gostrings.ToUpper (gostrings.TrimSpace (Offer.Asset o))) asset
              && negb (price + 1e-9 <? Offer.PriceAGC o)%float) eqn:G;
      [|reflexivity].
    exfalso. apply D.
    apply andb_true_iff in G. destruct G as [G P].
    apply andb_true_iff in G. destruct G as [G X].
    apply andb_true_iff in G. destruct G as [A S].
    apply negb_true_iff in A, P. apply String.eqb_neq in A.
    apply String.eqb_eq in X. apply orb_true_iff in S.
    split; [exact A|]. split; [|split; assumption].
    destruct S as [S|S]; apply String.eqb_eq in S; [left|right]; exact S.
Qed.

Lemma rfqCounts_qualifying (self asset : string) (price : float)
    (q : RFQ.t) :
  rfqCounts self asset price q
  = bool_decide (qualifyingRFQ self asset price q).
Proof.
  unfold rfqCounts, isOpenStatus, cleanSymbol, eps.
  destruct (bool_decide (qualifyingRFQ self asset price q)) eqn:D.
  - apply bool_decide_eq_true_1 in D. destruct D as (A & S & X & P).
    apply String.eqb_neq in A. apply String.eqb_eq in X.
    rewrite A, X, P. simpl. rewrite andb_true_r.
    destruct S as [S|S]; rewrite S; reflexivity.
  - apply bool_decide_eq_false_1 in D.
    destruct (negb (String.eqb (RFQ.AgentID q) self)
              && (String.eqb (gostrings.ToLower (gostrings.TrimSpace (RFQ.Status q))) ""
                  || String.eqb (gostrings.ToLower (gostrings.TrimSpace (RFQ.Status q))) "open")
              && String.eqb (gostrings.ToUpper (gostrings.TrimSpace (RFQ.Asset q))) asset
              && negb (RFQ.MaxPriceAGC q + 1e-9 <? price)%float) eqn:G;
      [|reflexivity].
    exfalso. apply D.
    apply andb_true_iff in G. destruct G as [G P].
    apply andb_true_iff in G. destruct G as [G X].
    apply andb_true_iff in G. destruct G as [A S].
    apply negb_true_iff in A, P. apply String.eqb_neq in A.
    apply String.eqb_eq in X. apply orb_true_iff in S.
    split; [exact A|]. split; [|split; assumption].
    destruct S as [S|S]; apply String.eqb_eq in S; [left|right]; exact S.
Qed.

Lemma filter_ext_eq {A : Type} (f g : A -> bool) (l : list A) :
  (forall x, f x = g x) -> List.filter f l = List.filter g l.
Proof.
  intros E. induction l as [|x l IH]; [reflexivity|].
  simpl. rewrite E, IH. reflexivity.
Qed.

(** C4: for a positive quantity and an asset symbol that is not blank, the
    liquidity check of a buy succeeds exactly when the quantities of the
    qualifying offers (posted by another agent, open, for the asset, not priced
    above the price within the tolerance [eps = 1e-9]) accumulate, in book
    order, to the wanted quantity within [eps]; the check of a sell succeeds
    exactly when the quantities of the qualifying RFQs (posted by another
    agent, open, for the asset, bidding no lower than the price within [eps])
    do.  Away from NaN the price tests are [offer price <= price + eps] and
    [price <= max price + eps].  The check is a function of the runner's
    snapshot that returns a boolean only. *)
Theorem hasTradeLiquidity_reaches (r : Runner.t) (asset : string)
    (price : float) (qty : Z) :
  let symbol := gostrings.ToUpper (gostrings.TrimSpace asset) in
  qty <> 0 -> symbol <> "" ->
  (hasTradeLiquidity r "buy" asset price qty = true
   <-> reaches (float64.of_uint64 qty) (countedOffers r symbol price))
  /\ (hasTradeLiquidity r "sell" asset price qty = true
      <-> reaches (float64.of_uint64 qty) (countedRFQs r symbol price))
  /\ (forall o : Offer.t,
        PrimFloat.is_nan (price + 1e-9)%float = false ->
        PrimFloat.is_nan (Offer.PriceAGC o) = false ->
        (qualifyingOffer (Runner.AgentID r) symbol price o
         <-> Offer.AgentID o <> Runner.AgentID r
             /\ openOrder (Offer.Status o)
             /\ gostrings.ToUpper (gostrings.TrimSpace (Offer.Asset o)) = symbol
             /\ (Offer.PriceAGC o <=? price + 1e-9)%float = true))
  /\ (forall q : RFQ.t,
        PrimFloat.is_nan price = false ->
        PrimFloat.is_nan (RFQ.MaxPriceAGC q + 1e-9)%float = false ->
        (qualifyingRFQ (Runner.AgentID r) symbol price q
         <-> RFQ.AgentID q <> Runner.AgentID r
             /\ openOrder (RFQ.Status q)
             /\ gostrings.ToUpper (gostrings.TrimSpace (RFQ.Asset q)) = symbol
             /\ (price <=? RFQ.MaxPriceAGC q + 1e-9)%float = true)).
Proof.
  intros symbol Hq Ha. apply Z.eqb_neq in Hq. apply String.eqb_neq in Ha.
  unfold hasTradeLiquidity, countedOffers, countedRFQs.
  fold (cleanSymbol asset) in symbol. subst symbol.
  rewrite Hq, Ha.
  change (gostrings.ToLower (gostrings.TrimSpace "buy")) with "buy".
  change (gostrings.ToLower (gostrings.TrimSpace "sell")) with "sell".
  cbn [isBuyOrSell String.eqb Ascii.eqb Bool.eqb orb negb].
  split; [|split; [|split]].
  - rewrite fillFromOffers_reaches.
    rewrite (filter_ext_eq _ _ _
               (offerCounts_qualifying (Runner.AgentID r) (cleanSymbol asset) price)).
    reflexivity.
  - rewrite fillFromRFQs_reaches.
    rewrite (filter_ext_eq _ _ _
               (rfqCounts_qualifying (Runner.AgentID r) (cleanSymbol asset) price)).
    reflexivity.
  - intros o N1 N2. unfold qualifyingOffer.
    pose proof (float_not_lt_le (Offer.PriceAGC o) (price + 1e-9)%float N2 N1) as F.
    rewrite <- F, negb_true_iff. reflexivity.
  - intros q N1 N2. unfold qualifyingRFQ.
    pose proof (float_not_lt_le price (RFQ.MaxPriceAGC q + 1e-9)%float N1 N2) as F.
    rewrite <- F, negb_true_iff. reflexivity.
Qed.

(** ** Risk preflight *)

Lemma wrap64_range (z : Z) : 0 <= wrap64 z < 2 ^ 64.
Proof.
  unfold wrap64. apply Z.mod_pos_bound. lia.
Qed.

Lemma wrap64_small (z : Z) : 0 <= z < 2 ^ 64 -> wrap64 z = z.
Proof.
  intros Hz. unfold wrap64. apply Z.mod_small. exact Hz.
Qed.

Lemma to_uint64_range (oor : float -> Z) (x : float) :
  0 <= float64.to_uint64 oor x < 2 ^ 64.
Proof.
  unfold float64.to_uint64.
  destruct (float64.truncate x) as [z|]; [|apply wrap64_range].
  destruct ((0 <=? z) && (z <? 2 ^ 64)) eqn:E; [|apply wrap64_range].
  apply andb_true_iff in E. destruct E as [E1 E2].
  apply Z.leb_le in E1. apply Z.ltb_lt in E2. lia.
Qed.

Lemma notionalOf_range (oor : float -> Z) (price : float) (qty : Z) :
  0 <= notionalOf oor price qty < 2 ^ 64.
Proof.
  apply to_uint64_range.
Qed.

Section PreflightFacts.

Variable oor : float -> Z.
Variable fees : FeeConfig.
Variable r : Runner.t.
Variable a : Action.t.

Let qty : Z := roundToUint64 oor (Action.Qty a).
Let price : float := resolvePrice r a (assetOf a).
Let notional : Z := notionalOf oor price qty.

Hypothesis known : balancesKnown r.
Hypothesis qty_positive : qty <> 0.
Hypothesis asset_given : assetOf a <> "".
Hypothesis asset_not_settlement : assetOf a <> "AGC".

(** Past the common gates, a post_offer is judged by its four rules alone. *)
Lemma preflight_post_offer_rules :
  kindOf a = "post_offer" ->
  preflight oor fees r a =
  if Runner.lastOpenOffers r >=? maxOpenOffersPerAgent
  then blocked "open offer limit reached"
  else if balanceOf (Runner.lastOffersByAS r) (assetOf a) >=? maxOpenOffersPerAsset
  then blocked "asset offer limit reached"
  else if (Action.PriceAGC a <=? 0)%float
  then blocked "price must be positive"
  else if settlementOf r
          <? u64_add (offerFeeAGC fees)
               (u64_mul (if heldOf r (assetOf a) <? qty
                         then u64_sub qty (heldOf r (assetOf a)) else 0)
                        (syntheticMintFeePerUnitAGC fees))
  then blocked "insufficient AGC for offer fee/mint"
  else proceed.
Proof.
  intros K. unfold preflight.
  fold (kindOf a). fold (assetOf a). fold qty.
  apply Nat.eqb_neq in known. rewrite known.
  apply Z.eqb_neq in qty_positive. rewrite qty_positive.
  apply String.eqb_neq in asset_given, asset_not_settlement.
  rewrite asset_given, asset_not_settlement, K. reflexivity.
Qed.

(** Past the common gates, a trade with a side and a resolved price is judged
    by its balance and liquidity rules. *)
Lemma preflight_trade_rules :
  kindOf a = "trade" -> isBuyOrSell (sideOf a) = true ->
  (price <=? 0)%float = false ->
  preflight oor fees r a =
  if String.eqb (sideOf a) "sell" then
    if heldOf r (assetOf a) <? qty then blocked "insufficient asset balance"
    else if settlementOf r <? calcTradeFee fees notional
    then blocked "insufficient AGC for fee"
    else if negb (hasTradeLiquidity r (sideOf a) (assetOf a) price qty)
    then blocked "no matching rfq liquidity"
    else proceed
  else
    if settlementOf r <? u64_add notional (calcTradeFee fees notional)
    then blocked "insufficient AGC balance"
    else if negb (hasTradeLiquidity r (sideOf a) (assetOf a) price qty)
    then blocked "no matching offer liquidity"
    else proceed.
Proof.
  intros K S P. unfold preflight.
  fold (kindOf a). fold (assetOf a). fold (sideOf a). fold qty. fold price.
  fold notional.
  apply Nat.eqb_neq in known. rewrite known.
  apply Z.eqb_neq in qty_positive. rewrite qty_positive.
  apply String.eqb_neq in asset_given, asset_not_settlement.
  rewrite asset_given, asset_not_settlement, K, S, P. reflexivity.
Qed.

Lemma preflight_trade_unpriced :
  kindOf a = "trade" -> isBuyOrSell (sideOf a) = true ->
  (price <=? 0)%float = true ->
  preflight oor fees r a = blocked "price unavailable".
Proof.
  intros K S P. unfold preflight.
  fold (kindOf a). fold (assetOf a). fold (sideOf a). fold qty. fold price.
  apply Nat.eqb_neq in known. rewrite known.
  apply Z.eqb_neq in qty_positive. rewrite qty_positive.
  apply String.eqb_neq in asset_given, asset_not_settlement.
  rewrite asset_given, asset_not_settlement, K, S, P. reflexivity.
Qed.

End PreflightFacts.

Lemma preflight_unknown_balances (oor : float -> Z) (fees : FeeConfig)
    (r : Runner.t) (a : Action.t) :
  ~ balancesKnown r ->
  preflight oor fees r a = blocked "balances unavailable".
Proof.
  unfold balancesKnown, preflight. intros U.
  destruct (Nat.eqb_spec (size (Runner.lastBalances r)) 0%nat); [reflexivity|tauto].
Qed.

Lemma balancesKnown_dec (r : Runner.t) : balancesKnown r \/ ~ balancesKnown r.
Proof.
  unfold balancesKnown.
  destruct (Nat.eq_dec (size (Runner.lastBalances r)) 0%nat); [right|left]; lia.
Qed.

Lemma initial_offer_need (mint : Z) :
  u64_add (offerFeeAGC initialFees)
          (u64_mul mint (syntheticMintFeePerUnitAGC initialFees)) = 0.
Proof.
  unfold u64_add, u64_mul, initialFees. simpl.
  rewrite Z.mul_0_r. reflexivity.
Qed.

(** The requirement as the code computes it, in 64 bits, is the requirement of
    the specification when that fits 64 bits. *)
Lemma offerNeed_u64 (fees : FeeConfig) (qty held : Z) :
  0 <= qty < 2 ^ 64 -> 0 <= held ->
  0 <= offerFeeAGC fees -> 0 <= syntheticMintFeePerUnitAGC fees ->
  offerNeed fees qty held < 2 ^ 64 ->
  u64_add (offerFeeAGC fees)
    (u64_mul (if held <? qty then u64_sub qty held else 0)
             (syntheticMintFeePerUnitAGC fees))
  = offerNeed fees qty held.
Proof.
  intros R H0 F1 F2 W.
  unfold offerNeed in *. unfold u64_add, u64_mul, u64_sub.
  destruct (Z.ltb_spec held qty) as [L|L].
  - rewrite Z.max_r in * by lia.
    rewrite (wrap64_small (qty - held)) by lia.
    assert (0 <= (qty - held) * syntheticMintFeePerUnitAGC fees) by nia.
    rewrite (wrap64_small ((qty - held) * _)) by lia.
    apply wrap64_small. lia.
  - rewrite Z.max_l in * by lia. rewrite Z.mul_0_l in *.
    rewrite (wrap64_small 0) by lia. apply wrap64_small. lia.
Qed.

(** C3: a post_offer that reaches the rules with a rounded quantity above zero
    and a valid asset is blocked when the agent has 5 open offers or more, or
    3 or more for the asset, or its price is not above zero, or the settlement
    balance is below the offer fee plus the mint fee of the units not held,
    [offerFee + max(0, qty - held) * perUnitMintFee]; when only the last holds,
    the message is the one of the fee; otherwise, the balances being known, it
    proceeds.  This is for every fee schedule whose requirement fits 64 bits;
    with the fees of the package, both 0, the requirement is 0. *)
Theorem preflight_post_offer (oor : float -> Z) (fees : FeeConfig)
    (r : Runner.t) (a : Action.t) :
  let qty := roundToUint64 oor (Action.Qty a) in
  let held := heldOf r (assetOf a) in
  kindOf a = "post_offer" ->
  qty <> 0 -> assetOf a <> "" -> assetOf a <> "AGC" ->
  0 <= held -> 0 <= offerFeeAGC fees -> 0 <= syntheticMintFeePerUnitAGC fees ->
  offerNeed fees qty held < 2 ^ 64 ->
  (offerBlocked fees r a qty -> exists msg, preflight oor fees r a = blocked msg)
  /\ (balancesKnown r ->
      Runner.lastOpenOffers r < maxOpenOffersPerAgent ->
      balanceOf (Runner.lastOffersByAS r) (assetOf a) < maxOpenOffersPerAsset ->
      (Action.PriceAGC a <=? 0)%float = false ->
      settlementOf r < offerFeeAGC fees
                       + Z.max 0 (qty - held) * syntheticMintFeePerUnitAGC fees ->
      preflight oor fees r a = blocked "insufficient AGC for offer fee/mint")
  /\ (balancesKnown r -> ~ offerBlocked fees r a qty ->
      preflight oor fees r a = proceed)
  /\ offerNeed initialFees qty held = 0.
Proof.
  intros qty held K Q A1 A2 H0 F1 F2 W.
  pose proof (to_uint64_range oor (float64.Round (Action.Qty a))) as R.
  fold (roundToUint64 oor (Action.Qty a)) in R. fold qty in R.
  assert (Z0 : offerNeed initialFees qty held = 0).
  { unfold offerNeed, initialFees. simpl. lia. }
  destruct (balancesKnown_dec r) as [known|unknown].
  - rewrite (preflight_post_offer_rules oor fees r a known Q A1 A2 K).
    fold qty. fold held.
    rewrite (offerNeed_u64 fees qty held R H0 F1 F2 W).
    unfold offerBlocked. fold held. fold (offerNeed fees qty held).
    unfold maxOpenOffersPerAgent, maxOpenOffersPerAsset.
    destruct (Z.geb_spec (Runner.lastOpenOffers r) 5) as [L1|L1].
    { split; [eexists; reflexivity|]. split; [intros; lia|].
      split; [|exact Z0]. intros _ B. exfalso. apply B. left. lia. }
    destruct (Z.geb_spec (balanceOf (Runner.lastOffersByAS r) (assetOf a)) 3)
      as [L2|L2].
    { split; [eexists; reflexivity|]. split; [intros; lia|].
      split; [|exact Z0]. intros _ B. exfalso. apply B. right. left. lia. }
    destruct (Action.PriceAGC a <=? 0)%float eqn:P.
    { split; [eexists; reflexivity|]. split; [intros; discriminate|].
      split; [|exact Z0]. intros _ B. exfalso. apply B. auto. }
    destruct (Z.ltb_spec (settlementOf r) (offerNeed fees qty held)) as [L3|L3].
    { split; [eexists; reflexivity|]. split; [reflexivity|].
      split; [|exact Z0]. intros _ B. exfalso. apply B. auto. }
    split; [|split; [|split; [reflexivity|exact Z0]]].
    + intros [B|[B|[B|B]]]; try lia; discriminate.
    + intros _ _ _ _ S. unfold offerNeed in *. lia.
  - rewrite (preflight_unknown_balances _ _ _ _ unknown).
    split; [eexists; reflexivity|]. split; [tauto|]. split; [tauto|exact Z0].
Qed.

(** The fee of a trade is [floor(notional * 10 / 10000)] as long as the
    product fits 64 bits. *)
Lemma calcTradeFee_exact (notional : Z) :
  0 <= notional -> notional * 10 < 2 ^ 64 ->
  calcTradeFee initialFees notional = feeOf 10 notional.
Proof.
  intros H0 H1. unfold calcTradeFee, feeOf, u64_mul, initialFees. simpl.
  destruct (Z.eqb_spec notional 0) as [->|_]; [reflexivity|].
  rewrite wrap64_small by lia. reflexivity.
Qed.

(** The trade rules of the specification, for a notional whose fee arithmetic
    does not leave 64 bits: with a resolved positive price, the fee is
    [floor(notional * 10 / 10000)] for [notional = round(price * qty)]; a sell
    proceeds exactly when the asset balance covers the quantity, the settlement
    balance covers the fee and RFQ liquidity matches; a buy proceeds exactly
    when the settlement balance covers notional plus fee and offer liquidity
    matches. *)
Lemma preflight_trade_in_range (oor : float -> Z) (r : Runner.t) (a : Action.t) :
  let qty := roundToUint64 oor (Action.Qty a) in
  let price := resolvePrice r a (assetOf a) in
  let notional := notionalOf oor price qty in
  let fee := feeOf 10 notional in
  balancesKnown r -> qty <> 0 -> assetOf a <> "" -> assetOf a <> "AGC" ->
  kindOf a = "trade" -> (price <=? 0)%float = false ->
  notional * 10 < 2 ^ 64 -> notional + fee < 2 ^ 64 ->
  calcTradeFee initialFees notional = fee
  /\ (sideOf a = "sell" ->
      (preflight oor initialFees r a = proceed
       <-> qty <= heldOf r (assetOf a) /\ fee <= settlementOf r
           /\ hasTradeLiquidity r "sell" (assetOf a) price qty = true))
  /\ (sideOf a = "buy" ->
      (preflight oor initialFees r a = proceed
       <-> notional + fee <= settlementOf r
           /\ hasTradeLiquidity r "buy" (assetOf a) price qty = true)).
Proof.
  intros qty price notional fee known Q A1 A2 K P W1 W2.
  pose proof (notionalOf_range oor price qty) as R. fold notional in R.
  assert (F : calcTradeFee initialFees notional = fee)
    by (apply calcTradeFee_exact; lia).
  assert (F0 : 0 <= fee) by (unfold fee, feeOf; apply Z.div_pos; lia).
  split; [exact F|]. split; intros S.
  - rewrite (preflight_trade_rules oor initialFees r a known Q A1 A2 K);
      [|rewrite S; reflexivity|exact P].
    fold qty. fold price. fold notional. rewrite F, S. simpl.
    destruct (Z.ltb_spec (heldOf r (assetOf a)) qty);
      [split; [discriminate|lia]|].
    destruct (Z.ltb_spec (settlementOf r) fee); [split; [discriminate|lia]|].
    destruct (hasTradeLiquidity r "sell" (assetOf a) price qty); simpl.
    + split; [intros _; repeat split; assumption|reflexivity].
    + split; [discriminate|]. intros (_ & _ & X). discriminate.
  - rewrite (preflight_trade_rules oor initialFees r a known Q A1 A2 K);
      [|rewrite S; reflexivity|exact P].
    fold qty. fold price. fold notional. rewrite F, S. simpl.
    unfold u64_add. rewrite wrap64_small by lia.
    destruct (Z.ltb_spec (settlementOf r) (notional + fee));
      [split; [discriminate|lia]|].
    destruct (hasTradeLiquidity r "buy" (assetOf a) price qty); simpl.
    + split; [intros _; split; [assumption|reflexivity]|reflexivity].
    + split; [discriminate|]. intros (_ & X). discriminate.
Qed.


(** C2 fails where the fee arithmetic leaves 64 bits.  A buy of 2 units at
    price 1e18 has notional 2e18; [notional * 10] wraps, so the code takes a
    fee of 155325592629044 where [floor(notional * 10 / 10000)] is 2e15, and it
    lets the trade proceed on a settlement balance of 2.001e18, below notional
    plus fee. *)
Theorem preflight_trade_fee_wraps (oor : float -> Z) :
  notionalOf oor (Action.PriceAGC hugeBuy)
             (roundToUint64 oor (Action.Qty hugeBuy)) = 2000000000000000000
  /\ calcTradeFee initialFees 2000000000000000000 = 155325592629044
  /\ feeOf 10 2000000000000000000 = 2000000000000000
  /\ settlementOf hugeRunner < 2000000000000000000 + feeOf 10 2000000000000000000
  /\ preflight oor initialFees hugeRunner hugeBuy = proceed.
Proof.
  repeat split.
Qed.

(** The model output of the specification's last example (action buy, asset
    symbol xyz, quantity 2, price 3): it normalises to a buy trade of XYZ, proceeds on a
    sufficient balance when two units rest at price 3, and is blocked for want
    of offers otherwise. *)
Example preflight_normalised_buy :
  let a := normalizeAction (Action.mk "buy" "xyz" "" 3%float 2%float "" "" 0) in
  (Action.Action a, Action.Side a, Action.AssetSymbol a) = ("trade", "buy", "XYZ")
  /\ validateStrictAction a = ""
  /\ preflight saturate initialFees
       (bookRunner [offerOf "agent-2" "XYZ" 3 2] [] [("AGC", 6)]) a = proceed
  /\ preflight saturate initialFees (bookRunner [] [] [("AGC", 6)]) a
     = blocked "no matching offer liquidity".
Proof.
  repeat split.
Qed.

(** The post_offer rules for any fee schedule whose requirement fits 64 bits:
    the offer proceeds exactly when both limits leave room, the price is above
    zero and the settlement balance covers the offer fee plus the mint fee of
    every unit not held. *)
Lemma preflight_post_offer_fees (oor : float -> Z) (fees : FeeConfig)
    (r : Runner.t) (a : Action.t) :
  let qty := roundToUint64 oor (Action.Qty a) in
  let held := heldOf r (assetOf a) in
  balancesKnown r -> qty <> 0 -> assetOf a <> "" -> assetOf a <> "AGC" ->
  kindOf a = "post_offer" ->
  0 <= held -> 0 <= offerFeeAGC fees -> 0 <= syntheticMintFeePerUnitAGC fees ->
  offerNeed fees qty held < 2 ^ 64 ->
  (preflight oor fees r a = proceed <-> ~ offerBlocked fees r a qty)
  /\ (settlementOf r < offerNeed fees qty held ->
      Runner.lastOpenOffers r < maxOpenOffersPerAgent ->
      balanceOf (Runner.lastOffersByAS r) (assetOf a) < maxOpenOffersPerAsset ->
      (Action.PriceAGC a <=? 0)%float = false ->
      preflight oor fees r a = blocked "insufficient AGC for offer fee/mint").
Proof.
  intros qty held known Q A1 A2 K H0 F1 F2 W.
  pose proof (to_uint64_range oor (float64.Round (Action.Qty a))) as R.
  fold (roundToUint64 oor (Action.Qty a)) in R. fold qty in R.
  rewrite (preflight_post_offer_rules oor fees r a known Q A1 A2 K).
  fold qty. fold held.
  assert (N : u64_add (offerFeeAGC fees)
                (u64_mul (if held <? qty then u64_sub qty held else 0)
                         (syntheticMintFeePerUnitAGC fees))
              = offerNeed fees qty held).
  { unfold offerNeed in *. unfold u64_add, u64_mul, u64_sub.
    destruct (Z.ltb_spec held qty) as [L|L].
    - rewrite Z.max_r in * by lia.
      rewrite (wrap64_small (qty - held)) by lia.
      assert (0 <= (qty - held) * syntheticMintFeePerUnitAGC fees) by nia.
      rewrite (wrap64_small ((qty - held) * _)) by lia.
      apply wrap64_small. lia.
    - rewrite Z.max_l in * by lia. rewrite Z.mul_0_l in *.
      rewrite (wrap64_small 0) by lia. apply wrap64_small. lia. }
  rewrite N. unfold offerBlocked. fold held.
  unfold maxOpenOffersPerAgent, maxOpenOffersPerAsset.
  destruct (Z.geb_spec (Runner.lastOpenOffers r) 5) as [L1|L1].
  { split; [|intros; lia]. split; [discriminate|]. intros B. exfalso. apply B. lia. }
  destruct (Z.geb_spec (balanceOf (Runner.lastOffersByAS r) (assetOf a)) 3)
    as [L2|L2].
  { split; [|intros; lia]. split; [discriminate|]. intros B. exfalso. apply B. lia. }
  destruct (Action.PriceAGC a <=? 0)%float eqn:P.
  { split; [|intros; discriminate].
    split; [discriminate|]. intros B. exfalso. apply B. auto. }
  destruct (Z.ltb_spec (settlementOf r) (offerNeed fees qty held)) as [L3|L3].
  { split; [|reflexivity].
    split; [discriminate|]. intros B. exfalso. apply B. auto. }
  split; [|intros; lia].
  split; [|reflexivity]. intros _ [B|[B|[B|B]]]; try lia; discriminate.
Qed.


(** ** The strict decision engine *)

Lemma prefix_underscores (s : string) :
  String.prefix "__" s = true -> exists t, s = String "_" (String "_" t).
Proof.
  destruct s as [|c [|d t]]; cbn [String.prefix]; try discriminate.
  - destruct (ascii_dec "_"%char c); intros X; discriminate X.
  - destruct (ascii_dec "_"%char c) as [<-|]; [|intros X; discriminate X].
    destruct (ascii_dec "_"%char d) as [<-|]; [|intros X; discriminate X].
    intros _. exists t. reflexivity.
Qed.

Lemma replaceFrom_underscores (s : string) :
  (String.length (gostrings.replaceFrom "__" "_" 0 s) <= String.length s)%nat
  /\ (String.length (gostrings.replaceFrom "__" "_" 1 s)
      <= Nat.pred (String.length s))%nat
  /\ (gostrings.Contains s "__" = true ->
      (String.length (gostrings.replaceFrom "__" "_" 0 s) < String.length s)%nat).
Proof.
  induction s as [|c rest (IH0 & IH1 & IHc)].
  - simpl. repeat split; try lia; try discriminate.
  - assert (Hit : String.prefix "__" (String c rest) = true ->
                  (String.length (gostrings.replaceFrom "__" "_" 0 (String c rest))
                   < String.length (String c rest))%nat).
    { intros P. cbn [gostrings.replaceFrom]. rewrite P.
      apply prefix_underscores in P. destruct P as [t E].
      injection E as -> ->. cbn [String.length Nat.sub].
      change (String.length ("_" +:+ gostrings.replaceFrom "__" "_" 1 (String "_" t)))
        with (S (String.length (gostrings.replaceFrom "__" "_" 1 (String "_" t)))).
      simpl in IH1 |- *. lia. }
    split; [|split].
    + destruct (String.prefix "__" (String c rest)) eqn:P.
      * specialize (Hit eq_refl). lia.
      * cbn [gostrings.replaceFrom]. rewrite P. simpl. lia.
    + simpl. lia.
    + intros Hc. cbn [gostrings.Contains] in Hc.
      destruct (String.prefix "__" (String c rest)) eqn:P.
      * apply Hit. reflexivity.
      * simpl in Hc. cbn [gostrings.replaceFrom]. rewrite P.
        apply IHc in Hc. simpl. lia.
Qed.

(** The collapsing loop of the normaliser ends within its fuel: no doubled
    underscore is left. *)
Lemma collapseUnderscores_done (s : string) :
  gostrings.Contains (collapseUnderscores s) "__" = false.
Proof.
  unfold collapseUnderscores.
  assert (G : forall fuel t, (String.length t <= fuel)%nat ->
              gostrings.Contains (collapseLoop fuel t) "__" = false).
  { induction fuel as [|fuel IH]; intros t Ht.
    - destruct t; [reflexivity|simpl in Ht; lia].
    - simpl. destruct (gostrings.Contains t "__") eqn:E; [|exact E].
      apply IH. unfold gostrings.ReplaceAll.
      pose proof (replaceFrom_underscores t) as (_ & _ & L).
      specialize (L E). lia. }
  apply G. lia.
Qed.

(** The one slice expression of [parseAction], [clean[start:end+1]], is always
    within bounds: extraction cannot fault. *)
Lemma prefix_length (sub s : string) :
  String.prefix sub s = true -> (String.length sub <= String.length s)%nat.
Proof.
  revert s. induction sub as [|c sub IH]; intros s P; [simpl; lia|].
  destruct s as [|d s]; cbn [String.prefix] in P; [discriminate|].
  destruct (ascii_dec c d); [|discriminate].
  apply IH in P. simpl. lia.
Qed.

Lemma lastIndexFrom_bound (sub s : string) :
  forall i : Z,
    gostrings.lastIndexFrom i s sub = -1
    \/ (i <= gostrings.lastIndexFrom i s sub
        /\ gostrings.lastIndexFrom i s sub + Z.of_nat (String.length sub)
           <= i + Z.of_nat (String.length s)).
Proof.
  induction s as [|c s IH]; intros i; cbn [gostrings.lastIndexFrom].
  - change (-1 =? -1) with true. cbv iota.
    destruct (String.prefix sub "") eqn:P; [|left; reflexivity].
    right. apply prefix_length in P. lia.
  - destruct (Z.eqb_spec (gostrings.lastIndexFrom (i + 1) s sub) (-1)) as [E|E].
    + destruct (String.prefix sub (String c s)) eqn:P; [|left; reflexivity].
      right. apply prefix_length in P. lia.
    + destruct (IH (i + 1)) as [F|[F1 F2]]; [contradiction|].
      right. simpl String.length. lia.
Qed.

Lemma extractObject_in_bounds (clean : string) :
  0 <= gostrings.Index clean "{" ->
  gostrings.Index clean "{" < gostrings.LastIndex clean "}" ->
  0 <= gostrings.Index clean "{" <= gostrings.LastIndex clean "}" + 1
  /\ gostrings.LastIndex clean "}" + 1 <= Z.of_nat (String.length clean).
Proof.
  intros H0 H1. unfold gostrings.LastIndex in *.
  destruct (lastIndexFrom_bound "}" clean 0) as [E|[_ B]]; [lia|].
  simpl String.length in B. lia.
Qed.

Section EngineFacts.

Context {C : Type} `{Client C}.
Variable json_Unmarshal : string -> Action.t + string.
Variable rangeMap : forall A : Type, gmap string A -> list (string * A).
Variable rangeSet : gset string -> list string.

Abbreviation judge' := (judge json_Unmarshal rangeMap rangeSet).
Abbreviation decideLoop' := (decideLoop json_Unmarshal rangeMap rangeSet).
Abbreviation decideStrict' := (decideStrict json_Unmarshal rangeMap rangeSet).
Abbreviation Tried' := (Tried json_Unmarshal rangeMap rangeSet).
Abbreviation Accepts' := (Accepts json_Unmarshal rangeMap rangeSet).
Abbreviation Fails' := (Fails json_Unmarshal rangeMap rangeSet).

(** The body of the loop returns an action exactly as the specification has an
    attempt accepted... *)
Lemma judge_accepted (r : Runner.t) (lastRaw : string) (result : string + string)
    (action : Action.t) (raw : string) :
  judge' r lastRaw result = Accepted action raw -> Accepts' r result action raw.
Proof.
  unfold judge. destruct result as [response|err]; [|discriminate].
  destruct (parseAction json_Unmarshal (gostrings.TrimSpace response))
    as [decoded|parseErr] eqn:P; [|discriminate].
  destruct (String.eqb (validateStrictAction _) "") eqn:V; [|discriminate].
  intros E. injection E as <- <-. apply String.eqb_eq in V.
  constructor; [|exact V]. unfold proposed. rewrite P. reflexivity.
Qed.

(** ... and keeps a reason and a raw text exactly as it has one fail. *)
Lemma judge_failed (r : Runner.t) (lastRaw : string) (result : string + string)
    (raw err : string) :
  judge' r lastRaw result = Failed raw err -> Fails' r lastRaw result raw err.
Proof.
  unfold judge. destruct result as [response|e].
  - destruct (parseAction json_Unmarshal (gostrings.TrimSpace response))
      as [decoded|parseErr] eqn:P.
    + destruct (String.eqb (validateStrictAction _) "") eqn:V; [discriminate|].
      intros E. injection E as <- <-. apply String.eqb_neq in V.
      apply Fails_validation; [|exact V]. unfold proposed. rewrite P. reflexivity.
    + intros E. injection E as <- <-.
      apply Fails_decoder. unfold proposed. rewrite P. reflexivity.
  - intros E. injection E as <- <-. apply Fails_provider.
Qed.

Lemma decideLoop_attempts (r : Runner.t) (base : Prompt.t) (c0 : C) :
  forall (remaining n : nat) (raw err : string) (c : C) (prompt : Prompt.t),
    (n + remaining = 3)%nat ->
    Tried' r base c0 n raw err c ->
    (remaining <> 0%nat -> prompt = promptFor base n err) ->
    (exists m raw1 err1 c1 c2 result action raw2,
        (m < 3)%nat
        /\ Tried' r base c0 m raw1 err1 c1
        /\ Generate c1 (promptFor base m err1) = (c2, result)
        /\ Accepts' r result action raw2
        /\ decideLoop' r base remaining (Z.of_nat n + 1) c prompt raw err
           = (c2, (action, raw2, None)))
    \/ (exists raw3 err3 c3,
           Tried' r base c0 3 raw3 err3 c3
           /\ decideLoop' r base remaining (Z.of_nat n + 1) c prompt raw err
              = (c3, (Action.zero, raw3,
                      Some ("failed to produce strict action after 3 attempts: "
                            +:+ err3)))).
Proof.
  induction remaining as [|remaining IH]; intros n raw err c prompt Hn Ht Hp.
  - right. replace n with 3%nat in Ht by lia.
    exists raw, err, c. split; [exact Ht|reflexivity].
  - rewrite (Hp ltac:(discriminate)). cbn [decideLoop].
    destruct (Generate c (promptFor base n err)) as [c' result] eqn:G.
    destruct (judge' r raw result) as [action raw2|raw' err'] eqn:J.
    + left. exists n, raw, err, c, c', result, action, raw2.
      split; [lia|]. split; [exact Ht|]. split; [exact G|].
      split; [exact (judge_accepted _ _ _ _ _ J)|reflexivity].
    + replace (Z.of_nat n + 1 + 1) with (Z.of_nat (S n) + 1) by lia.
      apply IH.
      * lia.
      * exact (Tried_more _ _ _ _ _ _ _ _ _ _ _ _ _ _ Ht G
                 (judge_failed _ _ _ _ _ J)).
      * intros Hr.
        assert (L : (Z.of_nat n + 1 <? decisionMaxAttempts) = true).
        { apply Z.ltb_lt. unfold decisionMaxAttempts. lia. }
        rewrite L. cbn [promptFor]. f_equal. lia.
Qed.

(** C6: the engine makes at most three attempts.  Either one of the first
    three attempts is accepted, after the attempts before it have failed, and
    the engine returns its action, which strict validation accepts, with its
    raw text; or three attempts have failed and the engine returns an error
    that carries the last reason, with the last raw text.  A failed attempt
    records its reason: the provider's error, the decoder's error or the
    validation message.  Attempt [n + 1] is sent the base prompt augmented
    with the reason of attempt [n] and the count [n + 1]/3.  The engine is a
    total function: it returns in every case. *)
Theorem decideStrict_attempts (r : Runner.t) (c0 : C) (base : Prompt.t) :
  ((exists n raw err c c' result action raw',
       (n < 3)%nat
       /\ Tried' r base c0 n raw err c
       /\ Generate c (promptFor base n err) = (c', result)
       /\ Accepts' r result action raw'
       /\ validateStrictAction action = ""
       /\ decideStrict' r c0 base = (c', (action, raw', None)))
   \/ (exists raw err c,
          Tried' r base c0 3 raw err c
          /\ decideStrict' r c0 base
             = (c, (Action.zero, raw,
                    Some ("failed to produce strict action after 3 attempts: "
                          +:+ err)))))
  /\ (forall (reason : string) (n : nat),
         Prompt.System (promptFor base (S n) reason) = Prompt.System base
         /\ exists rest,
             Prompt.User (promptFor base (S n) reason)
             = Prompt.User base
               +:+ String (ascii_of_nat 10) "Previous output was rejected ("
               +:+ gostrings.TrimSpace reason
               +:+ "). Attempt " +:+ fmt_d (Z.of_nat (S n) + 1) +:+ "/3. "
               +:+ rest).
Proof.
  split.
  - destruct (decideLoop_attempts r base c0 3 0 "" "no decision produced" c0 base)
      as [(m & raw1 & err1 & c1 & c2 & result & action & raw2 & Hm & Ht & Hg & Hj & Hd)
         |(raw3 & err3 & c3 & Ht & Hd)].
    + reflexivity.
    + constructor.
    + reflexivity.
    + left. exists m, raw1, err1, c1, c2, result, action, raw2.
      split; [exact Hm|]. split; [exact Ht|]. split; [exact Hg|].
      split; [exact Hj|]. split; [|exact Hd].
      destruct Hj as [response action V P]. exact P.
    + right. exists raw3, err3, c3. split; assumption.
  - intros reason n. split; [reflexivity|].
    eexists. reflexivity.
Qed.

End EngineFacts.

(** A run of the engine against a script: a text that does not decode, a
    provider error, then a wait under a synonym. *)
Example decideStrict_third_attempt :
  decideStrict toyDecoder (fun _ _ => []) (fun _ => []) idleRunner
    [inl "no json here"; inr "timeout"; inl " {wait} "]
    (Prompt.mk "system" "user")
  = ([], (Action.mk "wait" "" "" 0%float 0%float "" "" 5, "{wait}", None)).
Proof. reflexivity. Qed.

Example decideStrict_exhausted :
  decideStrict toyDecoder (fun _ _ => []) (fun _ => []) idleRunner
    [inl " no json here "; inr "timeout"; inr "timeout again"; inl "{wait}"]
    (Prompt.mk "system" "user")
  = ([inl "{wait}"],
     (Action.zero, "no json here",
      Some "failed to produce strict action after 3 attempts: llm error: timeout again")).
Proof. reflexivity. Qed.

(* ===================================================================== *)
(** * Part III: properties of the rest of the runtime                      *)
(* ===================================================================== *)

(** ** Preflight as a whole *)

(** Case analysis on the first test of the goal, closing the branches that
    end in a block. *)
Ltac next_test :=
  match goal with
  | |- context [if ?c then _ else _] =>
      let E := fresh "T" in destruct c eqn:E
  end.

(** Preflight answers "proceed" or "blocked" with a reason that is not
    blank. *)
Lemma preflight_verdict (oor : float -> Z) (fees : FeeConfig)
    (r : Runner.t) (a : Action.t) :
  preflight oor fees r a = proceed
  \/ exists msg, msg <> "" /\ preflight oor fees r a = blocked msg.
Proof.
  unfold preflight, blocked, proceed.
  repeat next_test;
    first [ left; reflexivity
          | right; eexists; split; [|reflexivity]; discriminate ].
Qed.

(** Preflight lets an action proceed only past every gate. *)
Lemma preflight_gates (oor : float -> Z) (fees : FeeConfig)
    (r : Runner.t) (a : Action.t) :
  preflight oor fees r a = proceed -> gatesPassed oor r a.
Proof.
  unfold gatesPassed, preflight, balancesKnown, actionableKinds.
  fold (kindOf a). fold (assetOf a). fold (sideOf a).
  set (qty := roundToUint64 oor (Action.Qty a)).
  set (price := resolvePrice r a (assetOf a)).
  unfold blocked, proceed.
  repeat (next_test; [try (intros E; discriminate E)|]);
    try (intros E; discriminate E).
  all: try (next_test; try (intros E; discriminate E)).
  all: intros _; string_tests;
    repeat match goal with
    | H : Nat.eqb _ _ = false |- _ => apply Nat.eqb_neq in H
    | H : (_ =? _) = false |- _ => apply Z.eqb_neq in H
    | H : (_ >=? _) = false |- _ => rewrite Z.geb_leb in H; apply Z.leb_gt in H
    | H : negb _ = false |- _ => apply negb_false_iff in H
    end;
    unfold maxOpenOffersPerAgent, maxOpenOffersPerAsset, maxOpenRFQsPerAgent in *;
    repeat split; simpl; auto; try congruence; try lia;
    try (intros; congruence).
Qed.

(** Preflight answers "proceed" or "blocked" with a reason, and it lets an
    action proceed only past every gate: balances known, a rounded quantity
    other than zero, an asset that is neither blank nor the settlement asset,
    one of the three actionable kinds, and then the limit of the kind (fewer
    than 5 open offers and fewer than 3 for the asset with a price not [<= 0]
    for an offer; fewer than 3 open RFQs for an RFQ; a side and matching
    liquidity for a trade), whatever the fees are. *)
Theorem preflight_proceeds_only (oor : float -> Z) (fees : FeeConfig)
    (r : Runner.t) (a : Action.t) :
  (preflight oor fees r a = proceed
   \/ exists msg, msg <> "" /\ preflight oor fees r a = blocked msg)
  /\ (preflight oor fees r a = proceed ->
      balancesKnown r
      /\ roundToUint64 oor (Action.Qty a) <> 0
      /\ assetOf a <> "" /\ assetOf a <> "AGC"
      /\ In (kindOf a) actionableKinds
      /\ (kindOf a = "post_offer" ->
          Runner.lastOpenOffers r < maxOpenOffersPerAgent
          /\ balanceOf (Runner.lastOffersByAS r) (assetOf a) < maxOpenOffersPerAsset
          /\ (Action.PriceAGC a <=? 0)%float = false)
      /\ (kindOf a = "create_rfq" ->
          Runner.lastOpenRFQs r < maxOpenRFQsPerAgent
          /\ (resolvePrice r a (assetOf a) <=? 0)%float = false)
      /\ (kindOf a = "trade" ->
          isBuyOrSell (sideOf a) = true
          /\ (resolvePrice r a (assetOf a) <=? 0)%float = false
          /\ hasTradeLiquidity r (sideOf a) (assetOf a)
               (resolvePrice r a (assetOf a))
               (roundToUint64 oor (Action.Qty a)) = true)).
Proof.
  split; [apply preflight_verdict|exact (preflight_gates oor fees r a)].
Qed.

(** The create_rfq rules, for a cost that fits 64 bits with the RFQ fee: past
    the common gates an RFQ proceeds exactly when the agent has fewer than 3
    open RFQs, a price is given or known from the last token prices, and the
    settlement balance covers [round(price * qty)] plus the RFQ fee. *)
Theorem preflight_create_rfq (oor : float -> Z) (fees : FeeConfig)
    (r : Runner.t) (a : Action.t) :
  let qty := roundToUint64 oor (Action.Qty a) in
  let price := resolvePrice r a (assetOf a) in
  let cost := notionalOf oor price qty in
  balancesKnown r -> qty <> 0 -> assetOf a <> "" -> assetOf a <> "AGC" ->
  kindOf a = "create_rfq" ->
  0 <= rfqFeeAGC fees -> cost + rfqFeeAGC fees < 2 ^ 64 ->
  (preflight oor fees r a = proceed
   <-> Runner.lastOpenRFQs r < maxOpenRFQsPerAgent
       /\ (price <=? 0)%float = false
       /\ cost + rfqFeeAGC fees <= settlementOf r)
  /\ (maxOpenRFQsPerAgent <= Runner.lastOpenRFQs r ->
      preflight oor fees r a = blocked "open rfq limit reached")
  /\ (Runner.lastOpenRFQs r < maxOpenRFQsPerAgent ->
      (price <=? 0)%float = true ->
      preflight oor fees r a = blocked "price unavailable").
Proof.
  intros qty price cost known Q A1 A2 K F W.
  pose proof (notionalOf_range oor price qty) as R. fold cost in R.
  assert (E : preflight oor fees r a =
              if Runner.lastOpenRFQs r >=? maxOpenRFQsPerAgent
              then blocked "open rfq limit reached"
              else if (price <=? 0)%float then blocked "price unavailable"
              else if settlementOf r <? u64_add cost (rfqFeeAGC fees)
              then blocked "insufficient AGC balance"
              else proceed).
  { unfold preflight.
    fold (kindOf a). fold (assetOf a). fold qty. fold price. fold cost.
    apply Nat.eqb_neq in known. rewrite known.
    apply Z.eqb_neq in Q. rewrite Q.
    apply String.eqb_neq in A1, A2. rewrite A1, A2, K. reflexivity. }
  rewrite E. unfold u64_add. rewrite wrap64_small by lia.
  unfold maxOpenRFQsPerAgent.
  destruct (Z.geb_spec (Runner.lastOpenRFQs r) 3) as [L|L].
  { split; [split; [discriminate|lia]|]. split; [reflexivity|lia]. }
  destruct (price <=? 0)%float eqn:P.
  { split; [split; [discriminate|intros (_ & X & _); discriminate]|].
    split; [lia|reflexivity]. }
  destruct (Z.ltb_spec (settlementOf r) (cost + rfqFeeAGC fees)) as [S|S].
  { split; [split; [discriminate|lia]|]. split; [lia|discriminate]. }
  split; [split; [intros _; repeat split; [lia|lia]|reflexivity]|].
  split; [lia|discriminate].
Qed.


(** ** Repair and validation *)

Lemma float_lt_not_le (a b : float) :
  (b <? a)%float = true -> (a <=? b)%float = false.
Proof.
  rewrite FloatAxioms.ltb_spec, FloatAxioms.leb_spec. unfold SFltb, SFleb.
  destruct (SFcompare (Prim2SF b) (Prim2SF a)) as [c|] eqn:E; [|discriminate].
  rewrite (SFcompare_antisym _ _ _ E). destruct c; simpl; congruence.
Qed.

(** [math.Max(1, y)] is never [<= 0]. *)
Lemma Max_one_positive (y : float) : (gomath.Max 1 y <=? 0)%float = false.
Proof.
  unfold gomath.Max.
  change (gomath.IsInf 1 false) with false.
  change (PrimFloat.is_nan 1) with false.
  change (1 =? 0)%float with false. cbn [orb andb].
  destruct (gomath.IsInf y false); [reflexivity|].
  destruct (PrimFloat.is_nan y) eqn:N; [reflexivity|].
  destruct (y <? 1)%float eqn:L; [reflexivity|].
  destruct (y <=? 0)%float eqn:Z0; [|reflexivity].
  exfalso. revert L Z0.
  rewrite FloatAxioms.ltb_spec, FloatAxioms.leb_spec.
  assert (P1 : Prim2SF 1 = S754_finite false 4503599627370496 (-52))
    by (vm_compute; reflexivity).
  assert (P0 : Prim2SF 0 = S754_zero false) by (vm_compute; reflexivity).
  rewrite P1, P0.
  destruct (Prim2SF y) as [s|s| |s m e]; unfold SFltb, SFleb; cbn [SFcompare];
    try discriminate; destruct s; discriminate.
Qed.

Section RepairFacts.

Variable rangeMap : forall A : Type, gmap string A -> list (string * A).
Variable rangeSet : gset string -> list string.

Abbreviation repair := (repairAction rangeMap rangeSet).

Lemma repairAction_kind (r : Runner.t) (a : Action.t) :
  Action.Action (repair r a) = Action.Action a
  /\ Action.NextCheckSec (repair r a) = Action.NextCheckSec a.
Proof.
  unfold repairAction. repeat next_test; split; reflexivity.
Qed.

Lemma repairAction_idle (r : Runner.t) (a : Action.t) :
  ~ In (kindOf a) actionableKinds -> In (kindOf a) canonicalKinds ->
  repair r a = a.
Proof.
  unfold actionableKinds, canonicalKinds. simpl. intros N [K|[K|[K|[K|[]]]]];
    try (exfalso; apply N; auto; fail).
  unfold repairAction. fold (kindOf a). rewrite <- K. reflexivity.
Qed.

(** What repair establishes for an actionable kind once an asset is there. *)
Lemma repairAction_fields (r : Runner.t) (a : Action.t) :
  In (kindOf a) actionableKinds ->
  assetOf (repair r a) <> "" ->
  (Action.Qty (repair r a) <=? 0)%float = false
  /\ (Action.PriceAGC (repair r a) <=? 0)%float = false
  /\ (kindOf a = "trade" -> isBuyOrSell (sideOf (repair r a)) = true).
Proof.
  intros K A. unfold assetOf in A. revert A. unfold repairAction.
  fold (kindOf a).
  assert (K3 : (String.eqb (kindOf a) "post_offer"
                || String.eqb (kindOf a) "create_rfq"
                || String.eqb (kindOf a) "trade") = true).
  { unfold actionableKinds in K. simpl in K.
    destruct K as [K|[K|[K|[]]]]; rewrite <- K; reflexivity. }
  assert (K0 : (String.eqb (kindOf a) "" || String.eqb (kindOf a) "wait"
                || String.eqb (kindOf a) "noop") = false).
  { unfold actionableKinds in K. simpl in K.
    destruct K as [K|[K|[K|[]]]]; rewrite <- K; reflexivity. }
  rewrite K0, K3. cbn [andb].
  set (symbol := if String.eqb (gostrings.TrimSpace (Action.AssetSymbol a)) ""
                 then pickActionAsset rangeMap rangeSet r (kindOf a)
                 else Action.AssetSymbol a).
  destruct (String.eqb (gostrings.TrimSpace symbol) "") eqn:B.
  { cbn [Action.AssetSymbol]. intros A. exfalso. apply A.
    apply String.eqb_eq in B. unfold cleanSymbol. rewrite B. reflexivity. }
  cbn [Action.AssetSymbol Action.Qty Action.PriceAGC Action.Side].
  intros _. split; [|split].
  - destruct (Action.Qty a <=? 0)%float eqn:Q; [|exact Q].
    destruct (0 <? balanceOf (Runner.lastBalances r) (cleanSymbol symbol));
      [apply Max_one_positive|reflexivity].
  - destruct (Action.PriceAGC a <=? 0)%float eqn:P; [|exact P].
    destruct (0 <? priceOf (Runner.lastTokenPrice r) (cleanSymbol symbol))%float
      eqn:L; [apply float_lt_not_le; exact L|reflexivity].
  - intros T. unfold sideOf. cbn [Action.Side]. rewrite T.
    change (String.eqb "trade" "trade") with true. cbn [andb].
    destruct (isBuyOrSell (gostrings.ToLower (gostrings.TrimSpace (Action.Side a))))
      eqn:S; cbn [negb]; [exact S|].
    destruct (0 <? balanceOf (Runner.lastBalances r) (cleanSymbol symbol));
      reflexivity.
Qed.

Lemma repairAction_kindOf (r : Runner.t) (a : Action.t) :
  kindOf (repair r a) = kindOf a.
Proof.
  unfold kindOf. rewrite (proj1 (repairAction_kind r a)). reflexivity.
Qed.

(** Strict validation of an action whose wait hint is not negative and whose
    quantity, price and side are in order whenever its kind is actionable and
    its asset is there. *)
Lemma validateStrictAction_in_order (a : Action.t) :
  0 <= Action.NextCheckSec a ->
  (In (kindOf a) actionableKinds -> assetOf a <> "" ->
   (Action.Qty a <=? 0)%float = false
   /\ (Action.PriceAGC a <=? 0)%float = false
   /\ (kindOf a = "trade" -> isBuyOrSell (sideOf a) = true)) ->
  In (validateStrictAction a)
     [""; "missing action"; "noop is not allowed";
      "invalid action: " +:+ Action.Action a;
      "asset_symbol is required"; "asset_symbol must not be AGC"].
Proof.
  intros Hint F.
  unfold validateStrictAction. fold (kindOf a). fold (sideOf a).
  fold (cleanSymbol (Action.AssetSymbol a)). fold (assetOf a).
  unfold actionableKinds in F.
  destruct (String.eqb (kindOf a) "post_offer") eqn:K1;
  destruct (String.eqb (kindOf a) "create_rfq") eqn:K2;
  destruct (String.eqb (kindOf a) "trade") eqn:K3;
  destruct (String.eqb (kindOf a) "wait") eqn:K4; cbn [orb negb andb];
  string_tests; try congruence.
  all: try (destruct (String.eqb (kindOf a) ""); [simpl; auto|];
            destruct (String.eqb (kindOf a) "noop"); simpl; auto; fail).
  all: try (destruct (Z.ltb_spec (Action.NextCheckSec a) 0);
            [lia|simpl; auto]; fail).
  all: destruct (String.eqb (assetOf a) "") eqn:A1; [simpl; auto 6|];
    destruct (String.eqb (assetOf a) "AGC") eqn:A2; [simpl; auto 7|];
    apply String.eqb_neq in A1.
  - destruct F as (FQ & FP & _); [rewrite K1; simpl; auto|exact A1|].
    rewrite FQ, FP. simpl; auto.
  - destruct F as (FQ & FP & _); [rewrite K2; simpl; auto|exact A1|].
    rewrite FQ, FP. simpl; auto.
  - destruct F as (FQ & _ & Fside); [rewrite K3; simpl; auto|exact A1|].
    rewrite FQ. specialize (Fside K3). unfold isBuyOrSell in Fside.
    destruct (String.eqb (sideOf a) "buy"), (String.eqb (sideOf a) "sell");
      simpl in *; auto; discriminate.
Qed.

(** After normalisation and repair, strict validation never rejects an action
    for its quantity, its price, its side or its wait hint: it accepts, or the
    kind is missing, "noop" or unsupported, or no asset could be found, or the
    asset is the settlement asset. *)
Theorem repaired_rejections (r : Runner.t) (d : Action.t) :
  let a := repair r (normalizeAction d) in
  In (validateStrictAction a)
     [""; "missing action"; "noop is not allowed";
      "invalid action: " +:+ Action.Action a;
      "asset_symbol is required"; "asset_symbol must not be AGC"].
Proof.
  intros a. subst a. apply validateStrictAction_in_order.
  - rewrite (proj2 (repairAction_kind r (normalizeAction d))).
    unfold normalizeAction. cbn [Action.NextCheckSec].
    destruct (Z.ltb_spec (Action.NextCheckSec d) 0); lia.
  - rewrite (repairAction_kindOf r (normalizeAction d)).
    apply repairAction_fields.
Qed.

End RepairFacts.

(** ** Execution *)

Lemma stampEntry_outcome (now : string) (a : Action.t) (status errMsg : string) :
  In status ["blocked"; "rejected"; "executed"; "wait"] ->
  stampEntry now
    (memoryDecision.mk
       (gostrings.ToLower (gostrings.TrimSpace (Action.Action a)))
       (gostrings.ToUpper (gostrings.TrimSpace (Action.AssetSymbol a)))
       (gostrings.ToLower (gostrings.TrimSpace (Action.Side a)))
       (Action.PriceAGC a) (Action.Qty a)
       (gostrings.ToLower (gostrings.TrimSpace status))
       (gostrings.TrimSpace errMsg)
       (gostrings.TrimSpace (Action.Reason a)) now
       (scoreDecisionOutcome status errMsg))
  = outcomeEntry now a status errMsg.
Proof.
  intros S. unfold stampEntry, outcomeEntry, kindOf, assetOf, sideOf, cleanSymbol.
  cbn [memoryDecision.Action memoryDecision.AssetSymbol memoryDecision.Side
       memoryDecision.PriceAGC memoryDecision.Qty memoryDecision.Status
       memoryDecision.Error memoryDecision.Reason memoryDecision.CreatedAt
       memoryDecision.Reward].
  assert (C : (if String.eqb (gostrings.TrimSpace now) "" then now else now) = now)
    by (destruct (String.eqb _ _); reflexivity).
  rewrite C. simpl in S.
  destruct S as [<-|[<-|[<-|[<-|[]]]]]; reflexivity.
Qed.

Lemma postDecision_memory (now : string) (r : Runner.t) (a : Action.t)
    (status errMsg raw : string) :
  gostrings.TrimSpace (kindOf a) <> "" ->
  In status ["blocked"; "rejected"; "executed"; "wait"] ->
  Runner.decisionMemory (fst (postDecision now r a status errMsg raw))
  = keepLast decisionMemoryLimit
      (Runner.decisionMemory r ++ [outcomeEntry now a status errMsg])
  /\ submissions (snd (postDecision now r a status errMsg raw)) = []
  /\ List.map DevDecisionRequest.Status
       (records (snd (postDecision now r a status errMsg raw)))
     = if Runner.hasIndexer r then [status] else [].
Proof.
  intros K S. unfold postDecision.
  assert (M : Runner.decisionMemory (appendDecisionMemory now r a status errMsg)
              = keepLast decisionMemoryLimit
                  (Runner.decisionMemory r ++ [outcomeEntry now a status errMsg])).
  { unfold appendDecisionMemory, setMemory. cbn [Runner.decisionMemory].
    unfold pushDecisionMemory. cbn [memoryDecision.Action].
    apply String.eqb_neq in K. unfold kindOf in K.
    rewrite K, (stampEntry_outcome now a status errMsg S). reflexivity. }
  destruct (Runner.hasIndexer r); cbn [negb fst snd]; rewrite M;
    repeat split; reflexivity.
Qed.

Section ExecutionFacts.

Variable oor : float -> Z.
Variable fees : FeeConfig.
Variable PostDevAction : DevActionRequest.t -> option string.

Abbreviation execute := (executeAction oor fees PostDevAction).

(** The four ways in which [executeAction] ends. *)
Lemma executeAction_cases (now : string) (r : Runner.t) (a : Action.t)
    (raw : string) :
  (exists msg, msg <> "" /\ preflight oor fees r a = blocked msg
     /\ execute now r a raw = postDecision now r a "blocked" msg raw)
  \/ (preflight oor fees r a = proceed /\ Runner.hasIndexer r = false
      /\ execute now r a raw
         = postDecision now r a "rejected" "no indexer configured" raw)
  \/ (preflight oor fees r a = proceed /\ Runner.hasIndexer r = true
      /\ exists err, PostDevAction (actionRequest r a) = Some err
         /\ execute now r a raw
            = (fst (postDecision now r a "rejected" err raw),
               Submitted (actionRequest r a)
               :: snd (postDecision now r a "rejected" err raw)))
  \/ (preflight oor fees r a = proceed /\ Runner.hasIndexer r = true
      /\ PostDevAction (actionRequest r a) = None
      /\ execute now r a raw
         = (fst (postDecision now r a "executed" "" raw),
            Submitted (actionRequest r a)
            :: snd (postDecision now r a "executed" "" raw))).
Proof.
  unfold executeAction.
  destruct (preflight_verdict oor fees r a) as [P|(msg & Hm & P)];
    rewrite P; unfold proceed, blocked; cbn [fst snd String.eqb negb].
  - right. destruct (Runner.hasIndexer r) eqn:I; cbn [negb].
    + right. destruct (PostDevAction (actionRequest r a)) as [err|] eqn:G.
      * left. split; [reflexivity|]. split; [reflexivity|]. exists err.
        split; [reflexivity|].
        destruct (postDecision now r a "rejected" err raw); reflexivity.
      * right. split; [reflexivity|]. split; [reflexivity|].
        split; [reflexivity|].
        destruct (postDecision now r a "executed" "" raw); reflexivity.
    + left. auto.
  - left. exists msg. auto.
Qed.

(** What a caller of [executeAction] can rely on. *)
Lemma executeAction_summary (now : string) (r : Runner.t) (a : Action.t)
    (raw : string) :
  gostrings.TrimSpace (kindOf a) <> "" ->
  exists status errMsg,
    In status ["blocked"; "rejected"; "executed"]
    /\ Runner.decisionMemory (fst (execute now r a raw))
       = keepLast decisionMemoryLimit
           (Runner.decisionMemory r ++ [outcomeEntry now a status errMsg])
    /\ List.map DevDecisionRequest.Status (records (snd (execute now r a raw)))
       = (if Runner.hasIndexer r then [status] else [])
    /\ (submissions (snd (execute now r a raw)) = []
        \/ (submissions (snd (execute now r a raw)) = [actionRequest r a]
            /\ preflight oor fees r a = proceed
            /\ Runner.hasIndexer r = true))
    /\ (status = "executed"
        -> submissions (snd (execute now r a raw)) = [actionRequest r a]
           /\ PostDevAction (actionRequest r a) = None).
Proof.
  intros K.
  destruct (executeAction_cases now r a raw)
    as [(msg & Hm & P & E)|[(P & I & E)|[(P & I & err & G & E)|(P & I & G & E)]]];
    rewrite E.
  - destruct (postDecision_memory now r a "blocked" msg raw K)
      as (M & S & R); [simpl; auto|].
    exists "blocked", msg. split; [simpl; auto|]. split; [exact M|].
    split; [exact R|]. split; [left; exact S|]. discriminate.
  - destruct (postDecision_memory now r a "rejected" "no indexer configured"
                raw K) as (M & S & R); [simpl; auto|].
    exists "rejected", "no indexer configured". split; [simpl; auto|].
    split; [exact M|]. split; [exact R|]. split; [left; exact S|]. discriminate.
  - destruct (postDecision_memory now r a "rejected" err raw K)
      as (M & S & R); [simpl; auto|].
    exists "rejected", err. split; [simpl; auto|]. cbn [fst snd].
    split; [exact M|]. cbn [records submissions List.flat_map app].
    fold (records (snd (postDecision now r a "rejected" err raw))).
    fold (submissions (snd (postDecision now r a "rejected" err raw))).
    split; [exact R|]. rewrite S. split; [right; auto|]. discriminate.
  - destruct (postDecision_memory now r a "executed" "" raw K)
      as (M & S & R); [simpl; auto 6|].
    exists "executed", "". split; [simpl; auto 6|]. cbn [fst snd].
    split; [exact M|]. cbn [records submissions List.flat_map app].
    fold (records (snd (postDecision now r a "executed" "" raw))).
    fold (submissions (snd (postDecision now r a "executed" "" raw))).
    split; [exact R|]. rewrite S. split; [right; auto|]. auto.
Qed.

(** Executing an action whose kind is not blank records exactly one outcome,
    blocked, rejected or executed, at the end of the memory, which stays
    within 12 entries, and reports that outcome to the gateway when there is
    one.  The
    action is submitted at most once, and only when preflight lets it proceed;
    the outcome is "executed" exactly when it was submitted and the gateway
    accepted it, and "blocked" with preflight's reason when preflight blocks. *)
Theorem executeAction_outcome (now : string) (r : Runner.t) (a : Action.t)
    (raw : string) :
  gostrings.TrimSpace (kindOf a) <> "" ->
  exists status errMsg,
    In status ["blocked"; "rejected"; "executed"]
    /\ Runner.decisionMemory (fst (execute now r a raw))
       = keepLast decisionMemoryLimit
           (Runner.decisionMemory r ++ [outcomeEntry now a status errMsg])
    /\ (List.length (Runner.decisionMemory (fst (execute now r a raw)))
        <= decisionMemoryLimit)%nat
    /\ List.map DevDecisionRequest.Status (records (snd (execute now r a raw)))
       = (if Runner.hasIndexer r then [status] else [])
    /\ (submissions (snd (execute now r a raw)) = []
        \/ (submissions (snd (execute now r a raw)) = [actionRequest r a]
            /\ preflight oor fees r a = proceed
            /\ Runner.hasIndexer r = true))
    /\ (status = "executed"
        <-> submissions (snd (execute now r a raw)) = [actionRequest r a]
            /\ PostDevAction (actionRequest r a) = None)
    /\ (forall msg, preflight oor fees r a = blocked msg ->
        status = "blocked" /\ errMsg = msg
        /\ submissions (snd (execute now r a raw)) = []).
Proof.
  intros K. unfold executeAction.
  destruct (preflight_verdict oor fees r a) as [P|(msg & Hm & P)];
    rewrite P; unfold proceed, blocked; cbn [fst snd String.eqb negb].
  - destruct (Runner.hasIndexer r) eqn:I; cbn [negb].
    + destruct (PostDevAction (actionRequest r a)) as [err|] eqn:G.
      * destruct (postDecision_memory now r a "rejected" err raw K)
          as (M & S & R); [simpl; auto|].
        destruct (postDecision now r a "rejected" err raw) as [r' calls].
        cbn [fst snd] in *. rewrite I in R.
        exists "rejected", err. split; [simpl; auto|]. split; [exact M|].
        split; [rewrite M, keepLast_length; lia|].
        split; [exact R|]. cbn [submissions List.flat_map].
        fold (submissions calls). rewrite S. cbn [app].
        split; [right; auto|]. split; [split; [discriminate|]|].
        -- intros [_ X]. discriminate.
        -- intros m X. discriminate.
      * destruct (postDecision_memory now r a "executed" "" raw K)
          as (M & S & R); [simpl; auto|].
        destruct (postDecision now r a "executed" "" raw) as [r' calls].
        cbn [fst snd] in *. rewrite I in R.
        exists "executed", "". split; [simpl; auto|]. split; [exact M|].
        split; [rewrite M, keepLast_length; lia|].
        split; [exact R|]. cbn [submissions List.flat_map].
        fold (submissions calls). rewrite S. cbn [app].
        split; [right; auto|]. split; [split; auto|].
        intros m X. discriminate.
    + destruct (postDecision_memory now r a "rejected" "no indexer configured"
                  raw K) as (M & S & R); [simpl; auto|].
      rewrite I in R.
      exists "rejected", "no indexer configured".
      split; [simpl; auto|]. split; [exact M|].
      split; [rewrite M, keepLast_length; lia|].
      split; [exact R|]. rewrite S. split; [left; reflexivity|].
      split; [split; [discriminate|intros [X _]; discriminate]|].
      intros m X. discriminate.
  - destruct (postDecision_memory now r a "blocked" msg raw K)
      as (M & S & R); [simpl; auto|].
    exists "blocked", msg. split; [simpl; auto|]. split; [exact M|].
    split; [rewrite M, keepLast_length; lia|].
    split; [exact R|]. rewrite S. split; [left; reflexivity|].
    split; [split; [discriminate|intros [X _]; discriminate]|].
    intros m X. injection X as <-. auto.
Qed.

End ExecutionFacts.


(** ** Seeding happens once *)

Lemma pushDecisionMemory_length (now : string) (memory : list memoryDecision.t)
    (entry : memoryDecision.t) :
  (List.length (pushDecisionMemory now memory entry)
   <= Nat.max decisionMemoryLimit (List.length memory))%nat.
Proof.
  unfold pushDecisionMemory.
  destruct (String.eqb (gostrings.TrimSpace (memoryDecision.Action entry)) "");
    [lia|].
  rewrite keepLast_length. lia.
Qed.

Lemma pushSeeds_length (clock : nat -> string) (items : list Decision.t) :
  forall (i : nat) (memory : list memoryDecision.t),
    (List.length (pushSeeds clock i memory items)
     <= Nat.max decisionMemoryLimit (List.length memory))%nat.
Proof.
  induction items as [|x items IH]; intros i memory; simpl; [lia|].
  pose proof (IH (S i) (pushDecisionMemory (clock i) memory (seedEntry x))) as L.
  pose proof (pushDecisionMemory_length (clock i) memory (seedEntry x)) as P.
  lia.
Qed.

(** The memory is seeded at most once: whatever history a later call is given,
    it changes nothing.  Seeding never leaves the memory longer than 12
    entries unless it was already. *)
Theorem seedDecisionMemory_once (clock clock' : nat -> string) (r : Runner.t)
    (history history' : option (list Decision.t)) :
  seedDecisionMemory clock' (seedDecisionMemory clock r history) history'
  = seedDecisionMemory clock r history
  /\ (List.length (Runner.decisionMemory (seedDecisionMemory clock r history))
      <= Nat.max decisionMemoryLimit (List.length (Runner.decisionMemory r)))%nat
  /\ (seedSkipped r = false ->
      Runner.memorySeeded (seedDecisionMemory clock r history) = true).
Proof.
  set (memory' := match history with
                  | None => Runner.decisionMemory r
                  | Some decisions =>
                      pushSeeds clock 0 (Runner.decisionMemory r)
                                (seedSelection decisions)
                  end).
  assert (E : seedDecisionMemory clock r history
              = if seedSkipped r then r else setMemory r true memory').
  { unfold seedDecisionMemory. fold (seedSkipped r).
    destruct (seedSkipped r); [reflexivity|]. destruct history; reflexivity. }
  rewrite E. destruct (seedSkipped r) eqn:S.
  - split; [|split; [lia|discriminate]].
    unfold seedDecisionMemory. fold (seedSkipped r). rewrite S. reflexivity.
  - split; [reflexivity|]. split; [|reflexivity].
    unfold setMemory. cbn [Runner.decisionMemory]. unfold memory'.
    destruct history as [decisions|]; [|lia].
    apply pushSeeds_length.
Qed.
(** ** Trimming and case on ASCII text *)

(** Trimming, then a map that leaves white space alone, is idempotent. *)
Lemma mapTrim_idem (g : ascii -> ascii) (s : string) :
  plainMap g -> (forall c, g (g c) = g c) ->
  gostrings.mapBytes g (gostrings.TrimSpace
    (gostrings.mapBytes g (gostrings.TrimSpace s)))
  = gostrings.mapBytes g (gostrings.TrimSpace s).
Proof.
  intros G I. rewrite (TrimSpace_mapBytes g _ G), TrimSpace_idem.
  apply mapBytes_idem. exact I.
Qed.

Lemma isASCII_chars (s : string) :
  gostrings.isASCII s = true
  <-> Forall (fun c => (N_of_ascii c < 128)%N) (list_ascii_of_string s).
Proof.
  unfold gostrings.isASCII. rewrite List.forallb_forall, List.Forall_forall.
  split; intros P c I; specialize (P c I); apply N.ltb_lt; exact P.
Qed.

Lemma isASCII_TrimSpace (s : string) :
  gostrings.isASCII s = true -> gostrings.isASCII (gostrings.TrimSpace s) = true.
Proof.
  rewrite !isASCII_chars, chars_TrimSpace. intros A.
  destruct (trimLeftSpace_suffix (list_ascii_of_string s)) as (pre & P).
  destruct (trimRightSpace_prefix
              (gostrings.trimLeftSpace (list_ascii_of_string s))) as (suf & Q).
  rewrite P, Q in A. apply List.Forall_app in A. destruct A as [_ A].
  apply List.Forall_app in A. tauto.
Qed.

Lemma ascii_lowerByte (c : ascii) :
  N.ltb (N_of_ascii (gostrings.lowerByte c)) 128 = N.ltb (N_of_ascii c) 128.
Proof.
  destruct c as [[] [] [] [] [] [] [] []]; reflexivity.
Qed.

Lemma ascii_upperByte (c : ascii) :
  N.ltb (N_of_ascii (gostrings.upperByte c)) 128 = N.ltb (N_of_ascii c) 128.
Proof.
  destruct c as [[] [] [] [] [] [] [] []]; reflexivity.
Qed.

Lemma isASCII_mapBytes (g : ascii -> ascii) (s : string) :
  (forall c, N.ltb (N_of_ascii (g c)) 128 = N.ltb (N_of_ascii c) 128) ->
  gostrings.isASCII (gostrings.mapBytes g s) = gostrings.isASCII s.
Proof.
  intros G. unfold gostrings.isASCII. rewrite chars_mapBytes.
  induction (list_ascii_of_string s) as [|c l IH]; [reflexivity|].
  simpl. rewrite G, IH. reflexivity.
Qed.

(** On ASCII text the case functions work byte by byte, whatever the tables. *)
Lemma ToLower_ascii (s : string) :
  gostrings.isASCII s = true ->
  gostrings.ToLower s = gostrings.mapBytes gostrings.lowerByte s.
Proof. intros A. unfold gostrings.ToLower. rewrite A. reflexivity. Qed.

Lemma ToUpper_ascii (s : string) :
  gostrings.isASCII s = true ->
  gostrings.ToUpper s = gostrings.mapBytes gostrings.upperByte s.
Proof. intros A. unfold gostrings.ToUpper. rewrite A. reflexivity. Qed.

Lemma cleanSymbol_ascii (s : string) :
  gostrings.isASCII s = true ->
  cleanSymbol s = gostrings.mapBytes gostrings.upperByte (gostrings.TrimSpace s)
  /\ gostrings.isASCII (cleanSymbol s) = true.
Proof.
  intros A. unfold cleanSymbol.
  rewrite (ToUpper_ascii _ (isASCII_TrimSpace s A)). split; [reflexivity|].
  rewrite (isASCII_mapBytes _ _ ascii_upperByte). apply isASCII_TrimSpace, A.
Qed.

Lemma lowerTrim_ascii (s : string) :
  gostrings.isASCII s = true ->
  gostrings.ToLower (gostrings.TrimSpace s)
  = gostrings.mapBytes gostrings.lowerByte (gostrings.TrimSpace s)
  /\ gostrings.isASCII (gostrings.ToLower (gostrings.TrimSpace s)) = true.
Proof.
  intros A. rewrite (ToLower_ascii _ (isASCII_TrimSpace s A)).
  split; [reflexivity|].
  rewrite (isASCII_mapBytes _ _ ascii_lowerByte). apply isASCII_TrimSpace, A.
Qed.

(** A cleaned ASCII symbol is clean. *)
Lemma cleanSymbol_ascii_idem (s : string) :
  gostrings.isASCII s = true -> cleanSymbol (cleanSymbol s) = cleanSymbol s.
Proof.
  intros A. destruct (cleanSymbol_ascii s A) as [E A'].
  rewrite (proj1 (cleanSymbol_ascii _ A')), E.
  apply mapTrim_idem; [apply plainMap_upperByte|apply upperByte_idem].
Qed.

Lemma lowerTrim_ascii_idem (s : string) :
  gostrings.isASCII s = true ->
  gostrings.ToLower (gostrings.TrimSpace
    (gostrings.ToLower (gostrings.TrimSpace s)))
  = gostrings.ToLower (gostrings.TrimSpace s).
Proof.
  intros A. destruct (lowerTrim_ascii s A) as [E A'].
  rewrite (proj1 (lowerTrim_ascii _ A')), E.
  apply mapTrim_idem; [apply plainMap_lowerByte|apply lowerByte_idem].
Qed.

(** What normalisation stores is what every later reader computes.  The
    category and the reason of a normalised action are fixed points of the
    reader's trimming of Unicode white space, and the wait hint is not
    negative.  When the asset symbol of the reply is ASCII text, the stored
    symbol is a fixed point of the reader's trimming and upper-casing; when
    the side of the reply is ASCII text, the stored side is one of the
    reader's trimming and lower-casing. *)
Theorem normalizeAction_stable (a : Action.t) :
  gostrings.TrimSpace (Action.Category (normalizeAction a))
  = Action.Category (normalizeAction a)
  /\ gostrings.TrimSpace (Action.Reason (normalizeAction a))
     = Action.Reason (normalizeAction a)
  /\ 0 <= Action.NextCheckSec (normalizeAction a)
  /\ (gostrings.isASCII (Action.AssetSymbol a) = true ->
      assetOf (normalizeAction a) = Action.AssetSymbol (normalizeAction a))
  /\ (gostrings.isASCII (Action.Side a) = true ->
      sideOf (normalizeAction a) = Action.Side (normalizeAction a)).
Proof.
  unfold assetOf, sideOf, normalizeAction.
  cbn [Action.AssetSymbol Action.Side Action.Category Action.Reason
       Action.NextCheckSec].
  split; [apply TrimSpace_idem|]. split; [apply TrimSpace_idem|].
  split; [destruct (Z.ltb_spec (Action.NextCheckSec a) 0); lia|].
  split; [apply cleanSymbol_ascii_idem|].
  intros A. apply lowerTrim_ascii_idem.
  destruct (String.eqb (cleanKind (Action.Action a)) "buy") eqn:B.
  { apply String.eqb_eq in B. rewrite B. reflexivity. }
  destruct (String.eqb (cleanKind (Action.Action a)) "sell") eqn:S.
  { apply String.eqb_eq in S. rewrite S. reflexivity. }
  exact A.
Qed.

(** ** Choosing an asset for a decision that names none *)

Lemma allowedSet_from (tokens : list string) (start : gset string) (x : string) :
  x ∈ fold_left
        (fun allowed symbol =>
           let clean := cleanSymbol symbol in
           if String.eqb clean "" || String.eqb clean "AGC" then allowed
           else allowed ∪ {[ clean ]})
        tokens start
  <-> x ∈ start
      \/ exists token, In token tokens /\ x = cleanSymbol token
                       /\ x <> "" /\ x <> "AGC".
Proof.
  revert start. induction tokens as [|t tokens IH]; intros start.
  - cbn [fold_left]. split; [auto|]. intros [M|(t & [] & _)]. exact M.
  - cbn [fold_left]. rewrite IH. clear IH. cbv zeta.
    destruct (String.eqb_spec (cleanSymbol t) "") as [E1|E1];
      [|destruct (String.eqb_spec (cleanSymbol t) "AGC") as [E2|E2]];
      cbn [orb].
    + split.
      * intros [M|(u & I & K)]; [auto|]. right. exists u. split; [right; exact I|exact K].
      * intros [M|(u & [I|I] & K1 & K2 & K3)]; [auto| |].
        -- subst u. congruence.
        -- right. exists u. auto.
    + split.
      * intros [M|(u & I & K)]; [auto|]. right. exists u. split; [right; exact I|exact K].
      * intros [M|(u & [I|I] & K1 & K2 & K3)]; [auto| |].
        -- subst u. congruence.
        -- right. exists u. auto.
    + rewrite elem_of_union, elem_of_singleton. split.
      * intros [[M|M]|(u & I & K)]; [auto| |].
        -- right. exists t. subst x. split; [left; reflexivity|auto].
        -- right. exists u. split; [right; exact I|exact K].
      * intros [M|(u & [I|I] & K1 & K2 & K3)]; [auto| |].
        -- subst u. auto.
        -- right. exists u. auto.
Qed.

(** The allowed set holds exactly the cleaned tokens that are neither blank
    nor the settlement denomination. *)
Lemma allowedSet_spec (tokens : list string) (x : string) :
  x ∈ allowedSet tokens
  <-> exists token, In token tokens /\ x = cleanSymbol token
                    /\ x <> "" /\ x <> "AGC".
Proof.
  unfold allowedSet. rewrite allowedSet_from. split; [|auto].
  intros [M|M]; [|exact M]. exfalso. exact (not_elem_of_empty x M).
Qed.

Lemma accept_spec (allowed : gset string) (s : string) :
  accept allowed s = true
  <-> cleanSymbol s <> "" /\ cleanSymbol s <> "AGC"
      /\ (allowed = ∅ \/ cleanSymbol s ∈ allowed).
Proof.
  unfold accept. cbv zeta.
  destruct (String.eqb_spec (cleanSymbol s) "") as [E1|E1];
    [|destruct (String.eqb_spec (cleanSymbol s) "AGC") as [E2|E2]];
    cbn [orb].
  - split; [discriminate|]. intros (K & _). congruence.
  - split; [discriminate|]. intros (_ & K & _). congruence.
  - destruct (Nat.eqb_spec (size allowed) 0) as [Z0|Z0].
    + split; [|reflexivity]. intros _. split; [exact E1|]. split; [exact E2|].
      left. apply size_empty_inv in Z0. apply leibniz_equiv. exact Z0.
    + rewrite bool_decide_eq_true. split.
      * intros M. auto.
      * intros (_ & _ & [K|K]); [|exact K]. subst allowed.
        rewrite size_empty in Z0. congruence.
Qed.

Section CleanSymbols.

(** Go's upper-casing of a trimmed symbol gives a symbol that trimming and
    upper-casing leave alone. *)
Hypothesis settled : upperSettles.

Lemma cleanSymbol_idem (s : string) : cleanSymbol (cleanSymbol s) = cleanSymbol s.
Proof. apply settled. Qed.

Lemma accept_cleanSymbol (allowed : gset string) (s : string) :
  accept allowed (cleanSymbol s) = accept allowed s.
Proof.
  unfold accept. rewrite cleanSymbol_idem. reflexivity.
Qed.

Lemma cleanSymbol_empty : cleanSymbol "" = "".
Proof. reflexivity. Qed.

(** The scan over the balances: the quantity kept never decreases, every
    accepted holding is at most the quantity kept, and the pair kept is the
    starting pair or an accepted holding above it. *)
Lemma bestHeld_from (allowed : gset string) (balances : list (string * Z))
      (start : string * Z) :
  let result :=
    fold_left
      (fun acc entry =>
         let clean := cleanSymbol (fst entry) in
         if negb (accept allowed clean) || (snd entry =? 0) then acc
         else if snd acc <? snd entry then (clean, snd entry) else acc)
      balances start in
  snd start <= snd result
  /\ (forall entry, In entry balances -> accept allowed (fst entry) = true ->
                    snd entry <= snd result \/ snd entry = 0)
  /\ (result = start
      \/ exists entry, In entry balances
                       /\ result = (cleanSymbol (fst entry), snd entry)
                       /\ accept allowed (fst entry) = true
                       /\ snd start < snd entry).
Proof.
  revert start. induction balances as [|e balances IH]; intros start result.
  - subst result. cbn [fold_left]. split; [lia|]. split; [intros ? []|auto].
  - subst result. cbn [fold_left]. cbv zeta.
    rewrite accept_cleanSymbol.
    destruct (accept allowed (fst e)) eqn:A; cbn [negb orb];
      [destruct (Z.eqb_spec (snd e) 0) as [Q|Q];
       [|destruct (Z.ltb_spec (snd start) (snd e)) as [L|L]]|].
    + destruct (IH start) as (I1 & I2 & I3). split; [exact I1|]. split.
      * intros entry [->|I] K; [auto|exact (I2 entry I K)].
      * destruct I3 as [I3|(x & X1 & X2)]; [auto|]. right. exists x.
        split; [right; exact X1|exact X2].
    + destruct (IH (cleanSymbol (fst e), snd e)) as (I1 & I2 & I3).
      cbn [snd] in I1, I3. split; [exact (Z.le_trans _ _ _ (Z.lt_le_incl _ _ L) I1)|]. split.
      * intros entry [->|I] K; [auto|exact (I2 entry I K)].
      * right. destruct I3 as [I3|(x & X1 & X2 & X3 & X4)].
        -- exists e. split; [left; reflexivity|]. auto.
        -- exists x. split; [right; exact X1|]. split; [exact X2|].
           split; [exact X3|lia].
    + destruct (IH start) as (I1 & I2 & I3). split; [exact I1|]. split.
      * intros entry [->|I] K; [left; exact (Z.le_trans _ _ _ L I1)|exact (I2 entry I K)].
      * destruct I3 as [I3|(x & X1 & X2)]; [auto|]. right. exists x.
        split; [right; exact X1|exact X2].
    + destruct (IH start) as (I1 & I2 & I3). split; [exact I1|]. split.
      * intros entry [->|I] K; [congruence|exact (I2 entry I K)].
      * destruct I3 as [I3|(x & X1 & X2)]; [auto|]. right. exists x.
        split; [right; exact X1|exact X2].
Qed.

Lemma bestHeld_spec (allowed : gset string) (balances : list (string * Z)) :
  (forall entry, In entry balances -> accept allowed (fst entry) = true ->
                 snd entry <= snd (bestHeld allowed balances))
  /\ (bestHeld allowed balances = ("", 0)
      \/ exists entry, In entry balances
                       /\ bestHeld allowed balances
                          = (cleanSymbol (fst entry), snd entry)
                       /\ accept allowed (fst entry) = true
                       /\ 0 < snd entry).
Proof.
  pose proof (bestHeld_from allowed balances ("", 0)) as I0.
  cbv zeta in I0. fold (bestHeld allowed balances) in I0.
  destruct I0 as (I1 & I2 & I3). cbn [snd] in I1, I3.
  split; [|exact I3].
  intros entry I K. destruct (I2 entry I K) as [L|L]; [exact L|].
  rewrite L. exact I1.
Qed.

Section PickFacts.

Variable rangeMap : forall A : Type, gmap string A -> list (string * A).
Variable rangeSet : gset string -> list string.

(** A [range] over a set visits its members, and all of them. *)
Hypothesis rangeSet_members :
  forall (s : gset string) (x : string), In x (rangeSet s) <-> x ∈ s.

Abbreviation pick := (pickActionAsset rangeMap rangeSet).

Lemma accepted_not_blank (allowed : gset string) (s : string) :
  accept allowed s = true -> cleanSymbol s <> "".
Proof. intros K. apply accept_spec in K. tauto. Qed.

Lemma held_choice (r : Runner.t) (kind : string) :
  let allowed := allowedSet (Runner.allowedTokens r) in
  let best :=
    if String.eqb kind "post_offer" || String.eqb kind "trade"
    then fst (bestHeld allowed (rangeMap Z (Runner.lastBalances r)))
    else "" in
  (best = ""
   /\ (kind = "post_offer" \/ kind = "trade" ->
       forall entry, In entry (rangeMap Z (Runner.lastBalances r)) ->
                     accept allowed (fst entry) = true -> snd entry <= 0))
  \/ (best <> "" /\ (kind = "post_offer" \/ kind = "trade")
      /\ exists entry, In entry (rangeMap Z (Runner.lastBalances r))
           /\ best = cleanSymbol (fst entry)
           /\ accept allowed (fst entry) = true
           /\ 0 < snd entry
           /\ forall other, In other (rangeMap Z (Runner.lastBalances r)) ->
                accept allowed (fst other) = true -> snd other <= snd entry).
Proof.
  intros allowed best. subst best.
  assert (KD : String.eqb kind "post_offer" || String.eqb kind "trade" = true
               <-> kind = "post_offer" \/ kind = "trade").
  { rewrite orb_true_iff, !String.eqb_eq. reflexivity. }
  destruct (String.eqb kind "post_offer" || String.eqb kind "trade").
  - destruct (bestHeld_spec allowed (rangeMap Z (Runner.lastBalances r)))
      as (B1 & [B2|(e & E1 & E2 & E3 & E4)]).
    + left. rewrite B2. split; [reflexivity|]. intros _ entry I K.
      specialize (B1 entry I K). rewrite B2 in B1. exact B1.
    + right. rewrite E2. cbn [fst]. split; [exact (accepted_not_blank _ _ E3)|].
      split; [apply KD; reflexivity|]. exists e. split; [exact E1|].
      split; [reflexivity|]. split; [exact E3|]. split; [exact E4|].
      intros other I K. specialize (B1 other I K). rewrite E2 in B1. exact B1.
  - left. split; [reflexivity|]. intros K. apply KD in K. discriminate.
Qed.

(** A symbol chosen by [pickActionAsset] is always tradable: it
    is in normal form, it is not the settlement denomination, and it is one of
    the allowed tokens whenever the agent has any; nothing is chosen exactly
    when there is no allowed token, no acceptable priced token and, for
    post_offer and trade, no acceptable holding.  Symbols are read trimmed of
    Unicode white space and in upper case; the tables are asked that a symbol
    read so reads as itself ([upperSettles]). *)
Theorem pickActionAsset_accepted (r : Runner.t) (kind : string) :
  let allowed := allowedSet (Runner.allowedTokens r) in
  let chosen := pick r kind in
  (chosen <> "" ->
   cleanSymbol chosen = chosen /\ chosen <> "AGC"
   /\ accept allowed chosen = true
   /\ (allowed <> ∅ -> chosen ∈ allowed))
  /\ (chosen = "" <->
      allowed = ∅
      /\ (forall entry, In entry (rangeMap float (Runner.lastTokenPrice r)) ->
                        accept allowed (fst entry) = false)
      /\ (kind = "post_offer" \/ kind = "trade" ->
          forall entry, In entry (rangeMap Z (Runner.lastBalances r)) ->
                        accept allowed (fst entry) = true -> snd entry <= 0)).
Proof.
  intros allowed chosen.
  assert (OK : forall s, accept allowed s = true ->
                 cleanSymbol (cleanSymbol s) = cleanSymbol s
                 /\ cleanSymbol s <> "AGC"
                 /\ accept allowed (cleanSymbol s) = true
                 /\ (allowed <> ∅ -> cleanSymbol s ∈ allowed)).
  { intros s K. split; [apply cleanSymbol_idem|].
    rewrite accept_cleanSymbol. apply accept_spec in K.
    destruct K as (K1 & K2 & K3). split; [exact K2|]. split.
    - apply accept_spec. auto.
    - intros N. destruct K3; [congruence|assumption]. }
  assert (MEM : forall x, x ∈ allowed ->
                  cleanSymbol x = x /\ x <> "AGC"
                  /\ accept allowed x = true /\ (allowed <> ∅ -> x ∈ allowed)).
  { intros x M. pose proof M as M'. apply allowedSet_spec in M'.
    destruct M' as (t & _ & E & N1 & N2).
    assert (CX : cleanSymbol x = x) by (rewrite E; apply cleanSymbol_idem).
    split; [exact CX|]. split; [exact N2|]. split; [|auto].
    apply accept_spec. rewrite CX. auto. }
  subst chosen allowed. unfold pickActionAsset. cbv zeta.
  pose proof (held_choice r kind) as HC. cbv zeta in HC.
  destruct HC as [(B & NH)|(B & KD & e & E1 & E2 & E3 & E4 & E5)].
  - rewrite B. change (negb (String.eqb "" "")) with false. cbv iota.
    destruct (List.find _ (rangeMap float (Runner.lastTokenPrice r)))
      as [p|] eqn:F.
    + apply List.find_some in F. destruct F as (F1 & F2).
      rewrite accept_cleanSymbol in F2. split; [intros _; exact (OK _ F2)|].
      split.
      * intros Z0. exfalso. exact (accepted_not_blank _ _ F2 Z0).
      * intros (_ & NP & _). specialize (NP p F1). congruence.
    + assert (NP : forall entry,
                 In entry (rangeMap float (Runner.lastTokenPrice r)) ->
                 accept (allowedSet (Runner.allowedTokens r)) (fst entry)
                 = false).
      { intros entry I. pose proof (List.find_none _ _ F entry I) as K.
        cbv beta in K. rewrite accept_cleanSymbol in K. exact K. }
      destruct (List.find _ (rangeSet _)) as [x|] eqn:G.
      * apply List.find_some in G. destruct G as (G1 & _).
        apply rangeSet_members in G1. split; [intros _; exact (MEM x G1)|].
        split.
        -- intros ->. apply allowedSet_spec in G1.
           destruct G1 as (_ & _ & _ & N & _). congruence.
        -- intros (Z0 & _). rewrite Z0 in G1.
           exfalso. exact (not_elem_of_empty x G1).
      * split; [congruence|]. split; [|reflexivity]. intros _.
        split; [|split; [exact NP|exact NH]].
        apply leibniz_equiv. intros x. split; [|intros K; exfalso; exact (not_elem_of_empty x K)].
        intros M. exfalso.
        pose proof (proj2 (rangeSet_members _ x) M) as I.
        pose proof (List.find_none _ _ G x I) as K. cbv beta in K.
        apply negb_false_iff, String.eqb_eq in K.
        destruct (MEM x M) as (_ & N & _). congruence.
  - apply String.eqb_neq in B. rewrite B. cbn [negb]. cbv iota.
    apply String.eqb_neq in B. rewrite E2 in *.
    split; [intros _; exact (OK _ E3)|]. split.
    + intros Z0. congruence.
    + intros (_ & _ & NH). specialize (NH KD e E1 E3). lia.
Qed.

(** For a post_offer or a trade, when the agent holds an
    acceptable token, [pickActionAsset] returns the normal form of the
    acceptable holding with the largest amount: its denomination trimmed of
    Unicode white space and in upper case, the tables being asked that a
    symbol read so reads as itself ([upperSettles]). *)
Theorem pickActionAsset_holds_most (r : Runner.t) (kind : string) :
  let allowed := allowedSet (Runner.allowedTokens r) in
  let held := rangeMap Z (Runner.lastBalances r) in
  kind = "post_offer" \/ kind = "trade" ->
  (exists entry, In entry held /\ accept allowed (fst entry) = true
                 /\ 0 < snd entry) ->
  exists entry, In entry held
    /\ pick r kind = cleanSymbol (fst entry)
    /\ accept allowed (fst entry) = true
    /\ 0 < snd entry
    /\ forall other, In other held -> accept allowed (fst other) = true ->
                     snd other <= snd entry.
Proof.
  intros allowed held KD (w & W1 & W2 & W3). subst held allowed.
  unfold pickActionAsset. cbv zeta.
  pose proof (held_choice r kind) as HC. cbv zeta in HC.
  destruct HC as [(B & NH)|(B & _ & e & E1 & E2 & E3 & E4 & E5)].
  - specialize (NH KD w W1 W2). lia.
  - apply String.eqb_neq in B. rewrite B. cbn [negb]. cbv iota.
    exists e. auto.
Qed.

End PickFacts.

End CleanSymbols.

Lemma elements_members (s : gset string) (x : string) :
  In x (elements s) <-> x ∈ s.
Proof. rewrite <- list_elem_of_In. apply elem_of_elements. Qed.



(** ** The market snapshot *)

Lemma balanceOf_insert (m : gmap string Z) (k s : string) (v : Z) :
  balanceOf (<[k := v]> m) s = if String.eqb k s then v else balanceOf m s.
Proof.
  unfold balanceOf. destruct (String.eqb_spec k s) as [->|N].
  - rewrite lookup_insert_eq. reflexivity.
  - rewrite lookup_insert_ne by exact N. reflexivity.
Qed.

Lemma priceOf_insert (m : gmap string float) (k s : string) (v : float) :
  priceOf (<[k := v]> m) s = if String.eqb k s then v else priceOf m s.
Proof.
  unfold priceOf. destruct (String.eqb_spec k s) as [->|N].
  - rewrite lookup_insert_eq. reflexivity.
  - rewrite lookup_insert_ne by exact N. reflexivity.
Qed.

Lemma updateTokenPrices_fold (tokens : list Token.t) (m : gmap string float)
      (s : string) :
  priceOf
    (fold_left
       (fun prices token => <[Token.Symbol token := Token.PriceAGC token]> prices)
       tokens m) s
  = match lastListed s tokens with
    | Some t => Token.PriceAGC t
    | None => priceOf m s
    end.
Proof.
  unfold lastListed.
  induction tokens as [|t tokens IH] using List.rev_ind; [reflexivity|].
  rewrite List.fold_left_app, List.rev_unit. cbn [fold_left List.find].
  rewrite priceOf_insert. destruct (String.eqb (Token.Symbol t) s); [reflexivity|].
  exact IH.
Qed.

(** After [updateTokenPrices] a symbol reads the price of the
    last token listed under exactly that symbol, and the price it had before
    when no token is; so an action that names no price is priced by the last
    token listed under its asset symbol, a token prices an action only when
    it is listed under the asset symbol as the action is read, and a token
    listed under a symbol that is not in normal form prices no action (the
    asset symbol of the action being ASCII text, or a symbol read trimmed and
    in upper case being in normal form by the tables, [upperSettles]). *)
Theorem updateTokenPrices_lookup (r : Runner.t) (tokens : list Token.t) :
  let r' := updateTokenPrices r tokens in
  (forall s,
      priceOf (Runner.lastTokenPrice r') s
      = match lastListed s tokens with
        | Some t => Token.PriceAGC t
        | None => priceOf (Runner.lastTokenPrice r) s
        end)
  /\ (forall a, (Action.PriceAGC a <=? 0)%float = true ->
        resolvePrice r' a (assetOf a)
        = match lastListed (assetOf a) tokens with
          | Some t => Token.PriceAGC t
          | None => priceOf (Runner.lastTokenPrice r) (assetOf a)
          end)
  /\ (forall t a, lastListed (assetOf a) tokens = Some t ->
        Token.Symbol t = assetOf a)
  /\ (forall t a,
        upperSettles \/ gostrings.isASCII (Action.AssetSymbol a) = true ->
        cleanSymbol (Token.Symbol t) <> Token.Symbol t ->
        lastListed (assetOf a) tokens <> Some t)
  /\ Runner.lastBalances r' = Runner.lastBalances r
  /\ Runner.decisionMemory r' = Runner.decisionMemory r.
Proof.
  intros r'. subst r'. unfold updateTokenPrices. cbn [Runner.lastTokenPrice
    Runner.lastBalances Runner.decisionMemory].
  split; [intros s; apply updateTokenPrices_fold|].
  split.
  - intros a P. unfold resolvePrice. rewrite P. cbn [Runner.lastTokenPrice].
    apply updateTokenPrices_fold.
  - assert (L : forall t a, lastListed (assetOf a) tokens = Some t ->
                  Token.Symbol t = assetOf a).
    { intros t a F. unfold lastListed in F. apply List.find_some in F.
      destruct F as (_ & F). apply String.eqb_eq in F. exact F. }
    split; [exact L|]. split; [|split; reflexivity].
    intros t a [settled|A] N F; apply N; rewrite (L t a F); unfold assetOf.
    + apply settled.
    + apply cleanSymbol_ascii_idem. exact A.
Qed.

(** The test of the two loops is the ownership of the specification. *)
Lemma ownOpen_owned (agentID owner status : string) :
  ownOpen agentID owner status = bool_decide (ownedOpen agentID owner status).
Proof.
  unfold ownOpen.
  destruct (bool_decide (ownedOpen agentID owner status)) eqn:D.
  - apply bool_decide_eq_true_1 in D. destruct D as (-> & [->| ->]).
    + rewrite String.eqb_refl. reflexivity.
    + rewrite String.eqb_refl. reflexivity.
  - apply bool_decide_eq_false_1 in D.
    destruct (String.eqb_spec owner agentID) as [E|E]; [|reflexivity].
    destruct (String.eqb_spec status "") as [S1|S1].
    { exfalso. apply D. split; [exact E|left; exact S1]. }
    destruct (String.eqb_spec status "open") as [S2|S2]; [|reflexivity].
    exfalso. apply D. split; [exact E|right; exact S2].
Qed.

Lemma countOwnOffers_from (agentID : string) (offers : list Offer.t) :
  forall (n : Z) (m : gmap string Z),
    0 <= n -> n + Z.of_nat (List.length offers) < 2 ^ 63 ->
    (forall s, 0 <= balanceOf m s <= n) ->
    fst (fold_left (countOffer agentID) offers (n, m))
    = n + Z.of_nat (List.length (ownOffers agentID offers))
    /\ forall s,
        balanceOf (snd (fold_left (countOffer agentID) offers (n, m))) s
        = balanceOf m s
          + if String.eqb s "" then 0
            else Z.of_nat (List.length (offersOf s (ownOffers agentID offers))).
Proof.
  induction offers as [|o offers IH]; intros n m N0 NB MB.
  - cbn [fold_left fst snd ownOffers offersOf List.filter List.length].
    split; [lia|]. intros s. destruct (String.eqb s ""); simpl; lia.
  - cbn [fold_left]. cbn [List.length] in NB.
    unfold ownOffers. cbn [List.filter]. fold (ownOffers agentID offers).
    rewrite <- ownOpen_owned.
    unfold countOffer at 2 4. cbn [fst snd].
    destruct (ownOpen agentID (Offer.AgentID o) (Offer.Status o)) eqn:Own.
    + rewrite (wrap_int64_small (n + 1)) by lia.
      set (symbol := cleanSymbol (Offer.Asset o)).
      set (m' := if negb (String.eqb symbol "")
                 then <[symbol := wrap_int64 (balanceOf m symbol + 1)]> m
                 else m).
      assert (M' : forall s, balanceOf m' s
                     = balanceOf m s
                       + if String.eqb s "" then 0
                         else if String.eqb symbol s then 1 else 0).
      { intros s. subst m'.
        destruct (String.eqb_spec symbol "") as [E|E]; cbn [negb].
        - destruct (String.eqb_spec s "") as [E'|E']; [lia|].
          destruct (String.eqb_spec symbol s); [congruence|lia].
        - rewrite balanceOf_insert.
          rewrite wrap_int64_small by (specialize (MB symbol); lia).
          destruct (String.eqb_spec symbol s) as [<-|D].
          + apply String.eqb_neq in E. rewrite E. reflexivity.
          + destruct (String.eqb s ""); lia. }
      destruct (IH (n + 1) m') as (I1 & I2); [lia|lia| |].
      { intros s. rewrite M'. specialize (MB s).
        destruct (String.eqb s ""); [lia|]. destruct (String.eqb symbol s); lia. }
      split.
      * rewrite I1. cbn [List.length]. lia.
      * intros s. rewrite I2, M'. unfold offersOf. cbn [List.filter].
        fold (cleanSymbol (Offer.Asset o)). fold symbol.
        fold (offersOf s (ownOffers agentID offers)).
        destruct (String.eqb s ""); [lia|].
        destruct (String.eqb symbol s); cbn [List.length]; lia.
    + destruct (IH n m) as (I1 & I2); [lia|lia|exact MB|].
      split; [exact I1|exact I2].
Qed.

Lemma countOwnRFQs_from (agentID : string) (rfqs : list RFQ.t) :
  forall n : Z,
    0 <= n -> n + Z.of_nat (List.length rfqs) < 2 ^ 63 ->
    fold_left
      (fun openRFQs rfq =>
         if ownOpen agentID (RFQ.AgentID rfq) (RFQ.Status rfq)
         then wrap_int64 (openRFQs + 1) else openRFQs)
      rfqs n
    = n + Z.of_nat (List.length (ownRFQs agentID rfqs)).
Proof.
  induction rfqs as [|q rfqs IH]; intros n N0 NB.
  - cbn [fold_left ownRFQs List.filter List.length]. lia.
  - cbn [fold_left]. cbn [List.length] in NB.
    unfold ownRFQs. cbn [List.filter]. fold (ownRFQs agentID rfqs).
    rewrite <- ownOpen_owned.
    destruct (ownOpen agentID (RFQ.AgentID q) (RFQ.Status q)).
    + rewrite (wrap_int64_small (n + 1)) by lia.
      rewrite IH by lia. cbn [List.length]. lia.
    + apply IH; lia.
Qed.

Lemma filter_length_le {A : Type} (f : A -> bool) (l : list A) :
  (List.length (List.filter f l) <= List.length l)%nat.
Proof.
  induction l as [|x l IH]; simpl; [lia|]. destruct (f x); simpl; lia.
Qed.

(** The counters that [buildPrompt] leaves are the numbers
    of the agent's own open offers and RFQs in the snapshot (posted by the
    agent, with a status that reads exactly empty or "open"), and the counter
    of a symbol is the number of those offers whose asset, trimmed and in upper
    case, is the symbol, never more than the total;
    so with five own open offers in the snapshot, or three on the asset, no
    post_offer passes preflight, and with three own open RFQs no create_rfq
    does. *)
Theorem buildPrompt_counters (oor : float -> Z) (fees : FeeConfig)
    (r : Runner.t) (tokens : list Token.t) (offers : list Offer.t)
    (rfqs : list RFQ.t) :
  let r' := buildPrompt_runner r tokens offers rfqs in
  let mine := ownOffers (Runner.AgentID r) offers in
  Z.of_nat (List.length offers) < 2 ^ 63 ->
  Z.of_nat (List.length rfqs) < 2 ^ 63 ->
  Runner.lastOpenOffers r' = Z.of_nat (List.length mine)
  /\ Runner.lastOpenRFQs r'
     = Z.of_nat (List.length (ownRFQs (Runner.AgentID r) rfqs))
  /\ (forall s, s <> "" ->
        balanceOf (Runner.lastOffersByAS r') s
        = Z.of_nat (List.length (offersOf s mine)))
  /\ Runner.lastOffersByAS r' !! "" = None
  /\ (forall s, balanceOf (Runner.lastOffersByAS r') s <= Runner.lastOpenOffers r')
  /\ (forall a, kindOf a = "post_offer" ->
        (5 <= List.length mine)%nat
        \/ (3 <= List.length (offersOf (assetOf a) mine))%nat ->
        preflight oor fees r' a <> proceed)
  /\ (forall a, kindOf a = "create_rfq" ->
        (3 <= List.length (ownRFQs (Runner.AgentID r) rfqs))%nat ->
        preflight oor fees r' a <> proceed).
Proof.
  intros r' mine LO LR.
  assert (LO' : 0 + Z.of_nat (List.length offers) < 2 ^ 63) by lia.
  assert (M0 : forall s, 0 <= balanceOf (∅ : gmap string Z) s <= 0).
  { intros s. unfold balanceOf. rewrite lookup_empty. simpl. lia. }
  pose proof (countOwnOffers_from (Runner.AgentID r) offers 0 ∅
                ltac:(lia) LO' M0) as CO.
  fold (countOwnOffers (Runner.AgentID r) offers) in CO.
  destruct CO as (C1 & C2). fold mine in C1, C2.
  pose proof (countOwnRFQs_from (Runner.AgentID r) rfqs 0 ltac:(lia)
                ltac:(lia)) as CR.
  fold (countOwnRFQs (Runner.AgentID r) rfqs) in CR.
  assert (R1 : Runner.lastOpenOffers r' = Z.of_nat (List.length mine)).
  { subst r'. unfold buildPrompt_runner, updateTokenPrices.
    cbn [Runner.lastOpenOffers Runner.AgentID]. rewrite C1. lia. }
  assert (R2 : Runner.lastOpenRFQs r'
               = Z.of_nat (List.length (ownRFQs (Runner.AgentID r) rfqs))).
  { subst r'. unfold buildPrompt_runner, updateTokenPrices.
    cbn [Runner.lastOpenRFQs Runner.AgentID]. rewrite CR. lia. }
  assert (R3 : forall s,
             balanceOf (Runner.lastOffersByAS r') s
             = if String.eqb s "" then 0
               else Z.of_nat (List.length (offersOf s mine))).
  { intros s. subst r'. unfold buildPrompt_runner, updateTokenPrices.
    cbn [Runner.lastOffersByAS Runner.AgentID]. rewrite C2.
    unfold balanceOf at 1. rewrite lookup_empty. simpl.
    destruct (String.eqb s ""); reflexivity. }
  split; [exact R1|]. split; [exact R2|]. split.
  { intros s N. rewrite R3. apply String.eqb_neq in N. rewrite N. reflexivity. }
  split.
  { subst r'. unfold buildPrompt_runner, updateTokenPrices.
    cbn [Runner.lastOffersByAS Runner.AgentID]. unfold countOwnOffers.
    assert (G : forall (l : list Offer.t) (acc : Z * gmap string Z),
               snd acc !! "" = None ->
               snd (fold_left (countOffer (Runner.AgentID r)) l acc) !! ""
               = None).
    { induction l as [|o l IH]; intros acc A; [exact A|].
      cbn [fold_left]. apply IH. unfold countOffer.
      destruct (ownOpen _ _ _); [|exact A]. cbv zeta. cbn [snd].
      destruct (String.eqb_spec (cleanSymbol (Offer.Asset o)) "") as [E|E];
        cbn [negb]; [exact A|].
      rewrite lookup_insert_ne by exact E. exact A. }
    apply G. apply lookup_empty. }
  split.
  { intros s. rewrite R3, R1. destruct (String.eqb s ""); [lia|].
    unfold offersOf. pose proof (filter_length_le
      (fun o => String.eqb
                  (gostrings.ToUpper (gostrings.TrimSpace (Offer.Asset o))) s)
      mine). lia. }
  split.
  - intros a K L P. apply preflight_gates in P.
    destruct P as (_ & _ & A1 & _ & _ & PO & _). destruct (PO K) as (G1 & G2 & _).
    rewrite R1 in G1. rewrite R3 in G2. apply String.eqb_neq in A1.
    rewrite A1 in G2.
    unfold maxOpenOffersPerAgent, maxOpenOffersPerAsset in *. lia.
  - intros a K L P. apply preflight_gates in P.
    destruct P as (_ & _ & _ & _ & _ & _ & PR & _). destruct (PR K) as (G1 & _).
    rewrite R2 in G1. unfold maxOpenRFQsPerAgent in *. lia.
Qed.


(** ** Prompt helpers *)

Lemma length_append (s t : string) :
  String.length (s +:+ t) = (String.length s + String.length t)%nat.
Proof.
  induction s as [|c s IH]; [reflexivity|]. simpl. rewrite IH. reflexivity.
Qed.

Lemma substring0_length (s : string) :
  forall n : nat, (n <= String.length s)%nat ->
                  String.length (String.substring 0 n s) = n.
Proof.
  induction s as [|c s IH]; intros [|n] L; simpl in *; try reflexivity; try lia.
  rewrite IH by lia. reflexivity.
Qed.

(** [trimForPrompt] faults exactly when asked for one or two
    bytes of a longer text; otherwise its result fits in [max] bytes: nothing
    for a blank text or a [max] that is not positive, the trimmed text when it
    fits, and else its first [max - 3] bytes followed by three dots. *)
Theorem trimForPrompt_bounds (text : string) (max : Z) :
  let trimmed := gostrings.TrimSpace text in
  (trimForPrompt text max = None
   <-> 0 < max < 3 /\ max < Z.of_nat (String.length trimmed))
  /\ forall out, trimForPrompt text max = Some out ->
       Z.of_nat (String.length out) <= Z.max 0 max
       /\ (max <= 0 -> out = "")
       /\ (0 < max -> Z.of_nat (String.length trimmed) <= max -> out = trimmed)
       /\ (0 < max < Z.of_nat (String.length trimmed) ->
           Z.of_nat (String.length out) = max
           /\ exists kept, out = kept +:+ "..."
                           /\ String.prefix kept trimmed = true).
Proof.
  intros trimmed. unfold trimForPrompt. fold trimmed.
  destruct (String.eqb_spec trimmed "") as [E|E]; cbn [orb].
  { rewrite E. cbn [String.length]. split.
    - split; [discriminate|]. intros ((A & _) & L). simpl in L. lia.
    - intros out O. injection O as <-. cbn [String.length].
      split; [lia|]. split; [reflexivity|]. split; [reflexivity|].
      intros L. simpl in L. lia. }
  destruct (Z.leb_spec max 0) as [M|M].
  { split.
    - split; [discriminate|]. lia.
    - intros out O. injection O as <-. cbn [String.length].
      split; [lia|]. split; [reflexivity|]. split; lia. }
  destruct (Z.leb_spec (Z.of_nat (String.length trimmed)) max) as [F|F].
  { split.
    - split; [discriminate|]. lia.
    - intros out O. injection O as <-.
      split; [lia|]. split; [lia|]. split; [reflexivity|]. lia. }
  destruct (Z.ltb_spec (max - 3) 0) as [P|P].
  { split.
    - split; [lia|reflexivity].
    - intros out O. discriminate O. }
  split.
  - split; [discriminate|]. lia.
  - intros out O. injection O as <-.
    assert (K : String.length (gostrings.slice trimmed 0 (max - 3))
                = Z.to_nat (max - 3)).
    { unfold gostrings.slice. rewrite Z.sub_0_r. change (Z.to_nat 0) with 0%nat.
      apply substring0_length. lia. }
    assert (L : Z.of_nat (String.length
                            (gostrings.slice trimmed 0 (max - 3) +:+ "..."))
                = max).
    { rewrite length_append, K. cbn [String.length]. lia. }
    split; [lia|]. split; [lia|]. split; [lia|]. intros _.
    split; [exact L|]. exists (gostrings.slice trimmed 0 (max - 3)).
    split; [reflexivity|]. apply prefix_correct. rewrite K.
    unfold gostrings.slice. rewrite Z.sub_0_r. reflexivity.
Qed.

(** A requested profile is read trimmed of Unicode white space and in lower
    case; with no request the agent gets one of the three known profiles, so
    the guidance falls back to the cautious text exactly when a profile
    outside the three was requested.  Resolving is idempotent when nothing was
    requested, when the request is ASCII text, and whenever the tables read a
    text that was trimmed and lower-cased as itself ([lowerSettles]). *)
Theorem resolveProfile_known (agentID requested : string) :
  let wanted := gostrings.ToLower (gostrings.TrimSpace requested) in
  let profile := resolveProfile agentID requested in
  (wanted <> "" -> profile = wanted)
  /\ (wanted = "" -> In profile knownProfiles)
  /\ (wanted = "" \/ gostrings.isASCII requested = true \/ lowerSettles ->
      resolveProfile agentID profile = profile)
  /\ (profilePrompt profile = "Be cautious and prefer small actions."
      <-> wanted <> "" /\ ~ In wanted knownProfiles).
Proof.
  intros wanted profile.
  assert (P1 : wanted <> "" -> profile = wanted).
  { intros N. subst profile. unfold resolveProfile. fold wanted.
    apply String.eqb_neq in N. rewrite N. reflexivity. }
  assert (P2 : wanted = "" -> In profile knownProfiles).
  { intros E. subst profile. unfold resolveProfile. fold wanted. rewrite E.
    change (negb (String.eqb "" "")) with false. cbv iota.
    destruct (String.eqb agentID ""); [simpl; auto|].
    destruct (fnv32a agentID mod 3 =? 0); [simpl; auto|].
    destruct (fnv32a agentID mod 3 =? 1); simpl; auto. }
  split; [exact P1|]. split; [exact P2|]. split.
  - intros W. destruct (String.eqb_spec wanted "") as [E|N].
    + specialize (P2 E). unfold knownProfiles in P2. simpl in P2.
      destruct P2 as [<-|[<-|[<-|[]]]]; reflexivity.
    + assert (I : gostrings.ToLower (gostrings.TrimSpace wanted) = wanted).
      { destruct W as [E|[A|L]]; [congruence| |apply L].
        apply lowerTrim_ascii_idem. exact A. }
      rewrite (P1 N). unfold resolveProfile.
      rewrite I. apply String.eqb_neq in N. rewrite N. reflexivity.
  - destruct (String.eqb_spec wanted "") as [E|N].
    + specialize (P2 E). split; [|intros (N & _); congruence].
      unfold knownProfiles in P2. simpl in P2.
      destruct P2 as [<-|[<-|[<-|[]]]]; discriminate.
    + rewrite (P1 N). unfold profilePrompt, knownProfiles.
      destruct (String.eqb_spec wanted "market_maker") as [K1|K1];
        [rewrite K1; split; [discriminate|intros (_ & X); exfalso; apply X; simpl; auto]|].
      destruct (String.eqb_spec wanted "taker") as [K2|K2];
        [rewrite K2; split; [discriminate|intros (_ & X); exfalso; apply X; simpl; auto]|].
      destruct (String.eqb_spec wanted "momentum") as [K3|K3];
        [rewrite K3; split; [discriminate|intros (_ & X); exfalso; apply X; simpl; auto]|].
      split; [|reflexivity]. intros _. split; [exact N|].
      simpl. intros [X|[X|[X|[]]]]; congruence.
Qed.

(** The hash on the test vectors of FNV-1a. *)
Example fnv32a_vectors :
  fnv32a "" = 2166136261 /\ fnv32a "a" = 3826002220
  /\ fnv32a "foobar" = 3214735720.
Proof. repeat split; reflexivity. Qed.

(** ** Holdings *)

Lemma ascii_compare_trans (a b c : ascii) :
  (a ?= b)%char <> Gt -> (b ?= c)%char <> Gt -> (a ?= c)%char <> Gt.
Proof.
  unfold Ascii.compare. rewrite !N.compare_gt_iff. lia.
Qed.

Lemma string_compare_refl (s : string) : (s ?= s)%string = Eq.
Proof.
  induction s as [|c s IH]; [reflexivity|]. simpl.
  unfold Ascii.compare. rewrite N.compare_refl. exact IH.
Qed.

Lemma string_compare_trans (a : string) :
  forall b c : string,
    (a ?= b)%string <> Gt -> (b ?= c)%string <> Gt -> (a ?= c)%string <> Gt.
Proof.
  induction a as [|x a IH]; intros [|y b] [|z c]; simpl; try congruence.
  unfold Ascii.compare.
  destruct (N.compare_spec (N_of_ascii x) (N_of_ascii y)) as [E1|L1|G1];
    destruct (N.compare_spec (N_of_ascii y) (N_of_ascii z)) as [E2|L2|G2];
    destruct (N.compare_spec (N_of_ascii x) (N_of_ascii z)) as [E3|L3|G3];
    try congruence; try lia; try (intros; discriminate).
  apply IH.
Qed.

(** Not below: the order that the sort leaves between neighbours. *)
Lemma notBelow_trans (a b c : string) :
  String.ltb b a = false -> String.ltb c b = false -> String.ltb c a = false.
Proof.
  unfold String.ltb. intros H1 H2.
  assert (A : (a ?= b)%string <> Gt).
  { rewrite String.compare_antisym. destruct (b ?= a)%string; simpl; congruence. }
  assert (B : (b ?= c)%string <> Gt).
  { rewrite String.compare_antisym. destruct (c ?= b)%string; simpl; congruence. }
  pose proof (string_compare_trans a b c A B) as T.
  rewrite String.compare_antisym in T. destruct (c ?= a)%string; simpl in T; congruence.
Qed.

Lemma notBelow_antisym (a b : string) :
  String.ltb b a = false -> String.ltb a b = false -> a = b.
Proof.
  unfold String.ltb. intros H1 H2. apply String.compare_eq_iff.
  rewrite String.compare_antisym in H1.
  destruct (a ?= b)%string; simpl in *; congruence.
Qed.

(** Two sorted lists with the same elements are the same list. *)
Lemma sorted_unique {A : Type} (R : A -> A -> Prop) :
  (forall a b c, R a b -> R b c -> R a c) ->
  (forall a b, R a b -> R b a -> a = b) ->
  forall l1 l2 : list A,
    Sorted R l1 -> Sorted R l2 -> Permutation l1 l2 -> l1 = l2.
Proof.
  intros Tr An l1 l2 S1 S2.
  apply Sorted_StronglySorted in S1; [|exact Tr].
  apply Sorted_StronglySorted in S2; [|exact Tr].
  revert l2 S2. induction S1 as [|x l1 S1 IH F1]; intros l2 S2 P.
  - apply Permutation_nil in P. congruence.
  - destruct S2 as [|y l2 S2 F2].
    + apply Permutation_sym, Permutation_nil in P. discriminate.
    + assert (E : x = y).
      { assert (I1 : In x (y :: l2)) by (apply (Permutation_in _ P); left; reflexivity).
        assert (I2 : In y (x :: l1))
          by (apply (Permutation_in _ (Permutation_sym P)); left; reflexivity).
        destruct I1 as [I1|I1]; [congruence|]. destruct I2 as [I2|I2]; [congruence|].
        rewrite List.Forall_forall in F1, F2. apply An; auto. }
      subst y. f_equal. apply IH; [exact S2|].
      exact (Permutation_cons_inv P).
Qed.

(** Sorting forgets the order of its input. *)
Lemma sortStrings_perm (l1 l2 : list string) :
  Permutation l1 l2 -> sortStrings l1 = sortStrings l2.
Proof.
  intros P. unfold sortStrings.
  apply (sorted_unique (fun a b => String.ltb b a = false)).
  - intros a b c. apply notBelow_trans.
  - intros a b. apply notBelow_antisym.
  - apply SliceStable_sorted. apply ltb_asym.
  - apply SliceStable_sorted. apply ltb_asym.
  - rewrite (SliceStable_perm String.ltb l1), (SliceStable_perm String.ltb l2).
    exact P.
Qed.

Section HoldingsFacts.

Variable rangeMap : forall A : Type, gmap string A -> list (string * A).

(** A [range] over a map visits every entry once, in some order. *)
Hypothesis rangeMap_entries :
  forall m : gmap string Z, Permutation (rangeMap Z m) (map_to_list m).

(** The holdings text does not depend on the order in
    which the balances are visited: it is "unknown" without balances, and else
    the entries "denom amount" in increasing order, joined by commas. *)
Theorem formatHoldings_order (r : Runner.t) :
  formatHoldings rangeMap r = formatHoldings (fun A => map_to_list) r
  /\ (Runner.lastBalances r = ∅ -> formatHoldings rangeMap r = "unknown")
  /\ exists entries,
       Permutation entries
         (List.map holdingEntry (map_to_list (Runner.lastBalances r)))
       /\ Sorted (fun a b => String.ltb b a = false) entries
       /\ (Runner.lastBalances r <> ∅ ->
           formatHoldings rangeMap r = Join entries ", ").
Proof.
  assert (S : sortStrings (List.map holdingEntry (rangeMap Z (Runner.lastBalances r)))
              = sortStrings (List.map holdingEntry
                               (map_to_list (Runner.lastBalances r)))).
  { apply sortStrings_perm, Permutation_map, rangeMap_entries. }
  split; [|split].
  - unfold formatHoldings. rewrite S. reflexivity.
  - intros E. unfold formatHoldings. rewrite E. reflexivity.
  - exists (sortStrings (List.map holdingEntry
                           (map_to_list (Runner.lastBalances r)))).
    split; [apply SliceStable_perm|].
    split; [apply SliceStable_sorted, ltb_asym|].
    intros N. unfold formatHoldings. rewrite S.
    destruct (Nat.eqb_spec (size (Runner.lastBalances r)) 0) as [Z0|Z0];
      [|reflexivity].
    exfalso. apply N. apply map_size_empty_inv. exact Z0.
Qed.

End HoldingsFacts.


(** ** The allowed tokens *)

Lemma nextAllowed_from (tokens next : list string) :
  fold_left
    (fun next token =>
       let symbol := cleanSymbol token in
       if String.eqb symbol "" || String.eqb symbol "AGC" then next
       else (next ++ [symbol])%list)
    tokens next
  = (next ++ List.filter tradable (List.map cleanSymbol tokens))%list.
Proof.
  revert next. induction tokens as [|t tokens IH]; intros next.
  - cbn [fold_left List.map List.filter]. rewrite List.app_nil_r. reflexivity.
  - cbn [fold_left List.map List.filter]. rewrite IH. cbv zeta. unfold tradable at 2.
    destruct (String.eqb (cleanSymbol t) "" || String.eqb (cleanSymbol t) "AGC");
      cbn [negb]; [reflexivity|].
    rewrite <- List.app_assoc. reflexivity.
Qed.

Lemma nextAllowed_filter (tokens : list string) :
  nextAllowed tokens = List.filter tradable (List.map cleanSymbol tokens).
Proof. unfold nextAllowed. rewrite nextAllowed_from. reflexivity. Qed.

Lemma tradable_spec (s : string) : tradable s = true <-> s <> "" /\ s <> "AGC".
Proof.
  unfold tradable.
  destruct (String.eqb_spec s ""), (String.eqb_spec s "AGC"); cbn [orb negb];
    split; try discriminate; try tauto; intros (A & B); congruence.
Qed.

(** The tokens that [refreshAgentConfig] stores are the
    policy's tokens trimmed of Unicode white space and in upper case, in
    order, without the blank ones and the settlement denomination; the tables
    being asked that a symbol read so reads as itself ([upperSettles]), the
    stored tokens are in normal form, storing is idempotent, and the set of
    allowed symbols that [pickActionAsset] builds from the stored list is the
    list itself. *)
Theorem nextAllowed_normal (policy : list string) :
  upperSettles ->
  nextAllowed policy = List.filter tradable (List.map cleanSymbol policy)
  /\ (forall x, In x (nextAllowed policy) ->
        cleanSymbol x = x /\ x <> "" /\ x <> "AGC")
  /\ nextAllowed (nextAllowed policy) = nextAllowed policy
  /\ allowedSet (nextAllowed policy) = allowedSet policy
  /\ (forall x, x ∈ allowedSet (nextAllowed policy) <-> In x (nextAllowed policy)).
Proof.
  intros settled.
  assert (M : forall x, In x (nextAllowed policy)
                <-> exists token, In token policy /\ x = cleanSymbol token
                                  /\ x <> "" /\ x <> "AGC").
  { intros x. rewrite nextAllowed_filter, List.filter_In, List.in_map_iff,
      tradable_spec. split.
    - intros ((t & E & I) & N). exists t. split; [exact I|]. split; [auto|exact N].
    - intros (t & I & E & N). split; [exists t; auto|exact N]. }
  assert (N : forall x, In x (nextAllowed policy) ->
                cleanSymbol x = x /\ x <> "" /\ x <> "AGC").
  { intros x I. apply M in I. destruct I as (t & _ & E & N).
    split; [rewrite E; apply settled|exact N]. }
  assert (S : forall x, x ∈ allowedSet (nextAllowed policy)
                <-> In x (nextAllowed policy)).
  { intros x. rewrite allowedSet_spec. split.
    - intros (t & I & E & _). destruct (N t I) as (C & _). congruence.
    - intros I. destruct (N x I) as (C & N'). exists x. auto. }
  split; [apply nextAllowed_filter|]. split; [exact N|]. split; [|split; [|exact S]].
  - rewrite (nextAllowed_filter (nextAllowed policy)).
    generalize (nextAllowed policy) N. intros l.
    induction l as [|x l IH]; intros K; [reflexivity|].
    cbn [List.map List.filter]. destruct (K x (or_introl eq_refl)) as (C & K').
    rewrite C. apply tradable_spec in K'. rewrite K'. f_equal.
    apply IH. intros y I. apply K. right. exact I.
  - apply leibniz_equiv. intros x. rewrite S, M, allowedSet_spec. reflexivity.
Qed.

(** ** Balances *)

Lemma GetBalances_fold (items : list BalanceItem.t) (m : gmap string Z)
      (d : string) :
  fold_left
    (fun out item =>
       if String.eqb (BalanceItem.Denom item) "" then out
       else <[BalanceItem.Denom item := BalanceItem.Amount item]> out)
    items m !! d
  = if String.eqb d "" then m !! d
    else match lastItem d items with
         | Some i => Some (BalanceItem.Amount i)
         | None => m !! d
         end.
Proof.
  unfold lastItem.
  induction items as [|i items IH] using List.rev_ind.
  - cbn [fold_left List.rev List.find]. destruct (String.eqb d ""); reflexivity.
  - rewrite List.fold_left_app, List.rev_unit. cbn [fold_left List.find].
    destruct (String.eqb_spec (BalanceItem.Denom i) "") as [E|E].
    + rewrite IH. destruct (String.eqb_spec (BalanceItem.Denom i) d) as [D|D];
        [|reflexivity].
      rewrite <- D, E. reflexivity.
    + destruct (String.eqb_spec (BalanceItem.Denom i) d) as [D|D].
      * rewrite D, lookup_insert_eq. rewrite D in E. apply String.eqb_neq in E.
        rewrite E. reflexivity.
      * rewrite lookup_insert_ne by exact D. exact IH.
Qed.

Lemma lastItem_some (d : string) (items : list BalanceItem.t) :
  (exists i, In i items /\ BalanceItem.Denom i = d)
  <-> exists i, lastItem d items = Some i.
Proof.
  unfold lastItem. split.
  - intros (i & I & E).
    destruct (List.find _ (List.rev items)) as [j|] eqn:F; [exists j; reflexivity|].
    exfalso. apply List.in_rev in I.
    pose proof (List.find_none _ _ F i I) as K. cbv beta in K.
    apply String.eqb_neq in K. congruence.
  - intros (i & F). apply List.find_some in F. destruct F as (I & E).
    exists i. split; [apply List.in_rev; exact I|apply String.eqb_eq; exact E].
Qed.

(** A refresh that the gateway answers replaces the
    balances by the amounts of the items, the last item of a denomination
    winning and items without denomination being dropped; when no item has a
    denomination the balances count as unavailable and preflight blocks every
    action.  Without a gateway, without an agent id or on an error the runner
    is left as it was. *)
Theorem refreshBalances_lookup (oor : float -> Z) (fees : FeeConfig)
    (fetchJSON : string -> list BalanceItem.t + string) (r : Runner.t) :
  let r' := refreshBalances fetchJSON r in
  let answer := fetchJSON ("/v1/balances/" +:+ Runner.AgentID r) in
  (Runner.hasIndexer r = false \/ Runner.AgentID r = ""
   \/ (exists err, answer = inr err) -> r' = r)
  /\ forall items,
       Runner.hasIndexer r = true -> Runner.AgentID r <> "" ->
       answer = inl items ->
       (forall d, d <> "" ->
          balanceOf (Runner.lastBalances r') d
          = match lastItem d items with
            | Some i => BalanceItem.Amount i
            | None => 0
            end)
       /\ Runner.lastBalances r' !! "" = None
       /\ (balancesKnown r'
           <-> exists i, In i items /\ BalanceItem.Denom i <> "")
       /\ ((forall i, In i items -> BalanceItem.Denom i = "") ->
           forall a, preflight oor fees r' a = blocked "balances unavailable")
       /\ Runner.decisionMemory r' = Runner.decisionMemory r.
Proof.
  intros r' answer. subst r'. unfold refreshBalances. fold answer. split.
  - intros [I|[A|(err & E)]].
    + rewrite I. reflexivity.
    + rewrite A. destruct (Runner.hasIndexer r); reflexivity.
    + rewrite E. destruct (negb (Runner.hasIndexer r) || _); reflexivity.
  - intros items I A E. rewrite I, E. apply String.eqb_neq in A. rewrite A.
    cbn [negb orb GetBalances Runner.lastBalances Runner.decisionMemory].
    set (m := fold_left _ items ∅).
    assert (L : forall d, m !! d
                  = if String.eqb d "" then None
                    else match lastItem d items with
                         | Some i => Some (BalanceItem.Amount i)
                         | None => None
                         end).
    { intros d. subst m. rewrite GetBalances_fold, lookup_empty. reflexivity. }
    assert (K : size m <> 0%nat
                <-> exists i, In i items /\ BalanceItem.Denom i <> "").
    { split.
      - intros S. destruct (map_choose m) as (d & v & Hd).
        { intros Z0. apply S. rewrite Z0. apply map_size_empty. }
        rewrite L in Hd. destruct (String.eqb_spec d "") as [D|D]; [discriminate|].
        destruct (lastItem d items) as [i|] eqn:F; [|discriminate].
        destruct (proj2 (lastItem_some d items) (ex_intro _ i F)) as (j & J1 & J2).
        exists j. split; [exact J1|congruence].
      - intros (i & I1 & I2) S. apply map_size_empty_inv in S.
        destruct (proj1 (lastItem_some (BalanceItem.Denom i) items)
                    (ex_intro _ i (conj I1 eq_refl))) as (j & F).
        pose proof (L (BalanceItem.Denom i)) as Li. rewrite F in Li.
        apply String.eqb_neq in I2. rewrite I2 in Li.
        rewrite S, lookup_empty in Li. discriminate. }
    split; [|split; [|split; [|split]]].
    + intros d D. unfold balanceOf. rewrite L. apply String.eqb_neq in D.
      rewrite D. destruct (lastItem d items); reflexivity.
    + rewrite L. reflexivity.
    + unfold balancesKnown. cbn [Runner.lastBalances]. exact K.
    + intros B a. unfold preflight. cbn [Runner.lastBalances].
      assert (Z0 : size m = 0%nat).
      { destruct (Nat.eq_dec (size m) 0%nat) as [Z0|Z0]; [exact Z0|].
        apply K in Z0. destruct Z0 as (i & I1 & I2). destruct (I2 (B i I1)). }
      rewrite Z0. reflexivity.
    + reflexivity.
Qed.

(** ** One decision of the loop *)

(** On ASCII text [EqualFold] compares the bytes in lower case. *)
Lemma foldBytes_lower (a b : ascii) :
  gostrings.foldBytes a b = true -> gostrings.lowerByte a = gostrings.lowerByte b.
Proof.
  unfold gostrings.foldBytes. intros F. apply orb_true_iff in F.
  destruct F as [F|F]; apply Ascii.eqb_eq in F; congruence.
Qed.

Lemma EqualFold_ascii (s : string) :
  forall t : string,
    gostrings.isASCII s = true -> gostrings.isASCII t = true ->
    gostrings.EqualFold s t = true ->
    gostrings.mapBytes gostrings.lowerByte s
    = gostrings.mapBytes gostrings.lowerByte t.
Proof.
  induction s as [|a s IH]; intros [|b t] As At E;
    try reflexivity; try discriminate.
  unfold gostrings.isASCII in As, At. simpl in As, At.
  apply andb_true_iff in As, At. destruct As as [A1 A2], At as [B1 B2].
  apply N.ltb_lt in A1, B1. cbn [gostrings.EqualFold] in E.
  destruct (N.leb_spec 128 (N_of_ascii a)) as [L|_]; [lia|].
  destruct (N.leb_spec 128 (N_of_ascii b)) as [L|_]; [lia|].
  cbn [orb] in E. destruct (gostrings.foldBytes a b) eqn:F; [|discriminate].
  simpl. rewrite (foldBytes_lower a b F). f_equal.
  apply IH; assumption.
Qed.

(** For an action whose kind is ASCII text, the test of the loop for a wait
    agrees with the kind that validation reads. *)
Lemma EqualFold_wait (a : Action.t) :
  gostrings.isASCII (Action.Action a) = true ->
  gostrings.EqualFold (Action.Action a) "wait" = true -> kindOf a = "wait".
Proof.
  intros A E.
  apply (EqualFold_ascii (Action.Action a) "wait" A eq_refl) in E.
  change (gostrings.mapBytes gostrings.lowerByte "wait") with "wait" in E.
  unfold kindOf. rewrite (proj1 (lowerTrim_ascii _ A)).
  rewrite <- (TrimSpace_mapBytes _ _ plainMap_lowerByte), E. reflexivity.
Qed.

(** The kinds of the grammar are not blank. *)
Lemma canonical_not_blank (kind : string) :
  In kind canonicalKinds -> gostrings.TrimSpace kind <> "".
Proof.
  unfold canonicalKinds. simpl.
  intros [<-|[<-|[<-|[<-|[]]]]]; vm_compute; discriminate.
Qed.

Lemma validated_kind (a : Action.t) :
  validateStrictAction a = "" -> In (kindOf a) canonicalKinds.
Proof.
  unfold validateStrictAction, canonicalKinds. fold (kindOf a).
  destruct (String.eqb_spec (kindOf a) "post_offer") as [K1|K1];
    [intros _; rewrite K1; simpl; auto|].
  destruct (String.eqb_spec (kindOf a) "create_rfq") as [K2|K2];
    [intros _; rewrite K2; simpl; auto|].
  destruct (String.eqb_spec (kindOf a) "trade") as [K3|K3];
    [intros _; rewrite K3; simpl; auto|].
  destruct (String.eqb_spec (kindOf a) "wait") as [K4|K4];
    [intros _; rewrite K4; simpl; auto 6|].
  cbn [orb negb].
  destruct (String.eqb (kindOf a) ""); [discriminate|].
  destruct (String.eqb (kindOf a) "noop"); discriminate.
Qed.

Section DecisionFacts.

Context {C : Type} `{Client C}.
Variable json_Unmarshal : string -> Action.t + string.
Variable rangeMap : forall A : Type, gmap string A -> list (string * A).
Variable rangeSet : gset string -> list string.
Variable oor : float -> Z.
Variable fees : FeeConfig.
Variable PostDevAction : DevActionRequest.t -> option string.
Variable Tick : Z.

(** The engine returns a validated action, or an error with the zero action. *)
Lemma decideStrict_result (r : Runner.t) (c0 : C) (base : Prompt.t) :
  (exists c action raw,
      decideStrict json_Unmarshal rangeMap rangeSet r c0 base
      = (c, (action, raw, None))
      /\ validateStrictAction action = "")
  \/ (exists c raw e,
        decideStrict json_Unmarshal rangeMap rangeSet r c0 base
        = (c, (Action.zero, raw, Some e))).
Proof.
  destruct (decideLoop_attempts json_Unmarshal rangeMap rangeSet r base c0
              3 0 "" "no decision produced" c0 base)
    as [(m & raw1 & err1 & c1 & c2 & result & action & raw2 & Hm & Ht & Hg & Hj & Hd)
       |(raw3 & err3 & c3 & Ht & Hd)].
  - reflexivity.
  - constructor.
  - reflexivity.
  - left. exists c2, action, raw2. split; [exact Hd|].
    destruct Hj as [response action V P]. exact P.
  - right. exists c3, raw3. eexists. exact Hd.
Qed.

Abbreviation step :=
  (decideAndAct json_Unmarshal rangeMap rangeSet oor fees PostDevAction Tick).

(** Whatever the model answers, one decision of the loop
    records exactly one outcome, rejected, wait, blocked or executed: it is the
    new last entry of the memory, which stays within 12 entries, and it is
    reported to the gateway when there is one.  At most one action is
    submitted, and only an action that strict validation accepted, of an
    actionable kind, that preflight let proceed; an outcome "executed" means
    that it was submitted and the gateway accepted it.  When the decision
    fails, the outcome is the rejection of the action "invalid" with the
    engine's error, nothing is submitted and the next decision is due in 3
    seconds.  When the engine returns an action, the outcome has its kind;
    after a wait nothing is submitted and the next decision is due in 1 to 60
    seconds, as the wait hint has it; after any other outcome it is due after
    a tick.  An outcome "wait" of an action whose kind is ASCII text has the
    kind "wait". *)
Theorem decideAndAct_outcome (now : string) (r : Runner.t) (client : C)
    (prompt : Prompt.t) :
  let '(r', _, calls, delay) := step now r client prompt in
  let '(_, (action, _, err)) :=
    decideStrict json_Unmarshal rangeMap rangeSet r client prompt in
  exists entry,
    In (memoryDecision.Status entry) ["rejected"; "wait"; "blocked"; "executed"]
    /\ Runner.decisionMemory r'
       = keepLast decisionMemoryLimit (Runner.decisionMemory r ++ [entry])
    /\ (List.length (Runner.decisionMemory r') <= decisionMemoryLimit)%nat
    /\ List.map DevDecisionRequest.Status (records calls)
       = (if Runner.hasIndexer r then [memoryDecision.Status entry] else [])
    /\ (submissions calls = []
        \/ exists a, submissions calls = [actionRequest r a]
             /\ validateStrictAction a = ""
             /\ In (kindOf a) actionableKinds
             /\ preflight oor fees r a = proceed
             /\ Runner.hasIndexer r = true)
    /\ (memoryDecision.Status entry = "executed" ->
        exists req, submissions calls = [req] /\ PostDevAction req = None)
    /\ match err with
       | Some e =>
           memoryDecision.Action entry = "invalid"
           /\ memoryDecision.Status entry = "rejected"
           /\ memoryDecision.Error entry = gostrings.TrimSpace e
           /\ memoryDecision.Reason entry = "decision_error"
           /\ submissions calls = []
           /\ delay = 3 * Second
       | None =>
           validateStrictAction action = ""
           /\ memoryDecision.Action entry = kindOf action
           /\ (memoryDecision.Status entry = "wait" ->
               submissions calls = []
               /\ Second <= delay <= 60 * Second
               /\ delay = normalizeWaitDuration (Action.NextCheckSec action)
               /\ (gostrings.isASCII (Action.Action action) = true ->
                   memoryDecision.Action entry = "wait"))
           /\ (memoryDecision.Status entry <> "wait" -> delay = Tick)
       end.
Proof.
  unfold decideAndAct.
  destruct (decideStrict_result r client prompt)
    as [(c & action & raw & D & V)|(c & raw & e & D)]; rewrite D.
  - pose proof (validated_kind action V) as K.
    pose proof (canonical_not_blank _ K) as KN.
    destruct (gostrings.EqualFold (Action.Action action) "wait") eqn:W.
    + set (action' :=
             if String.eqb (gostrings.TrimSpace (Action.Reason action)) ""
             then Action.mk (Action.Action action) (Action.AssetSymbol action)
                    (Action.Category action) (Action.PriceAGC action)
                    (Action.Qty action) (Action.Side action) "model_wait"
                    (Action.NextCheckSec action)
             else action).
      assert (KA : kindOf action' = kindOf action).
      { subst action'. destruct (String.eqb _ ""); reflexivity. }
      assert (NA : Action.NextCheckSec action' = Action.NextCheckSec action).
      { subst action'. destruct (String.eqb _ ""); reflexivity. }
      assert (KN' : gostrings.TrimSpace (kindOf action') <> "")
        by (rewrite KA; exact KN).
      destruct (postDecision_memory now r action' "wait" "" raw KN')
        as (M & S & R); [simpl; auto 6|].
      destruct (postDecision now r action' "wait" "" raw) as [r' calls].
      cbn [fst snd] in M, S, R.
      exists (outcomeEntry now action' "wait" "").
      cbn [outcomeEntry memoryDecision.Status memoryDecision.Action].
      split; [simpl; auto|]. split; [exact M|].
      split; [rewrite M, keepLast_length; lia|]. split; [exact R|].
      split; [left; exact S|]. split; [discriminate|].
      split; [exact V|]. split; [exact KA|].
      split; [|intros X; congruence]. intros _.
      split; [exact S|]. rewrite NA. split; [|split; [reflexivity|]].
      * rewrite normalizeWaitDuration_cases.
        unfold defaultWaitSec, maxWaitSec, Second.
        destruct (Z.leb_spec (Action.NextCheckSec action) 0); lia.
      * intros A. rewrite KA. apply EqualFold_wait; assumption.
    + destruct (executeAction_summary oor fees PostDevAction now r action raw KN)
        as (status & errMsg & St & M & R & Sub & Ex).
      destruct (executeAction oor fees PostDevAction now r action raw)
        as [r' calls].
      cbn [fst snd] in M, R, Sub, Ex.
      exists (outcomeEntry now action status errMsg).
      cbn [outcomeEntry memoryDecision.Status memoryDecision.Action].
      split; [simpl in St; simpl; intuition|]. split; [exact M|].
      split; [rewrite M, keepLast_length; lia|]. split; [exact R|].
      split.
      { destruct Sub as [Sub|(Sub & P & I)]; [left; exact Sub|].
        right. exists action. split; [exact Sub|]. split; [exact V|].
        split; [|auto].
        apply preflight_gates in P. destruct P as (_ & _ & _ & _ & P & _).
        exact P. }
      split.
      { intros X. destruct (Ex X) as (E1 & E2). eexists. split; eassumption. }
      split; [exact V|]. split; [reflexivity|].
      split; [|intros _; reflexivity].
      intros X. exfalso. simpl in St. destruct St as [St|[St|[St|[]]]];
        rewrite <- St in X; discriminate.
  - assert (KN : gostrings.TrimSpace (kindOf (invalidAction "decision_error")) <> "")
      by (vm_compute; discriminate).
    destruct (postDecision_memory now r (invalidAction "decision_error")
                "rejected" e raw KN) as (M & S & R); [simpl; auto|].
    destruct (postDecision now r (invalidAction "decision_error")
                "rejected" e raw) as [r' calls].
    cbn [fst snd] in M, S, R.
    exists (outcomeEntry now (invalidAction "decision_error") "rejected" e).
    cbn [outcomeEntry memoryDecision.Status memoryDecision.Action
         memoryDecision.Error memoryDecision.Reason].
    split; [simpl; auto|]. split; [exact M|].
    split; [rewrite M, keepLast_length; lia|]. split; [exact R|].
    split; [left; exact S|]. split; [discriminate|].
    split; [reflexivity|]. split; [reflexivity|]. split; [reflexivity|].
    split; [reflexivity|]. split; [exact S|reflexivity].
Qed.

End DecisionFacts.

(** A model that first answers with text that does not decode and then asks to
    buy: the purchase is submitted, recorded as executed and remembered, and
    the next decision is due after a tick. *)
Example decideAndAct_buy :
  let '(r', _, calls, delay) :=
    @decideAndAct Scripted scriptedClient deskDecoder
      (fun A => map_to_list) elements saturate
      initialFees accepting (2 * Second) "now"
      (bookRunner tenAtTwo [] [("AGC", 100)])
      [inl "no json"; inl " {buy} "] (Prompt.mk "system" "user") in
  List.map DevActionRequest.Action (submissions calls) = ["trade"]
  /\ List.map DevDecisionRequest.Status (records calls) = ["executed"]
  /\ List.map memoryDecision.Status (Runner.decisionMemory r') = ["executed"]
  /\ delay = 2 * Second.
Proof. vm_compute. repeat split; reflexivity. Qed.

(** A wait of 200 seconds is scheduled after 60. *)
Example decideAndAct_wait :
  let '(r', _, calls, delay) :=
    @decideAndAct Scripted scriptedClient deskDecoder
      (fun A => map_to_list) elements saturate
      initialFees accepting (2 * Second) "now"
      (bookRunner tenAtTwo [] [("AGC", 100)])
      [inl "{wait}"] (Prompt.mk "system" "user") in
  submissions calls = []
  /\ List.map DevDecisionRequest.Status (records calls) = ["wait"]
  /\ List.map memoryDecision.Reason (Runner.decisionMemory r') = ["model_wait"]
  /\ delay = 60 * Second.
Proof. vm_compute. repeat split; reflexivity. Qed.

(** ** What the decoder is handed *)

Lemma prefix_empty (s : string) : String.prefix "" s = true.
Proof. destruct s; reflexivity. Qed.

Lemma indexFrom_char (c : ascii) (s : string) :
  forall i j : Z,
    gostrings.indexFrom i s (String c "") = j -> j <> -1 -> 0 <= i ->
    i <= j /\ String.get (Z.to_nat (j - i)) s = Some c.
Proof.
  induction s as [|d s IH]; intros i j E N I; cbn [gostrings.indexFrom] in E.
  - cbn [String.prefix] in E. congruence.
  - cbn [String.prefix] in E. destruct (ascii_dec c d) as [->|D]; cbv iota in E.
    + rewrite prefix_empty in E.
      subst j. rewrite Z.sub_diag. split; [lia|reflexivity].
    + destruct (IH (i + 1) j E N ltac:(lia)) as (L & G). split; [lia|].
      replace (Z.to_nat (j - i)) with (S (Z.to_nat (j - (i + 1)))) by lia.
      exact G.
Qed.

Lemma lastIndexFrom_char (c : ascii) (s : string) :
  forall i j : Z,
    gostrings.lastIndexFrom i s (String c "") = j -> j <> -1 -> 0 <= i ->
    i <= j /\ String.get (Z.to_nat (j - i)) s = Some c.
Proof.
  induction s as [|d s IH]; intros i j E N I; cbn [gostrings.lastIndexFrom] in E.
  - change (-1 =? -1) with true in E. cbn [String.prefix] in E. congruence.
  - destruct (Z.eqb_spec (gostrings.lastIndexFrom (i + 1) s (String c "")) (-1))
      as [L|L].
    + cbn [String.prefix] in E.
      destruct (ascii_dec c d) as [->|D]; cbv iota in E; [|congruence].
      rewrite prefix_empty in E. subst j. rewrite Z.sub_diag. split; [lia|reflexivity].
    + destruct (IH (i + 1) j E N ltac:(lia)) as (L' & G). split; [lia|].
      replace (Z.to_nat (j - i)) with (S (Z.to_nat (j - (i + 1)))) by lia.
      exact G.
Qed.

Lemma substring_first (s : string) :
  forall (a n : nat) (c : ascii),
    String.get a s = Some c ->
    exists rest, String.substring a (S n) s = String c rest.
Proof.
  induction s as [|d s IH]; intros a n c G; [destruct a; discriminate|].
  destruct a as [|a]; cbn [String.get String.substring] in *.
  - injection G as ->. eexists. reflexivity.
  - exact (IH a n c G).
Qed.

Lemma substring_last (s : string) :
  forall (a n : nat) (c : ascii),
    String.get (a + n) s = Some c ->
    String.substring a (S n) s = String.substring a n s +:+ String c "".
Proof.
  induction s as [|d s IH]; intros a n c G; [destruct (a + n)%nat; discriminate|].
  destruct a as [|a].
  - cbn [Nat.add] in G. destruct n as [|n].
    + cbn [String.get] in G. injection G as ->.
      cbn [String.substring]. destruct s; reflexivity.
    + cbn [String.get] in G. cbn [String.substring].
      rewrite (IH 0%nat n c G). reflexivity.
  - cbn [Nat.add String.get] in G. cbn [String.substring]. exact (IH a n c G).
Qed.

Lemma chars_append (s t : string) :
  list_ascii_of_string (s +:+ t)
  = (list_ascii_of_string s ++ list_ascii_of_string t)%list.
Proof.
  induction s as [|c s IH]; [reflexivity|]. simpl. rewrite IH. reflexivity.
Qed.

(** A text that starts and ends with a plain byte has no white space to
    trim. *)
Lemma TrimSpace_edges (s : string) (c d : ascii) (rest body : string) :
  s = String c rest -> s = body +:+ String d "" ->
  spaceByte c = false -> spaceByte d = false ->
  gostrings.TrimSpace s = s.
Proof.
  intros E1 E2 C D. apply TrimSpace_fixed. split.
  - rewrite E1. apply headed_plain. exact C.
  - rewrite E2, chars_append. apply ended_plain. exact D.
Qed.

Lemma HasSuffix_last (body : string) (d : ascii) :
  gostrings.HasSuffix (body +:+ String d "") (String d "") = true.
Proof.
  unfold gostrings.HasSuffix, gostrings.reverse.
  rewrite chars_append, List.rev_app_distr. cbn.
  destruct (ascii_dec d d); [|congruence].
  destruct (string_of_list_ascii _); reflexivity.
Qed.

Lemma unfenced_tidy (raw : string) :
  gostrings.TrimSpace (unfenced raw) = unfenced raw.
Proof.
  unfold unfenced. destruct (gostrings.HasPrefix _ _); apply TrimSpace_idem.
Qed.

(** The decoder is handed a text without Unicode white space around it.  A
    reply that is an object already is handed over as it is, trimmed; a reply
    with an opening brace before its last closing brace is cut down to the
    text from the one to the other, which starts with "{" and ends with "}";
    any other reply is handed over without its code fence, unchanged. *)
Theorem extractObject_shape (raw : string) :
  let clean := unfenced raw in
  let out := extractObject raw in
  gostrings.TrimSpace out = out
  /\ (gostrings.HasPrefix (gostrings.TrimSpace raw) "{" = true ->
      out = gostrings.TrimSpace raw)
  /\ (gostrings.HasPrefix clean "{" = true -> out = clean)
  /\ (gostrings.HasPrefix clean "{" = false ->
      0 <= gostrings.Index clean "{" < gostrings.LastIndex clean "}" ->
      out = gostrings.slice clean (gostrings.Index clean "{")
              (gostrings.LastIndex clean "}" + 1)
      /\ gostrings.HasPrefix out "{" = true
      /\ gostrings.HasSuffix out "}" = true)
  /\ (gostrings.HasPrefix clean "{" = false ->
      ~ (0 <= gostrings.Index clean "{" < gostrings.LastIndex clean "}") ->
      out = clean).
Proof.
  intros clean out.
  assert (O : out = if negb (gostrings.HasPrefix clean "{")
                    then
                      if (0 <=? gostrings.Index clean "{")
                         && (gostrings.Index clean "{"
                             <? gostrings.LastIndex clean "}")
                      then gostrings.slice clean (gostrings.Index clean "{")
                             (gostrings.LastIndex clean "}" + 1)
                      else clean
                    else clean) by reflexivity.
  assert (Cut : gostrings.HasPrefix clean "{" = false ->
                0 <= gostrings.Index clean "{" < gostrings.LastIndex clean "}" ->
                out = gostrings.slice clean (gostrings.Index clean "{")
                        (gostrings.LastIndex clean "}" + 1)
                /\ exists rest body,
                     out = String "{" rest /\ out = body +:+ "}").
  { intros P (I1 & I2). rewrite P in O. cbn [negb] in O.
    assert (T : (0 <=? gostrings.Index clean "{")
                && (gostrings.Index clean "{" <? gostrings.LastIndex clean "}")
                = true).
    { apply andb_true_iff. split; [apply Z.leb_le|apply Z.ltb_lt]; assumption. }
    rewrite T in O. split; [exact O|].
    destruct (indexFrom_char "{" clean 0 (gostrings.Index clean "{") eq_refl
                ltac:(lia) ltac:(lia)) as (_ & G1).
    destruct (lastIndexFrom_char "}" clean 0 (gostrings.LastIndex clean "}")
                eq_refl ltac:(lia) ltac:(lia)) as (_ & G2).
    rewrite Z.sub_0_r in G1, G2.
    set (a := Z.to_nat (gostrings.Index clean "{")) in *.
    set (n := Z.to_nat (gostrings.LastIndex clean "}"
                        - gostrings.Index clean "{")).
    assert (S : out = String.substring a (S n) clean).
    { rewrite O. unfold gostrings.slice. fold a. f_equal. subst n. lia. }
    destruct (substring_first clean a n "{" G1) as (rest & F).
    exists rest, (String.substring a n clean). split; [congruence|].
    rewrite S. apply substring_last.
    replace (a + n)%nat with (Z.to_nat (gostrings.LastIndex clean "}"))
      by (subst a n; lia).
    exact G2. }
  split; [|split; [|split; [|split]]].
  - destruct (gostrings.HasPrefix clean "{") eqn:P; cbn [negb] in O.
    + rewrite O. apply unfenced_tidy.
    + destruct ((0 <=? gostrings.Index clean "{")
                && (gostrings.Index clean "{" <? gostrings.LastIndex clean "}"))
        eqn:T.
      * apply andb_true_iff in T. destruct T as (T1 & T2).
        apply Z.leb_le in T1. apply Z.ltb_lt in T2.
        destruct (Cut eq_refl (conj T1 T2)) as (_ & rest & body & E1 & E2).
        apply (TrimSpace_edges out "{" "}" rest body E1 E2); reflexivity.
      * rewrite O. apply unfenced_tidy.
  - intros P.
    assert (U : clean = gostrings.TrimSpace raw).
    { subst clean. unfold unfenced. unfold gostrings.HasPrefix in *.
      destruct (gostrings.TrimSpace raw) as [|c s]; [discriminate|].
      cbn [String.prefix] in P. destruct (ascii_dec "{" c) as [<-|]; [|discriminate].
      reflexivity. }
    rewrite <- U in P |- *. rewrite O, P. reflexivity.
  - intros P. rewrite O, P. reflexivity.
  - intros P I. destruct (Cut P I) as (E & rest & body & E1 & E2).
    split; [exact E|]. split.
    + rewrite E1. unfold gostrings.HasPrefix. cbn [String.prefix].
      destruct (ascii_dec "{" "{"); [apply prefix_empty|congruence].
    + rewrite E2. apply HasSuffix_last.
  - intros P I. rewrite O, P. cbn [negb].
    destruct (Z.leb_spec 0 (gostrings.Index clean "{"));
      destruct (Z.ltb_spec (gostrings.Index clean "{")
                           (gostrings.LastIndex clean "}"));
      cbn [andb]; try reflexivity.
    exfalso. apply I. lia.
Qed.

(** A fenced reply with words around the object. *)
Example extractObject_fenced :
  extractObject
    ("```json" +:+ String (ascii_of_nat 10) "Here: {wait} done"
     +:+ String (ascii_of_nat 10) "```")
  = "{wait}".
Proof. vm_compute. reflexivity. Qed.

(** ** Preflight after validation *)

(** What strict validation has checked of an accepted action that is not a
    wait. *)
Lemma validated_fields (a : Action.t) :
  validateStrictAction a = "" -> kindOf a <> "wait" ->
  In (kindOf a) actionableKinds
  /\ assetOf a <> "" /\ assetOf a <> "AGC"
  /\ (Action.Qty a <=? 0)%float = false
  /\ (kindOf a = "trade" -> isBuyOrSell (sideOf a) = true)
  /\ (kindOf a <> "trade" -> (Action.PriceAGC a <=? 0)%float = false).
Proof.
  unfold validateStrictAction, actionableKinds, isBuyOrSell.
  fold (kindOf a). fold (sideOf a). fold (cleanSymbol (Action.AssetSymbol a)).
  fold (assetOf a).
  intros V W.
  destruct (String.eqb (kindOf a) "post_offer") eqn:K1;
  destruct (String.eqb (kindOf a) "create_rfq") eqn:K2;
  destruct (String.eqb (kindOf a) "trade") eqn:K3;
  destruct (String.eqb (kindOf a) "wait") eqn:K4;
    cbn [orb negb andb] in V; string_tests; try congruence.
  4: { destruct (String.eqb (kindOf a) ""); [discriminate|].
       destruct (String.eqb (kindOf a) "noop"); discriminate. }
  all: destruct (String.eqb_spec (assetOf a) "") as [A1|A1]; [discriminate|];
    destruct (String.eqb_spec (assetOf a) "AGC") as [A2|A2]; [discriminate|];
    destruct (Action.Qty a <=? 0)%float eqn:Q; [discriminate|].
  - destruct (Action.PriceAGC a <=? 0)%float eqn:P; [discriminate|].
    repeat split; simpl; auto; intros; congruence.
  - destruct (Action.PriceAGC a <=? 0)%float eqn:P; [discriminate|].
    repeat split; simpl; auto; intros; congruence.
  - destruct (String.eqb (sideOf a) "buy") eqn:S1;
      destruct (String.eqb (sideOf a) "sell") eqn:S2;
      cbn [orb negb andb] in V; try discriminate;
      repeat split; simpl; auto; intros; congruence.
Qed.

(** Once strict validation has accepted an action that is not a wait,
    preflight never blocks it for a missing asset, for the settlement asset,
    for its side, for an unsupported kind or, for an offer or an RFQ, for its
    price: it lets it proceed or blocks it for the balances, the rounded
    quantity, a limit, the funds, the liquidity or, for a trade, a price that
    is not known. *)
Theorem preflight_after_validation (oor : float -> Z) (fees : FeeConfig)
    (r : Runner.t) (a : Action.t) :
  validateStrictAction a = "" -> kindOf a <> "wait" ->
  preflight oor fees r a = proceed
  \/ exists msg, In msg reachableReasons
                 /\ preflight oor fees r a = blocked msg
                 /\ (msg = "price unavailable" -> kindOf a = "trade").
Proof.
  intros V W.
  destruct (validated_fields a V W) as (K & A1 & A2 & Q & S & P).
  unfold preflight, resolvePrice.
  fold (assetOf a). fold (kindOf a). fold (sideOf a).
  apply String.eqb_neq in A1, A2. rewrite A1, A2.
  unfold actionableKinds in K. simpl in K.
  unfold reachableReasons, blocked, proceed.
  destruct K as [K|[K|[K|[]]]]; rewrite <- K in *.
  - pose proof (P ltac:(discriminate)) as Pf.
    change (String.eqb "post_offer" "post_offer") with true. cbv iota.
    repeat (rewrite Pf; cbv iota).
    repeat next_test;
      first [ left; reflexivity
            | right; eexists; split; [|split; [reflexivity|intros X; discriminate X]];
              simpl; auto 13 ].
  - pose proof (P ltac:(discriminate)) as Pf.
    change (String.eqb "create_rfq" "post_offer") with false.
    change (String.eqb "create_rfq" "create_rfq") with true. cbv iota.
    repeat (rewrite Pf; cbv iota).
    repeat next_test;
      first [ left; reflexivity
            | right; eexists; split; [|split; [reflexivity|intros X; discriminate X]];
              simpl; auto 13 ].
  - rewrite (S eq_refl).
    change (String.eqb "trade" "post_offer") with false.
    change (String.eqb "trade" "create_rfq") with false.
    change (String.eqb "trade" "trade") with true. cbv iota. cbn [negb].
    repeat next_test;
      first [ left; reflexivity
            | right; eexists; split; [|split; [reflexivity|intros _; reflexivity]];
              simpl; auto 13 ].
Qed.


(** ** The completion client *)

Lemma reverse_involutive (s : string) : gostrings.reverse (gostrings.reverse s) = s.
Proof.
  apply chars_inj. rewrite !chars_reverse. apply List.rev_involutive.
Qed.

Lemma TrimLeftFunc_head (f : ascii -> bool) (s : string) (c : ascii)
      (rest : string) :
  gostrings.TrimLeftFunc f s = String c rest -> f c = false.
Proof.
  induction s as [|d s IH]; [discriminate|].
  cbn [gostrings.TrimLeftFunc]. destruct (f d) eqn:F; [exact IH|].
  intros E. injection E as <- _. exact F.
Qed.

(** Nothing is left to trim on the right. *)
Lemma HasSuffix_TrimRight (s : string) :
  gostrings.HasSuffix (TrimRight s "/") "/" = false.
Proof.
  unfold gostrings.HasSuffix, TrimRight, gostrings.TrimRightFunc.
  rewrite reverse_involutive.
  change (gostrings.reverse "/") with "/".
  destruct (gostrings.TrimLeftFunc (gostrings.inCutset "/") (gostrings.reverse s))
    as [|c rest] eqn:T; [reflexivity|].
  apply TrimLeftFunc_head in T. cbn [String.prefix].
  destruct (ascii_dec "/" c) as [<-|N]; [discriminate T|reflexivity].
Qed.

(** [New] makes no client, and reports no error, exactly when no provider is
    configured.  A client that it makes is of the provider asked for, has a
    model name without Unicode white space around it, a base URL that does
    not end with a slash, neither of them empty, and a timeout of 15 seconds
    unless a positive one is configured.  It fails only for "openai" without a
    key or without a model, and for a provider that it does not know. *)
Theorem New_client (getenv : string -> string) (cfg : llm.Config) :
  let wanted := gostrings.ToLower (gostrings.TrimSpace (llm.Provider cfg)) in
  (llm.New getenv cfg = inl None <-> wanted = "")
  /\ (forall c, llm.New getenv cfg = inl (Some c) ->
        llm.provider c = wanted
        /\ llm.model c <> ""
        /\ gostrings.TrimSpace (llm.model c) = llm.model c
        /\ llm.baseURL c <> ""
        /\ gostrings.HasSuffix (llm.baseURL c) "/" = false
        /\ (llm.TimeoutSeconds cfg <= 0 -> llm.timeout c = 15 * Second)
        /\ (0 < llm.TimeoutSeconds cfg <= 9223372036 ->
            llm.timeout c = llm.TimeoutSeconds cfg * Second))
  /\ (forall err, llm.New getenv cfg = inr err ->
        (wanted = "openai"
         /\ (gostrings.TrimSpace (llm.APIKey cfg) = ""
             /\ gostrings.TrimSpace (getenv "OPENAI_API_KEY") = ""
             \/ gostrings.TrimSpace (llm.Model cfg) = ""))
        \/ (wanted <> "openai" /\ wanted <> "ollama"
            /\ err = "unknown llm provider: " +:+ wanted)).
Proof.
  intros wanted. unfold llm.New. fold wanted.
  assert (URL : forall fallback : string,
             fallback <> "" -> gostrings.HasSuffix fallback "/" = false ->
             let url := TrimRight (gostrings.TrimSpace (llm.BaseURL cfg)) "/" in
             (if String.eqb url "" then fallback else url) <> ""
             /\ gostrings.HasSuffix (if String.eqb url "" then fallback else url)
                  "/" = false).
  { intros fallback F1 F2 url.
    destruct (String.eqb_spec url "") as [E|E]; [auto|].
    split; [exact E|apply HasSuffix_TrimRight]. }
  assert (TO : forall t : Z,
             (t <= 0 ->
              wrap_int64 ((if t <=? 0 then 15 else t) * Second) = 15 * Second)
             /\ (0 < t <= 9223372036 ->
                 wrap_int64 ((if t <=? 0 then 15 else t) * Second) = t * Second)).
  { intros t. unfold Second. destruct (Z.leb_spec t 0); split; intros L;
      try lia; apply wrap_int64_small; lia. }
  destruct (String.eqb_spec wanted "") as [W0|W0].
  { split; [split; auto|]. split; intros ? X; discriminate X. }
  destruct (String.eqb_spec wanted "openai") as [W1|W1].
  { split; [split; [|contradiction]|].
    { destruct (String.eqb _ ""); [discriminate|].
      destruct (String.eqb _ ""); discriminate. }
    set (key := if String.eqb (gostrings.TrimSpace (llm.APIKey cfg)) ""
                then gostrings.TrimSpace (getenv "OPENAI_API_KEY")
                else gostrings.TrimSpace (llm.APIKey cfg)).
    assert (K : key = "" ->
                gostrings.TrimSpace (llm.APIKey cfg) = ""
                /\ gostrings.TrimSpace (getenv "OPENAI_API_KEY") = "").
    { subst key.
      destruct (String.eqb_spec (gostrings.TrimSpace (llm.APIKey cfg)) "");
        [auto|contradiction]. }
    destruct (String.eqb_spec key "") as [K0|K0].
    { split; [intros ? X; discriminate X|]. intros err _. left.
      split; [exact W1|]. left. exact (K K0). }
    destruct (String.eqb_spec (gostrings.TrimSpace (llm.Model cfg)) "") as [M|M].
    { split; [intros ? X; discriminate X|]. intros err _. left.
      split; [exact W1|]. right. exact M. }
    split; [|intros ? X; discriminate X].
    intros c X. injection X as <-. cbn [llm.provider llm.model llm.baseURL llm.timeout].
    destruct (URL "https://api.openai.com/v1") as (U1 & U2);
      [discriminate|reflexivity|].
    split; [auto|]. split; [exact M|]. split; [apply TrimSpace_idem|].
    split; [exact U1|]. split; [exact U2|]. apply TO. }
  destruct (String.eqb_spec wanted "ollama") as [W2|W2].
  { split; [split; [discriminate|contradiction]|].
    split; [|intros ? X; discriminate X].
    intros c X. injection X as <-. cbn [llm.provider llm.model llm.baseURL llm.timeout].
    destruct (URL "http://localhost:11434") as (U1 & U2);
      [discriminate|reflexivity|].
    split; [auto|].
    assert (M : (if String.eqb (gostrings.TrimSpace (llm.Model cfg)) ""
                 then "llama3.2" else gostrings.TrimSpace (llm.Model cfg)) <> ""
                /\ gostrings.TrimSpace
                     (if String.eqb (gostrings.TrimSpace (llm.Model cfg)) ""
                      then "llama3.2" else gostrings.TrimSpace (llm.Model cfg))
                   = (if String.eqb (gostrings.TrimSpace (llm.Model cfg)) ""
                      then "llama3.2" else gostrings.TrimSpace (llm.Model cfg))).
    { destruct (String.eqb_spec (gostrings.TrimSpace (llm.Model cfg)) "") as [E|E].
      - split; [discriminate|reflexivity].
      - split; [exact E|apply TrimSpace_idem]. }
    destruct M as (M1 & M2).
    split; [exact M1|]. split; [exact M2|].
    split; [exact U1|]. split; [exact U2|]. apply TO. }
  split; [split; [discriminate|contradiction]|].
  split; [intros ? X; discriminate X|].
  intros err X. injection X as <-. right. auto.
Qed.

(** The default configuration starts the agent without a model; a local
    provider gets its defaults. *)
Example New_defaults :
  llm.New (fun _ => "") defaultLLM = inl None
  /\ llm.New (fun _ => "") localLLM
     = inl (Some (llm.ollamaClient "http://127.0.0.1:11434" "llama3.2"
                    0.2%float 256 (15 * Second))).
Proof. split; reflexivity. Qed.

(** ** White space that is not ASCII

    What the program does with a no-break space around a text, whatever the
    case tables. *)

Example TrimSpace_unicode :
  gostrings.TrimSpace
    (nbsp +:+ String (ascii_of_nat 9) "wait"
     +:+ String (ascii_of_nat 227) (String (ascii_of_nat 128)
           (String (ascii_of_nat 128) "")))
  = "wait".
Proof. vm_compute. reflexivity. Qed.

Example validateStrictAction_nbsp :
  validateStrictAction
    (Action.mk (nbsp +:+ "wait") "" "" 0%float 0%float "" "" 5) = ""
  /\ validateStrictAction
       (Action.mk (nbsp +:+ "noop") "" "" 0%float 0%float "" "" 0)
     = "noop is not allowed"
  /\ validateStrictAction
       (Action.mk (nbsp +:+ "trade") nbsp "" 2%float 10%float "buy" "" 0)
     = "asset_symbol is required".
Proof. vm_compute. repeat split; reflexivity. Qed.

Example scoreDecisionOutcome_nbsp :
  scoreDecisionOutcome ("blocked" +:+ nbsp) "" = (-0.3)%float.
Proof. vm_compute. reflexivity. Qed.

Example extractObject_nbsp : extractObject ("{}" +:+ nbsp) = "{}".
Proof. vm_compute. reflexivity. Qed.

End Runtime.

(* ===================================================================== *)
(** * Part IV: the theorems at work                                        *)
(* ===================================================================== *)

(** The examples below are on ASCII text, which Go maps and folds without its
    tables; they are run with [asciiTables], which meets what the theorems ask
    of the tables. *)
#[local] Existing Instance asciiTables.

Lemma asciiTables_ToUpper (s : string) :
  gostrings.ToUpper s = gostrings.mapBytes gostrings.upperByte s.
Proof.
  unfold gostrings.ToUpper. destruct (gostrings.isASCII s); reflexivity.
Qed.

Lemma asciiTables_ToLower (s : string) :
  gostrings.ToLower s = gostrings.mapBytes gostrings.lowerByte s.
Proof.
  unfold gostrings.ToLower. destruct (gostrings.isASCII s); reflexivity.
Qed.

Lemma asciiTables_upperSettles : upperSettles.
Proof.
  intros s. unfold cleanSymbol. rewrite !asciiTables_ToUpper.
  apply mapTrim_idem; [apply plainMap_upperByte|apply upperByte_idem].
Qed.

Lemma asciiTables_lowerSettles : lowerSettles.
Proof.
  intros s. rewrite !asciiTables_ToLower.
  apply mapTrim_idem; [apply plainMap_lowerByte|apply lowerByte_idem].
Qed.

Lemma asciiTables_lowerKeepsText : lowerKeepsText.
Proof.
  intros s. rewrite !asciiTables_ToLower.
  rewrite (TrimSpace_mapBytes _ _ plainMap_lowerByte), TrimSpace_idem.
  intros E. exact E.
Qed.

(** The example of the specification: with both fees 0 and balances
    {AGC: 100, X: 0}, the offer of 2 units of X at price 5 proceeds; with a
    mint fee of 51 the 2 units that nothing backs cost 102, and the offer is
    blocked for the fee. *)
Lemma preflight_post_offer_witness :
  kindOf offerAction = "post_offer"
  /\ roundToUint64 saturate (Action.Qty offerAction) = 2
  /\ heldOf (bookRunner [] [] [("AGC", 100); ("X", 0)]) (assetOf offerAction) = 0
  /\ offerNeed initialFees 2 0 = 0
  /\ preflight saturate initialFees
       (bookRunner [] [] [("AGC", 100); ("X", 0)]) offerAction = proceed
  /\ offerNeed mintFees 2 0 = 102
  /\ preflight saturate mintFees
       (bookRunner [] [] [("AGC", 100); ("X", 0)]) offerAction
     = blocked "insufficient AGC for offer fee/mint".
Proof.
  assert (K : kindOf offerAction = "post_offer") by reflexivity.
  assert (Q : roundToUint64 saturate (Action.Qty offerAction) = 2) by reflexivity.
  assert (H : heldOf (bookRunner [] [] [("AGC", 100); ("X", 0)])
                (assetOf offerAction) = 0) by reflexivity.
  assert (B : balancesKnown (bookRunner [] [] [("AGC", 100); ("X", 0)]))
    by (vm_compute; discriminate).
  assert (Q0 : roundToUint64 saturate (Action.Qty offerAction) <> 0)
    by (rewrite Q; discriminate).
  assert (A1 : assetOf offerAction <> "") by (vm_compute; discriminate).
  assert (A2 : assetOf offerAction <> "AGC") by (vm_compute; discriminate).
  split; [exact K|]. split; [exact Q|]. split; [exact H|].
  split; [reflexivity|]. split; [|split; [reflexivity|]].
  - destruct (preflight_post_offer saturate initialFees
                (bookRunner [] [] [("AGC", 100); ("X", 0)]) offerAction K Q0 A1 A2)
      as (_ & _ & P & _).
    + rewrite H. lia.
    + vm_compute. discriminate.
    + vm_compute. discriminate.
    + rewrite Q, H. vm_compute. reflexivity.
    + apply P; [exact B|]. rewrite Q. unfold offerBlocked.
      intros [L|[L|[L|L]]]; vm_compute in L;
        first [discriminate L | exact (L eq_refl)].
  - destruct (preflight_post_offer saturate mintFees
                (bookRunner [] [] [("AGC", 100); ("X", 0)]) offerAction K Q0 A1 A2)
      as (_ & P & _).
    + rewrite H. lia.
    + vm_compute. discriminate.
    + vm_compute. discriminate.
    + rewrite Q, H. vm_compute. reflexivity.
    + apply P.
      * exact B.
      * vm_compute. reflexivity.
      * vm_compute. reflexivity.
      * reflexivity.
      * rewrite Q, H. vm_compute. reflexivity.
Defined.

(** The worked example of the specification: buy 10 at price 2 has notional 20
    and fee 0; it is blocked at a settlement balance of 19 and proceeds at 20
    when 10 units rest at price 2. *)
Lemma preflight_trade_in_range_witness :
  notionalOf saturate 2 10 = 20
  /\ calcTradeFee initialFees 20 = 0
  /\ preflight saturate initialFees
       (bookRunner tenAtTwo [] [("AGC", 19)]) buyAction
     = blocked "insufficient AGC balance"
  /\ preflight saturate initialFees
       (bookRunner tenAtTwo [] [("AGC", 20)]) buyAction = proceed
  /\ preflight saturate initialFees
       (bookRunner [] [] [("AGC", 20)]) buyAction
     = blocked "no matching offer liquidity".
Proof.
  split; [reflexivity|]. split; [reflexivity|]. split; [reflexivity|].
  split; [|reflexivity].
  assert (B : balancesKnown (bookRunner tenAtTwo [] [("AGC", 20)]))
    by (vm_compute; discriminate).
  assert (T : forall x y : Z, x = y -> y <> 0 -> x <> 0) by (intros; lia).
  apply (preflight_trade_in_range saturate
           (bookRunner tenAtTwo [] [("AGC", 20)]) buyAction B).
  - apply (T _ 10); [reflexivity|lia].
  - vm_compute; discriminate.
  - vm_compute; discriminate.
  - reflexivity.
  - reflexivity.
  - reflexivity.
  - reflexivity.
  - reflexivity.
  - split; [vm_compute; discriminate|reflexivity].
Defined.

(** Raising the mint fee to 51 blocks the offer of 2 units that nothing backs:
    102 is needed and 100 held. *)
Lemma preflight_post_offer_fees_witness :
  offerNeed mintFees 2 0 = 102
  /\ preflight saturate mintFees
       (bookRunner [] [] [("AGC", 100); ("X", 0)]) offerAction
     = blocked "insufficient AGC for offer fee/mint".
Proof.
  split; [reflexivity|].
  assert (T : forall x y : Z, x = y -> y <> 0 -> x <> 0) by (intros; lia).
  apply (preflight_post_offer_fees saturate mintFees
           (bookRunner [] [] [("AGC", 100); ("X", 0)]) offerAction).
  - vm_compute; discriminate.
  - apply (T _ 2); [reflexivity|lia].
  - vm_compute; discriminate.
  - vm_compute; discriminate.
  - reflexivity.
  - vm_compute; discriminate.
  - vm_compute; discriminate.
  - vm_compute; discriminate.
  - reflexivity.
  - reflexivity.
  - reflexivity.
  - reflexivity.
  - reflexivity.
Defined.

(** C1, as the specification states it, fails at hint -5: the code schedules
    6 seconds, not 1 second. *)
Lemma normalizeWaitDuration_minus5 :
  normalizeWaitDuration (-5) = 6 * Second
  /\ normalizeWaitDuration (-5) <> 1 * Second.
Proof.
  split; [reflexivity|]. vm_compute. discriminate.
Qed.

Lemma validateStrictAction_grammar_witness :
  jsonNumbers acceptedTrade
  /\ validateStrictAction acceptedTrade = ""
  /\ StrictGrammar acceptedTrade.
Proof.
  assert (N : jsonNumbers acceptedTrade) by (split; reflexivity).
  split; [exact N|]. split; [reflexivity|].
  apply (validateStrictAction_grammar acceptedTrade N). reflexivity.
Defined.


Lemma pushDecisionMemory_fifo_witness :
  (List.length fullMemory <= decisionMemoryLimit)%nat
  /\ (List.length (pushDecisionMemory "now" fullMemory (entryOf "k13"))
      <= decisionMemoryLimit)%nat
  /\ pushDecisionMemory "now" fullMemory (entryOf "k13")
     = (List.tl fullMemory ++ [entryOf "k13"])%list.
Proof.
  assert (L : (List.length fullMemory <= decisionMemoryLimit)%nat)
    by (unfold decisionMemoryLimit; simpl; lia).
  destruct (pushDecisionMemory_fifo "now" fullMemory (entryOf "k13") L)
    as (Bound & Inserted & _).
  split; [exact L|]. split; [exact Bound|].
  apply Inserted; [discriminate|reflexivity].
Defined.

(** The example of the specification: a buy of 3 at price 5 fails on a book
    where only 2 units rest at qualifying prices (a third offer is priced too
    high and a fourth is the agent's own), and succeeds where 3 do. *)
Lemma hasTradeLiquidity_reaches_witness :
  3 <> 0 /\ gostrings.ToUpper (gostrings.TrimSpace "X") <> ""
  /\ countedOffers (bookRunner thinBook [] []) "X" 5 = [1; 1]%float
  /\ hasTradeLiquidity (bookRunner thinBook [] []) "buy" "X" 5 3 = false
  /\ ~ reaches (float64.of_uint64 3)
         (countedOffers (bookRunner thinBook [] []) "X" 5)
  /\ countedOffers (bookRunner deepBook [] []) "X" 5 = [1; 2]%float
  /\ hasTradeLiquidity (bookRunner deepBook [] []) "buy" "X" 5 3 = true
  /\ reaches (float64.of_uint64 3)
       (countedOffers (bookRunner deepBook [] []) "X" 5).
Proof.
  assert (Hq : 3 <> 0) by lia.
  assert (Ha : gostrings.ToUpper (gostrings.TrimSpace "X") <> "")
    by (vm_compute; discriminate).
  split; [exact Hq|]. split; [exact Ha|].
  assert (Thin : hasTradeLiquidity (bookRunner thinBook [] []) "buy" "X" 5 3 = false)
    by reflexivity.
  assert (Deep : hasTradeLiquidity (bookRunner deepBook [] []) "buy" "X" 5 3 = true)
    by reflexivity.
  split; [vm_compute; reflexivity|].
  split; [exact Thin|]. split.
  - intros R.
    apply (proj1 (hasTradeLiquidity_reaches (bookRunner thinBook [] []) "X" 5 3 Hq Ha))
      in R.
    rewrite Thin in R. discriminate.
  - split; [vm_compute; reflexivity|]. split; [exact Deep|].
    apply (proj1 (hasTradeLiquidity_reaches (bookRunner deepBook [] []) "X" 5 3 Hq Ha)).
    exact Deep.
Defined.

Lemma formatHoldings_order_witness :
  formatHoldings (fun A m => List.rev (map_to_list m)) heldRunner
  = formatHoldings (fun A => map_to_list) heldRunner
  /\ formatHoldings (fun A => map_to_list) heldRunner
     = " y  9, AGC 100, Z 50, x 5".
Proof.
  split; [|vm_compute; reflexivity].
  apply (formatHoldings_order (fun A m => List.rev (map_to_list m))).
  intros m. symmetry. apply Permutation_rev.
Defined.

Lemma preflight_after_validation_witness :
  validateStrictAction buyAction = ""
  /\ preflight saturate initialFees (bookRunner tenAtTwo [] [("AGC", 19)])
       buyAction
     = blocked "insufficient AGC balance"
  /\ In "insufficient AGC balance" reachableReasons.
Proof.
  assert (V : validateStrictAction buyAction = "") by (vm_compute; reflexivity).
  assert (W : kindOf buyAction <> "wait") by (vm_compute; discriminate).
  split; [exact V|].
  destruct (preflight_after_validation saturate initialFees
              (bookRunner tenAtTwo [] [("AGC", 19)]) buyAction V W)
    as [P|(msg & I & P & _)].
  - vm_compute in P. discriminate P.
  - assert (E : preflight saturate initialFees
                  (bookRunner tenAtTwo [] [("AGC", 19)]) buyAction
                = blocked "insufficient AGC balance") by (vm_compute; reflexivity).
    split; [exact E|]. rewrite E in P. injection P as <-. exact I.
Defined.

(** An RFQ for 3 units at price 2 costs 6: it proceeds on a settlement balance
    of 6. *)
Lemma preflight_create_rfq_witness :
  notionalOf saturate 2 3 = 6
  /\ preflight saturate initialFees (bookRunner [] [] [("AGC", 6)]) rfqAction
     = proceed
  /\ preflight saturate initialFees (bookRunner [] [] [("AGC", 5)]) rfqAction
     = blocked "insufficient AGC balance".
Proof.
  split; [reflexivity|]. split; [|reflexivity].
  assert (T : forall x y : Z, x = y -> y <> 0 -> x <> 0) by (intros; lia).
  apply (preflight_create_rfq saturate initialFees
           (bookRunner [] [] [("AGC", 6)]) rfqAction).
  - vm_compute; discriminate.
  - apply (T _ 3); [reflexivity|lia].
  - vm_compute; discriminate.
  - vm_compute; discriminate.
  - reflexivity.
  - vm_compute; discriminate.
  - reflexivity.
  - split; [reflexivity|]. split; [reflexivity|]. vm_compute; discriminate.
Defined.

Lemma executeAction_outcome_witness :
  gostrings.TrimSpace (kindOf buyAction) <> ""
  /\ submissions
       (snd (executeAction saturate initialFees accepting "now"
               (bookRunner tenAtTwo [] [("AGC", 19)]) buyAction "raw")) = []
  /\ List.map memoryDecision.Status
       (Runner.decisionMemory
          (fst (executeAction saturate initialFees accepting "now"
                  (bookRunner tenAtTwo [] [("AGC", 19)]) buyAction "raw")))
     = ["blocked"].
Proof.
  assert (K : gostrings.TrimSpace (kindOf buyAction) <> "")
    by (vm_compute; discriminate).
  split; [exact K|].
  destruct (executeAction_outcome saturate initialFees accepting "now"
              (bookRunner tenAtTwo [] [("AGC", 19)]) buyAction "raw" K)
    as (status & errMsg & _ & M & _ & _ & _ & _ & B).
  destruct (B "insufficient AGC balance") as (-> & -> & S); [reflexivity|].
  split; [exact S|]. rewrite M. reflexivity.
Defined.

Lemma pickActionAsset_accepted_witness :
  pickActionAsset (fun A => map_to_list) elements heldRunner "post_offer" = "Y"
  /\ pickActionAsset (fun A => map_to_list) elements heldRunner "create_rfq" <> ""
  /\ "Y" ∈ allowedSet (Runner.allowedTokens heldRunner).
Proof.
  assert (E : pickActionAsset (fun A => map_to_list) elements heldRunner
                "post_offer" = "Y") by (vm_compute; reflexivity).
  assert (N : pickActionAsset (fun A => map_to_list) elements heldRunner
                "create_rfq" <> "") by (vm_compute; discriminate).
  split; [exact E|]. split; [exact N|].
  pose proof (pickActionAsset_accepted asciiTables_upperSettles
                (fun A => map_to_list) elements
                elements_members heldRunner "post_offer") as P.
  cbv zeta in P. destruct P as (P & _). rewrite E in P.
  destruct P as (_ & _ & _ & P); [discriminate|]. apply P.
  intros Z0. assert (M : "X" ∈ allowedSet (Runner.allowedTokens heldRunner)).
  { apply allowedSet_spec. exists "x". split; [left; reflexivity|].
    split; [vm_compute; reflexivity|]. split; discriminate. }
  rewrite Z0 in M. exact (not_elem_of_empty _ M).
Defined.

Lemma pickActionAsset_holds_most_witness :
  pickActionAsset (fun A => map_to_list) elements heldRunner "trade" = "Y"
  /\ exists entry, In entry (map_to_list (Runner.lastBalances heldRunner))
       /\ pickActionAsset (fun A => map_to_list) elements heldRunner "trade"
          = cleanSymbol (fst entry)
       /\ 0 < snd entry
       /\ forall other, In other (map_to_list (Runner.lastBalances heldRunner)) ->
            accept (allowedSet (Runner.allowedTokens heldRunner)) (fst other)
            = true ->
            snd other <= snd entry.
Proof.
  split; [vm_compute; reflexivity|].
  destruct (pickActionAsset_holds_most asciiTables_upperSettles
              (fun A => map_to_list) elements
              heldRunner "trade") as (e & E1 & E2 & E3 & E4 & E5).
  - right. reflexivity.
  - exists (" y ", 9). split; [|split; [vm_compute; reflexivity|reflexivity]].
    apply (proj1 (list_elem_of_In _ _)).
    apply (proj2 (elem_of_map_to_list _ _ _)). vm_compute. reflexivity.
  - exists e. auto.
Defined.

Lemma buildPrompt_counters_witness :
  Runner.lastOpenOffers
    (buildPrompt_runner (bookRunner [] [] [("AGC", 100)]) [] fiveOffers []) = 5
  /\ preflight saturate initialFees
       (buildPrompt_runner (bookRunner [] [] [("AGC", 100)]) [] fiveOffers [])
       offerAction
     <> proceed.
Proof.
  destruct (buildPrompt_counters saturate initialFees
              (bookRunner [] [] [("AGC", 100)]) [] fiveOffers [])
    as (C1 & _ & _ & _ & _ & C6 & _).
  - vm_compute. reflexivity.
  - vm_compute. reflexivity.
  - split; [rewrite C1; vm_compute; reflexivity|].
    apply C6; [vm_compute; reflexivity|]. left. vm_compute. lia.
Defined.


(** A history of three decisions, of which the one without a kind and the
    "noop" (written with white space that is not ASCII) are dropped. *)
Lemma seedDecisionMemory_selection_witness :
  lowerKeepsText
  /\ seedSelection seedHistory = [tradeDecision]
  /\ List.map memoryDecision.Action
       (Runner.decisionMemory
          (seedDecisionMemory (fun _ => "now") idleRunner (Some seedHistory)))
     = ["trade"].
Proof.
  split; [exact asciiTables_lowerKeepsText|].
  assert (S : seedSelection seedHistory = [tradeDecision])
    by (vm_compute; reflexivity).
  split; [exact S|].
  pose proof (seedDecisionMemory_selection (fun _ => "now") idleRunner
                seedHistory asciiTables_lowerKeepsText) as P.
  cbv zeta in P. destruct P as (_ & _ & _ & _ & _ & _ & M).
  rewrite M, S. vm_compute. reflexivity.
Defined.

(** A policy with a lower-case token, one in white space, the settlement
    denomination and a blank one. *)
Lemma nextAllowed_normal_witness :
  upperSettles
  /\ nextAllowed ["x"; " y "; "agc"; "  "] = ["X"; "Y"]
  /\ nextAllowed (nextAllowed ["x"; " y "; "agc"; "  "])
     = nextAllowed ["x"; " y "; "agc"; "  "].
Proof.
  split; [exact asciiTables_upperSettles|].
  split; [vm_compute; reflexivity|].
  destruct (nextAllowed_normal ["x"; " y "; "agc"; "  "]
              asciiTables_upperSettles) as (_ & _ & I & _).
  exact I.
Defined.
